(** * Coaching backend: payments, enrollment and assessments

    A shallow embedding of the payment ledger (routes/payments.js with the
    Payment model), the enrollment it grants (User.enrolledCourses,
    Course.enrollmentCount) and the assessment engine (routes/tests.js with
    the Test and TestResult models), then of what stands around them: the
    guards of middleware/auth.js, the registration of an admin with an
    invite code and the votes of a forum post; followed by the properties
    of these operations.

    Conventions of the embedding:
    - a MongoDB collection is the list of its documents in insertion order;
      [findOne] and [findById] return the first match;
    - an ObjectId is a natural number, a Date is its millisecond value;
    - a route handler is a function from the database (and the clock and
      what the external services answered) to a reply and a database;
      [next(error)] is the reply [Next];
    - every [await] on the database is one atomic step; the racing routes
      are also given as step machines whose steps a scheduler interleaves;
    - a string is the sequence of its characters, whose codes are below
      256; among them the whitespace that the sanitizer [trim], the schema
      option [trim] and the regex class \s strip has the codes 9 to 13, 32
      and 160;
    - marks, amounts and counters are integers below 2^53 in magnitude (the
      validators ask isInt), where the sums of doubles the code takes are
      exact, and they are added in Z; a quotient is not exact, and the
      percentages are computed as the code does, rounding to a 53-bit
      significand after the division and after the multiplication. *)

From Stdlib Require Import ZArith List String Ascii Bool Arith Lia.
From Stdlib Require Import DecimalString.
Import ListNotations.

Local Open Scope string_scope.
Local Open Scope list_scope.
Local Open Scope Z_scope.

Set Implicit Arguments.

(** ** Values *)

Definition ObjectId := nat.
Definition Date := Z.

Bind Scope nat_scope with ObjectId.

Inductive Role := superadmin | admin | student.

Inductive PaymentStatus := pending | completed | failed | refunded | cancelled.

Inductive PaymentMethod := online | offline.

Inductive EnrollmentStatus := enr_pending | enr_completed | enr_failed.

Inductive Difficulty := easy | medium | hard.

(** A JavaScript Number as far as the routes produce one: an integer, or
    one of the values a division by zero yields. *)
Inductive Number := Fin (z : Z) | NaN | Infinity | NegInfinity.

Definition PaymentStatus_eqb (a b : PaymentStatus) : bool :=
  match a, b with
  | pending, pending | completed, completed | failed, failed
  | refunded, refunded | cancelled, cancelled => true
  | _, _ => false
  end.

Definition PaymentMethod_eqb (a b : PaymentMethod) : bool :=
  match a, b with
  | online, online | offline, offline => true
  | _, _ => false
  end.

Definition EnrollmentStatus_eqb (a b : EnrollmentStatus) : bool :=
  match a, b with
  | enr_pending, enr_pending | enr_completed, enr_completed
  | enr_failed, enr_failed => true
  | _, _ => false
  end.

(** *** Doubles

    A finite double is [m * 2^e] with a significand [m] of at most 53
    bits; the result of an operation is the double nearest to the exact
    result, the one with the even significand when two are as near. The
    operands here are integers below 2^53, so that quotients and products
    stay far from the ends of the exponent range, which is left out. *)

(** The integer nearest to [n / d] for [0 < d], ties to even. *)
Definition nearest_even (n d : Z) : Z :=
  let q := n / d in
  let r := n mod d in
  if 2 * r <? d then q
  else if d <? 2 * r then q + 1
  else if Z.even q then q else q + 1.

(** The exponent [e] with [2^52 <= (n / d) / 2^e < 2^53], for [0 < n] and
    [0 < d]. *)
Definition binade (n d : Z) : Z :=
  let k := Z.log2 n - Z.log2 d in
  (if (if 0 <=? k then d * 2 ^ k <=? n else d <=? n * 2 ^ (- k))
   then k else k - 1) - 52.

(** [(n / d) / 2^e] as a fraction. *)
Definition scaled (n d e : Z) : Z * Z :=
  if 0 <=? e then (n, d * 2 ^ e) else (n * 2 ^ (- e), d).

(** The double nearest to [n / d], for [0 < d]: significand and
    exponent. *)
Definition round53 (n d : Z) : Z * Z :=
  if n =? 0 then (0, 0)
  else
    let e := binade (Z.abs n) d in
    let '(n', d') := scaled (Z.abs n) d e in
    (Z.sgn n * nearest_even n' d', e).

(** The double nearest to an integer; it is an integer. *)
Definition nearest_double (n : Z) : Z :=
  let '(m, e) := round53 n 1 in
  if 0 <=? e then m * 2 ^ e else m / 2 ^ (- e).

(** [a + b] for doubles that are integers. *)
Definition plus (a b : Z) : Z := nearest_double (a + b).

(** [m / t] for integers, [t] not 0. *)
Definition quotient (m t : Z) : Z * Z := round53 (m * Z.sgn t) (Z.abs t).

(** [x * c] for an integer [c]. *)
Definition times (c : Z) (x : Z * Z) : Z * Z :=
  let '(m, e) := x in
  if 0 <=? e then round53 (c * m * 2 ^ e) 1 else round53 (c * m) (2 ^ (- e)).

(** [Math.round]: the integer nearest to [x], the upper one of two. *)
Definition Math_round (x : Z * Z) : Z :=
  let '(m, e) := x in
  if 0 <=? e then m * 2 ^ e else (2 * m + 2 ^ (- e)) / 2 ^ (1 - e).

(** [Math.round((m / t) * 100)] and [Math.round(m / t)] for [t] not 0. *)
Definition percent (m t : Z) : Z := Math_round (times 100 (quotient m t)).

Definition round_quotient (m t : Z) : Z := Math_round (quotient m t).

(** [Math.round((m / t) * 100)]: [0 / 0] is NaN, [m / 0] an infinity. *)
Definition round_percentage (m t : Z) : Number :=
  if t =? 0 then
    if m =? 0 then NaN else if 0 <? m then Infinity else NegInfinity
  else Fin (percent m t).

(** *** Strings *)

(** The whitespace among the characters below 256. *)
Definition is_space (c : ascii) : bool :=
  let n := nat_of_ascii c in
  ((9 <=? n)%nat && (n <=? 13)%nat) || (n =? 32)%nat || (n =? 160)%nat.

Fixpoint ltrim (s : string) : string :=
  match s with
  | EmptyString => EmptyString
  | String c rest => if is_space c then ltrim rest else s
  end.

Fixpoint rtrim (s : string) : string :=
  match s with
  | EmptyString => EmptyString
  | String c rest =>
      match rtrim rest with
      | EmptyString => if is_space c then EmptyString else String c EmptyString
      | kept => String c kept
      end
  end.

(** [trim()] of express-validator, and [String.prototype.trim], which
    the schema option [trim: true] applies. *)
Definition trim (s : string) : string := rtrim (ltrim s).

(** [Date]: the time values a Date holds; [new Date(v)] is an Invalid
    Date for any other [v]. *)
Definition is_date (ms : Z) : bool :=
  (-8640000000000000 <=? ms) && (ms <=? 8640000000000000).

(** ** Documents *)

(** models/Test.js *)
Record McqOption := {
  opt_id : ObjectId;
  opt_text : string;
  isCorrect : bool
}.

Record Question := {
  q_id : ObjectId;
  question : string;
  options : list McqOption;
  explanation : string;
  difficulty : Difficulty;
  marks : Z
}.

(** The Test document, over the type of its questions: the stored document
    has [Question]s, the object sent to a student has the stripped ones. *)
Record TestOf (Q : Type) := {
  t_id : ObjectId;
  title : string;
  description : string;
  t_course : ObjectId;
  createdBy : ObjectId;
  questions : list Q;
  duration : Z;
  totalMarks : Z;
  passingMarks : Z;
  isPublished : bool;
  publishedAt : option Date;
  startDate : option Date;
  endDate : option Date;
  maxAttempts : nat;
  shuffleQuestions : bool;
  showResults : bool;
  showCorrectAnswers : bool
}.

Definition Test := TestOf Question.

(** models/TestResult.js *)
Record Answer := {
  a_questionId : ObjectId;
  a_selectedOption : ObjectId;
  a_isCorrect : bool;
  a_marksObtained : Z;
  a_timeTaken : Z
}.

Record TestResult := {
  r_id : ObjectId;
  r_test : ObjectId;
  r_student : ObjectId;
  r_course : ObjectId;
  r_answers : list Answer;
  r_totalMarks : Z;
  r_marksObtained : Z;
  r_percentage : Number;
  r_isPassed : bool;
  r_timeTaken : Z;
  r_startedAt : Date;
  r_submittedAt : Date;
  attemptNumber : nat
}.

(** models/User.js *)
Record Enrollment := {
  e_course : ObjectId;
  enrolledAt : Date;
  e_paymentStatus : EnrollmentStatus;
  e_paymentMethod : PaymentMethod
}.

Record User := {
  u_id : ObjectId;
  name : string;
  email : string;
  role : Role;
  u_isActive : bool;
  enrolledCourses : list Enrollment
}.

(** models/Course.js, the fields the routes below read or write. *)
Record Course := {
  c_id : ObjectId;
  c_title : string;
  instructor : ObjectId;
  price : Z;
  c_isPublished : bool;
  enrollmentCount : Z
}.

(** models/Payment.js (without the refund fields and the metadata, which
    no route below touches). *)
Record OfflineDetails := {
  bankName : option string;
  transactionId : option string;
  transactionDate : option Date;
  screenshot : option string;
  notes : option string
}.

Record Payment := {
  p_id : ObjectId;
  p_student : ObjectId;
  p_course : ObjectId;
  amount : Z;
  paymentMethod : PaymentMethod;
  status : PaymentStatus;
  razorpayOrderId : option string;
  razorpayPaymentId : option string;
  razorpaySignature : option string;
  offlineDetails : OfflineDetails;
  approvedBy : option ObjectId;
  approvedAt : option Date;
  rejectedBy : option ObjectId;
  rejectedAt : option Date;
  rejectionReason : option string
}.

(** ** The database *)

Record Store := {
  users : list User;
  courses : list Course;
  payments : list Payment;
  tests : list Test;
  results : list TestResult;
  nextId : ObjectId
}.

Definition with_users (db : Store) (us : list User) : Store :=
  {| users := us; courses := courses db; payments := payments db;
     tests := tests db; results := results db; nextId := nextId db |}.

Definition with_courses (db : Store) (cs : list Course) : Store :=
  {| users := users db; courses := cs; payments := payments db;
     tests := tests db; results := results db; nextId := nextId db |}.

Definition with_payments (db : Store) (ps : list Payment) : Store :=
  {| users := users db; courses := courses db; payments := ps;
     tests := tests db; results := results db; nextId := nextId db |}.

Definition with_tests (db : Store) (ts : list Test) : Store :=
  {| users := users db; courses := courses db; payments := payments db;
     tests := ts; results := results db; nextId := nextId db |}.

Definition with_results (db : Store) (rs : list TestResult) : Store :=
  {| users := users db; courses := courses db; payments := payments db;
     tests := tests db; results := rs; nextId := nextId db |}.

(** A new document takes the next ObjectId. *)
Definition fresh (db : Store) : Store :=
  {| users := users db; courses := courses db; payments := payments db;
     tests := tests db; results := results db; nextId := S (nextId db) |}.

(** Writing a document back: the first document with its id is replaced. *)
Fixpoint replace_first {A : Type} (same : A -> bool) (d : A) (l : list A)
  : list A :=
  match l with
  | [] => []
  | x :: rest => if same x then d :: rest else x :: replace_first same d rest
  end.

Definition sameId (a b : ObjectId) : bool := Nat.eqb a b.

Definition findUser (db : Store) (id : ObjectId) : option User :=
  find (fun u => sameId (u_id u) id) (users db).

Definition findCourse (db : Store) (id : ObjectId) : option Course :=
  find (fun c => sameId (c_id c) id) (courses db).

Definition findPayment (db : Store) (id : ObjectId) : option Payment :=
  find (fun p => sameId (p_id p) id) (payments db).

Definition findTest (db : Store) (id : ObjectId) : option Test :=
  find (fun t => sameId (t_id t) id) (tests db).

Definition saveUser (db : Store) (u : User) : Store :=
  with_users db (replace_first (fun x => sameId (u_id x) (u_id u)) u (users db)).

Definition savePayment (db : Store) (p : Payment) : Store :=
  with_payments db
    (replace_first (fun x => sameId (p_id x) (p_id p)) p (payments db)).

(** ** Replies *)

Inductive Error :=
| TypeError          (* a property read on null *)
| DuplicateKey       (* E11000, a unique index refused the insert *)
| GatewayError        (* the payment gateway did not answer *)
| ValidationError.   (* a schema validator refused the document *)

(** [res.status(s).json({ success, message, data })], or [next(error)]. *)
Inductive Reply (A : Type) :=
| Sent (code : nat) (success : bool) (message : string) (data : option A)
| Next (err : Error).

Arguments Sent {A} code success message data.
Arguments Next {A} err.

Definition refuse {A : Type} (code : nat) (message : string) : Reply A :=
  Sent code false message None.

(** A handler returns early with a reply or goes on with a value. *)
Inductive Flow (A B : Type) :=
| Return (r : Reply A)
| Go (b : B).

Arguments Return {A B} r.
Arguments Go {A B} b.

Definition replied {A : Type} (r : Reply A) : option nat :=
  match r with
  | Sent code _ _ _ => Some code
  | Next _ => None
  end.

(** ** middleware/auth.js *)

(** [protect]: the bearer token, when jwt.verify accepts it, names a user
    ([token] is the decoded id); the user is loaded once, here, and the
    handler works on that copy as [req.user]. *)
Definition protect {A : Type} (db : Store) (token : option ObjectId)
  : Flow A User :=
  match token with
  | None => Return (refuse 401 "Not authorized to access this route")
  | Some id =>
      match findUser db id with
      | None => Return (refuse 401 "Not authorized to access this route")
      | Some user =>
          if u_isActive user then Go user
          else Return (refuse 401 "Account is deactivated")
      end
  end.

Definition requireAdmin {A : Type} (user : User) : Flow A unit :=
  match role user with
  | admin | superadmin => Go tt
  | student => Return (refuse 403 "Admin access required")
  end.

Definition requireStudent {A : Type} (user : User) : Flow A unit :=
  match role user with
  | student => Go tt
  | _ => Return (refuse 403 "Student access required")
  end.

(** ** models/User.js *)

Definition hasPurchasedCourse (user : User) (courseId : ObjectId) : bool :=
  existsb
    (fun enrollment =>
       sameId (e_course enrollment) courseId
       && EnrollmentStatus_eqb (e_paymentStatus enrollment) enr_completed)
    (enrolledCourses user).

(** ** models/Test.js *)

Definition set_totalMarks (t : Test) (v : Z) : Test :=
  {| t_id := t_id t; title := title t; description := description t;
     t_course := t_course t; createdBy := createdBy t;
     questions := questions t; duration := duration t; totalMarks := v;
     passingMarks := passingMarks t; isPublished := isPublished t;
     publishedAt := publishedAt t; startDate := startDate t;
     endDate := endDate t; maxAttempts := maxAttempts t;
     shuffleQuestions := shuffleQuestions t; showResults := showResults t;
     showCorrectAnswers := showCorrectAnswers t |}.

(** [questions.reduce((total, question) => total + question.marks, 0)] *)
Definition sum_marks (qs : list Question) : Z :=
  fold_left (fun total question => total + marks question) qs 0.

(** The same sum with the additions rounded as the doubles round them;
    it is [sum_marks] as long as that is at most 2^53. *)
Definition sum_marks_doubles (qs : list Question) : Z :=
  fold_left (fun total question => plus total (marks question)) qs 0.

(** pre('save'): calculate total marks before saving. *)
Definition pre_save_totalMarks (t : Test) : Test :=
  match questions t with
  | [] => t
  | _ :: _ => set_totalMarks t (sum_marks (questions t))
  end.

(** [Test.create]: the hook runs, the document is appended. *)
Definition Test_create (db : Store) (t : Test) : Store :=
  with_tests db (tests db ++ [pre_save_totalMarks t]).

(** [testSchema.methods.isActive], [now] being [new Date()]. *)
Definition isActive (now : Date) (t : Test) : bool :=
  if negb (isPublished t) then false
  else if match startDate t with
          | Some start => now <? start
          | None => false
          end then false
  else if match endDate t with
          | Some stop => stop <? now
          | None => false
          end then false
  else true.

Record StudentOption := {
  so_id : ObjectId;
  so_text : string
}.

Record StudentQuestion := {
  sq_id : ObjectId;
  sq_question : string;
  sq_options : list StudentOption;
  sq_difficulty : Difficulty;
  sq_marks : Z
}.

(** [testSchema.methods.getQuestionsForStudent] *)
Definition getQuestionsForStudent (t : Test) : list StudentQuestion :=
  map (fun q =>
         {| sq_id := q_id q;
            sq_question := question q;
            sq_options :=
              map (fun opt => {| so_id := opt_id opt; so_text := opt_text opt |})
                  (options q);
            sq_difficulty := difficulty q;
            sq_marks := marks q |})
      (questions t).

(** [array.id(id)] of a Mongoose document array. *)
Definition question_by_id (qs : list Question) (id : ObjectId)
  : option Question :=
  find (fun q => sameId (q_id q) id) qs.

Definition option_by_id (opts : list McqOption) (id : ObjectId)
  : option McqOption :=
  find (fun o => sameId (opt_id o) id) opts.

(** ** models/TestResult.js *)

Definition set_percentage (r : TestResult) (v : Number) : TestResult :=
  {| r_id := r_id r; r_test := r_test r; r_student := r_student r;
     r_course := r_course r; r_answers := r_answers r;
     r_totalMarks := r_totalMarks r; r_marksObtained := r_marksObtained r;
     r_percentage := v; r_isPassed := r_isPassed r;
     r_timeTaken := r_timeTaken r; r_startedAt := r_startedAt r;
     r_submittedAt := r_submittedAt r; attemptNumber := attemptNumber r |}.

(** pre('save'): calculate percentage before saving. *)
Definition pre_save_percentage (r : TestResult) : TestResult :=
  if 0 <? r_totalMarks r
  then set_percentage r (round_percentage (r_marksObtained r) (r_totalMarks r))
  else set_percentage r (Fin 0).

Definition attempts_of (db : Store) (testId studentId : ObjectId)
  : list TestResult :=
  filter (fun r => sameId (r_test r) testId && sameId (r_student r) studentId)
         (results db).

(** [testResultSchema.statics.getAttemptCount] *)
Definition getAttemptCount (db : Store) (testId studentId : ObjectId) : nat :=
  List.length (attempts_of db testId studentId).

(** The unique index on (test, student, attemptNumber). *)
Definition attempt_taken (db : Store) (r : TestResult) : bool :=
  existsb (fun x => Nat.eqb (attemptNumber x) (attemptNumber r))
          (attempts_of db (r_test r) (r_student r)).

(** What the casts of the document leave to refuse: a percentage that
    is NaN and a date that is an Invalid Date. *)
Definition TestResult_valid (r : TestResult) : bool :=
  match r_percentage r with
  | NaN => false
  | _ => true
  end
  && is_date (r_startedAt r)
  && is_date (r_submittedAt r).

(** [TestResult.create]: the document is validated, the hook runs, then
    the insert, which the unique index refuses when the attempt number is
    taken. *)
Definition TestResult_create (db : Store) (r : TestResult)
  : Store * (Error + TestResult) :=
  if negb (TestResult_valid r) then (db, inl ValidationError)
  else
    let r' := pre_save_percentage r in
    if attempt_taken db r' then (db, inl DuplicateKey)
    else (fresh (with_results db (results db ++ [r'])), inr r').

(** ** routes/tests.js *)

(** What [populate] leaves of a referenced document. *)
Record CourseRef := {
  cr_id : ObjectId;
  cr_title : string;
  cr_instructor : ObjectId
}.

Record UserRef := {
  ur_id : ObjectId;
  ur_name : string;
  ur_email : string
}.

Definition populateCourse (db : Store) (id : ObjectId) : option CourseRef :=
  match findCourse db id with
  | Some c => Some {| cr_id := c_id c; cr_title := c_title c;
                      cr_instructor := instructor c |}
  | None => None
  end.

Definition populateUser (db : Store) (id : ObjectId) : option UserRef :=
  match findUser db id with
  | Some u => Some {| ur_id := u_id u; ur_name := name u; ur_email := email u |}
  | None => None
  end.

(** *** POST /api/tests/:id/submit *)

Record SubmittedAnswer := {
  questionId : ObjectId;
  selectedOption : ObjectId;
  answer_timeTaken : option Z
}.

Record SubmitRequest := {
  s_token : option ObjectId;
  s_testId : ObjectId;
  answers : list SubmittedAnswer;
  timeTaken : Z
}.

Record CorrectAnswers := {
  ca_questionId : ObjectId;
  correctOptions : list ObjectId;
  ca_explanation : string
}.

Record SubmitData := {
  d_id : ObjectId;
  d_marksObtained : Z;
  d_totalMarks : Z;
  d_percentage : Number;
  d_isPassed : bool;
  d_timeTaken : Z;
  d_attemptNumber : nat;
  d_answers : option (list Answer);
  d_correctAnswers : option (list CorrectAnswers)
}.

(** The grading loop: [marksObtained] and [gradedAnswers] are the loop's
    two variables; an unknown id returns from the handler. *)
Fixpoint grade (qs : list Question) (todo : list SubmittedAnswer)
    (marksObtained : Z) (gradedAnswers : list Answer)
  : Flow SubmitData (Z * list Answer) :=
  match todo with
  | [] => Go (marksObtained, gradedAnswers)
  | answer :: rest =>
      match question_by_id qs (questionId answer) with
      | None => Return (refuse 400 "Invalid question ID")
      | Some question =>
          match option_by_id (options question) (selectedOption answer) with
          | None => Return (refuse 400 "Invalid option ID")
          | Some selected =>
              let questionMarks :=
                if isCorrect selected then marks question else 0 in
              grade qs rest (marksObtained + questionMarks)
                (gradedAnswers ++
                 [{| a_questionId := questionId answer;
                     a_selectedOption := selectedOption answer;
                     a_isCorrect := isCorrect selected;
                     a_marksObtained := questionMarks;
                     a_timeTaken := match answer_timeTaken answer with
                                    | Some seconds => seconds
                                    | None => 0
                                    end |}])
          end
      end
  end.

(** protect, requireStudent and the express-validator chain. *)
Definition submit_user (db : Store) (req : SubmitRequest)
  : Flow SubmitData User :=
  match protect db (s_token req) with
  | Return r => Return r
  | Go user =>
      match requireStudent user with
      | Return r => Return r
      | Go _ =>
          if timeTaken req <? 1 then Return (refuse 400 "Validation failed")
          else Go user
      end
  end.

(** [Test.findById(id).populate('course')] and the two access checks. *)
Definition submit_test (now : Date) (db : Store) (req : SubmitRequest)
    (user : User) : Flow SubmitData (Test * CourseRef) :=
  match findTest db (s_testId req) with
  | None => Return (refuse 404 "Test not found")
  | Some test =>
      if negb (isPublished test)
      then Return (refuse 403 "Not authorized to take this test")
      else
        match populateCourse db (t_course test) with
        | None => Return (Next TypeError)
        | Some course =>
            if negb (hasPurchasedCourse user (cr_id course))
            then Return (refuse 403 "Not authorized to take this test")
            else if negb (isActive now test)
            then Return (refuse 400 "Test is not currently active")
            else Go (test, course)
        end
  end.

(** [getAttemptCount], the attempt limit and the grading. *)
Definition submit_grade (db : Store) (req : SubmitRequest) (user : User)
    (test : Test) : Flow SubmitData (nat * (Z * list Answer)) :=
  let attemptCount := getAttemptCount db (t_id test) (u_id user) in
  if (maxAttempts test <=? attemptCount)%nat
  then Return (refuse 400 "Maximum attempts exceeded")
  else
    match grade (questions test) (answers req) 0 [] with
    | Return r => Return r
    | Go graded => Go (attemptCount, graded)
    end.

Definition correctAnswers_of (test : Test) : list CorrectAnswers :=
  map (fun q =>
         {| ca_questionId := q_id q;
            correctOptions :=
              map opt_id (filter (fun opt => isCorrect opt) (options q));
            ca_explanation := explanation q |})
      (questions test).

(** [TestResult.create] and the response shaped by the test's settings. *)
Definition submit_write (now : Date) (db : Store) (req : SubmitRequest)
    (user : User) (test : Test) (course : CourseRef) (attemptCount : nat)
    (marksObtained : Z) (gradedAnswers : list Answer)
  : Reply SubmitData * Store :=
  let percentage := round_percentage marksObtained (totalMarks test) in
  let isPassed := passingMarks test <=? marksObtained in
  let doc :=
    {| r_id := nextId db;
       r_test := t_id test;
       r_student := u_id user;
       r_course := cr_id course;
       r_answers := gradedAnswers;
       r_totalMarks := totalMarks test;
       r_marksObtained := marksObtained;
       r_percentage := percentage;
       r_isPassed := isPassed;
       r_timeTaken := timeTaken req;
       r_startedAt := now - timeTaken req * 60 * 1000;
       r_submittedAt := now;
       attemptNumber := S attemptCount |} in
  match TestResult_create db doc with
  | (db', inl error) => (Next error, db')
  | (db', inr testResult) =>
      (Sent 201 true "Test submitted successfully"
         (Some
            {| d_id := r_id testResult;
               d_marksObtained := marksObtained;
               d_totalMarks := totalMarks test;
               d_percentage := percentage;
               d_isPassed := isPassed;
               d_timeTaken := timeTaken req;
               d_attemptNumber := attemptNumber testResult;
               d_answers :=
                 if showResults test then Some (r_answers testResult)
                 else None;
               d_correctAnswers :=
                 if showCorrectAnswers test then Some (correctAnswers_of test)
                 else None |}),
       db')
  end.

(** The handler when nothing else runs between its awaits. *)
Definition submit (now : Date) (req : SubmitRequest) (db : Store)
  : Reply SubmitData * Store :=
  match submit_user db req with
  | Return r => (r, db)
  | Go user =>
      match submit_test now db req user with
      | Return r => (r, db)
      | Go (test, course) =>
          match submit_grade db req user test with
          | Return r => (r, db)
          | Go (attemptCount, (marksObtained, gradedAnswers)) =>
              submit_write now db req user test course attemptCount
                marksObtained gradedAnswers
          end
      end
  end.

(** The handler as a machine, one step per await. *)
Inductive SubmitPc :=
| SubmitStart
| SubmitUser (user : User)
| SubmitTest (user : User) (test : Test) (course : CourseRef)
| SubmitGraded (user : User) (test : Test) (course : CourseRef)
    (attemptCount : nat) (marksObtained : Z) (gradedAnswers : list Answer)
| SubmitDone (r : Reply SubmitData).

Definition submit_step (now : Date) (req : SubmitRequest) (pc : SubmitPc)
    (db : Store) : SubmitPc * Store :=
  match pc with
  | SubmitStart =>
      match submit_user db req with
      | Return r => (SubmitDone r, db)
      | Go user => (SubmitUser user, db)
      end
  | SubmitUser user =>
      match submit_test now db req user with
      | Return r => (SubmitDone r, db)
      | Go (test, course) => (SubmitTest user test course, db)
      end
  | SubmitTest user test course =>
      match submit_grade db req user test with
      | Return r => (SubmitDone r, db)
      | Go (attemptCount, (marksObtained, gradedAnswers)) =>
          (SubmitGraded user test course attemptCount marksObtained
             gradedAnswers, db)
      end
  | SubmitGraded user test course attemptCount marksObtained gradedAnswers =>
      let '(r, db') :=
        submit_write now db req user test course attemptCount marksObtained
          gradedAnswers in
      (SubmitDone r, db')
  | SubmitDone r => (SubmitDone r, db)
  end.

(** *** GET /api/tests/:id *)

Definition with_questions {Q Q' : Type} (t : TestOf Q) (qs : list Q')
  : TestOf Q' :=
  {| t_id := t_id t; title := title t; description := description t;
     t_course := t_course t; createdBy := createdBy t;
     questions := qs; duration := duration t; totalMarks := totalMarks t;
     passingMarks := passingMarks t; isPublished := isPublished t;
     publishedAt := publishedAt t; startDate := startDate t;
     endDate := endDate t; maxAttempts := maxAttempts t;
     shuffleQuestions := shuffleQuestions t; showResults := showResults t;
     showCorrectAnswers := showCorrectAnswers t |}.

(** [testData]: the test as an object, its two populated references and,
    for a student, the two attempt fields. *)
Record TestData (Q : Type) := {
  td_test : TestOf Q;
  td_course : option CourseRef;
  td_createdBy : option UserRef;
  attemptCount : option nat;
  canAttempt : option bool
}.

Inductive TestBody :=
| ForStaff (d : TestData Question)
| ForStudent (d : TestData StudentQuestion).

Definition get_test (now : Date) (token : option ObjectId) (id : ObjectId)
    (db : Store) : Reply TestBody :=
  match protect db token with
  | Return r => r
  | Go user =>
      match findTest db id with
      | None => refuse 404 "Test not found"
      | Some test =>
          let course := populateCourse db (t_course test) in
          let creator := populateUser db (createdBy test) in
          let hasAccess : Flow TestBody bool :=
            match role user with
            | superadmin => Go true
            | admin =>
                match course with
                | None => Return (Next TypeError)
                | Some c => Go (sameId (cr_instructor c) (u_id user))
                end
            | student =>
                if negb (isPublished test) then Go false
                else match course with
                     | None => Return (Next TypeError)
                     | Some c => Go (hasPurchasedCourse user (cr_id c))
                     end
            end in
          match hasAccess with
          | Return r => r
          | Go false => refuse 403 "Not authorized to access this test"
          | Go true =>
              match role user with
              | student =>
                  let count := getAttemptCount db (t_id test) (u_id user) in
                  Sent 200 true ""
                    (Some (ForStudent
                       {| td_test :=
                            with_questions test (getQuestionsForStudent test);
                          td_course := course;
                          td_createdBy := creator;
                          attemptCount := Some count;
                          canAttempt :=
                            Some ((count <? maxAttempts test)%nat
                                  && isActive now test) |}))
              | _ =>
                  Sent 200 true ""
                    (Some (ForStaff
                       {| td_test := test;
                          td_course := course;
                          td_createdBy := creator;
                          attemptCount := None;
                          canAttempt := None |}))
              end
          end
      end
  end.

(** *** PUT /api/tests/:id *)

(** [req.body]: a field is [None] when the body does not have it. The
    questions of a body come with the ids their subdocuments are given. *)
Record TestUpdate := {
  upd_title : option string;
  upd_description : option string;
  upd_duration : option Z;
  upd_passingMarks : option Z;
  upd_maxAttempts : option nat;
  upd_shuffleQuestions : option bool;
  upd_showResults : option bool;
  upd_showCorrectAnswers : option bool;
  upd_startDate : option (option Date);
  upd_endDate : option (option Date);
  upd_isPublished : option bool;
  upd_questions : option (list Question)
}.

Definition or_keep {A : Type} (new : option A) (old : A) : A :=
  match new with
  | Some v => v
  | None => old
  end.

(** The express-validator chain of the route: title and description are
    trimmed, then measured. *)
Definition update_body_valid (body : TestUpdate) : bool :=
  match upd_title body with
  | Some s =>
      (5 <=? String.length (trim s))%nat
      && (String.length (trim s) <=? 200)%nat
  | None => true
  end
  && match upd_description body with
     | Some s => (String.length (trim s) <=? 1000)%nat
     | None => true
     end
  && match upd_duration body with
     | Some d => 1 <=? d
     | None => true
     end.

(** The strings of a question as the schema's [trim: true] stores
    them. *)
Definition trim_option (opt : McqOption) : McqOption :=
  {| opt_id := opt_id opt; opt_text := trim (opt_text opt);
     isCorrect := isCorrect opt |}.

Definition trim_question (q : Question) : Question :=
  {| q_id := q_id q; question := trim (question q);
     options := map trim_option (options q);
     explanation := trim (explanation q); difficulty := difficulty q;
     marks := marks q |}.

(** The schema validators that [runValidators] applies to the update,
    on the trimmed strings. *)
Definition question_valid (q : Question) : bool :=
  negb (String.eqb (trim (question q)) "")
  && forallb (fun opt => negb (String.eqb (trim (opt_text opt)) ""))
       (options q)
  && (1 <=? marks q).

Definition update_schema_valid (body : TestUpdate) (withQuestions : bool)
  : bool :=
  match upd_maxAttempts body with
  | Some n => (1 <=? n)%nat
  | None => true
  end
  && match upd_questions body with
     | Some qs => if withQuestions then forallb question_valid qs else true
     | None => true
     end.

(** [Test.findByIdAndUpdate(id, updateData)]: the fields of [updateData]
    are written, the strings as the chain and the schema trim them; no save
    hook runs on this path. *)
Definition findByIdAndUpdate (test : Test) (body : TestUpdate)
    (withQuestions : bool) : Test :=
  {| t_id := t_id test;
     title := or_keep (option_map trim (upd_title body)) (title test);
     description :=
       or_keep (option_map trim (upd_description body)) (description test);
     t_course := t_course test;
     createdBy := createdBy test;
     questions :=
       if withQuestions
       then or_keep (option_map (map trim_question) (upd_questions body))
              (questions test)
       else questions test;
     duration := or_keep (upd_duration body) (duration test);
     totalMarks := totalMarks test;
     passingMarks := or_keep (upd_passingMarks body) (passingMarks test);
     isPublished := or_keep (upd_isPublished body) (isPublished test);
     publishedAt := publishedAt test;
     startDate := or_keep (upd_startDate body) (startDate test);
     endDate := or_keep (upd_endDate body) (endDate test);
     maxAttempts := or_keep (upd_maxAttempts body) (maxAttempts test);
     shuffleQuestions :=
       or_keep (upd_shuffleQuestions body) (shuffleQuestions test);
     showResults := or_keep (upd_showResults body) (showResults test);
     showCorrectAnswers :=
       or_keep (upd_showCorrectAnswers body) (showCorrectAnswers test) |}.

(** [TestResult.countDocuments({ test })] *)
Definition countAttempts (db : Store) (testId : ObjectId) : nat :=
  List.length (filter (fun r => sameId (r_test r) testId) (results db)).

Definition update_test (token : option ObjectId) (id : ObjectId)
    (body : TestUpdate) (db : Store) : Reply (TestData Question) * Store :=
  match protect db token with
  | Return r => (r, db)
  | Go user =>
  match requireAdmin user with
  | Return r => (r, db)
  | Go _ =>
  if negb (update_body_valid body) then (refuse 400 "Validation failed", db)
  else
  match findTest db id with
  | None => (refuse 404 "Test not found", db)
  | Some test =>
  let authorized : Flow (TestData Question) bool :=
    match role user with
    | superadmin => Go true
    | _ => match findCourse db (t_course test) with
           | None => Return (Next TypeError)
           | Some c => Go (sameId (instructor c) (u_id user))
           end
    end in
  match authorized with
  | Return r => (r, db)
  | Go false => (refuse 403 "Not authorized to update this test", db)
  | Go true =>
      let attempts := countAttempts db (t_id test) in
      let hasQuestions :=
        match upd_questions body with Some _ => true | None => false end in
      if (0 <? attempts)%nat && hasQuestions
      then (refuse 400
              "Cannot modify questions after students have attempted the test",
            db)
      else
        let withQuestions := (attempts =? 0)%nat && hasQuestions in
        if negb (update_schema_valid body withQuestions)
        then (Next ValidationError, db)
        else
          let updatedTest := findByIdAndUpdate test body withQuestions in
          (Sent 200 true "Test updated successfully"
             (Some {| td_test := updatedTest;
                      td_course := populateCourse db (t_course updatedTest);
                      td_createdBy := populateUser db (createdBy updatedTest);
                      attemptCount := None;
                      canAttempt := None |}),
           with_tests db
             (replace_first (fun x => sameId (t_id x) id) updatedTest
                (tests db)))
  end
  end
  end
  end.

(** ** models/Payment.js *)

(** [paymentSchema.methods.approve] without its [save]. *)
Definition approve (payment : Payment) (adminId : ObjectId) (now : Date)
  : Payment :=
  {| p_id := p_id payment; p_student := p_student payment;
     p_course := p_course payment; amount := amount payment;
     paymentMethod := paymentMethod payment;
     status := completed;
     razorpayOrderId := razorpayOrderId payment;
     razorpayPaymentId := razorpayPaymentId payment;
     razorpaySignature := razorpaySignature payment;
     offlineDetails := offlineDetails payment;
     approvedBy := Some adminId;
     approvedAt := Some now;
     rejectedBy := rejectedBy payment; rejectedAt := rejectedAt payment;
     rejectionReason := rejectionReason payment |}.

(** [paymentSchema.methods.reject] without its [save]. *)
Definition reject (payment : Payment) (adminId : ObjectId) (reason : string)
    (now : Date) : Payment :=
  {| p_id := p_id payment; p_student := p_student payment;
     p_course := p_course payment; amount := amount payment;
     paymentMethod := paymentMethod payment;
     status := failed;
     razorpayOrderId := razorpayOrderId payment;
     razorpayPaymentId := razorpayPaymentId payment;
     razorpaySignature := razorpaySignature payment;
     offlineDetails := offlineDetails payment;
     approvedBy := approvedBy payment; approvedAt := approvedAt payment;
     rejectedBy := Some adminId;
     rejectedAt := Some now;
     rejectionReason := Some reason |}.

(** The assignments of POST /verify to the payment it found. *)
Definition settle (payment : Payment) (st : PaymentStatus)
    (paymentId signature : option string) : Payment :=
  {| p_id := p_id payment; p_student := p_student payment;
     p_course := p_course payment; amount := amount payment;
     paymentMethod := paymentMethod payment;
     status := st;
     razorpayOrderId := razorpayOrderId payment;
     razorpayPaymentId := paymentId;
     razorpaySignature := signature;
     offlineDetails := offlineDetails payment;
     approvedBy := approvedBy payment; approvedAt := approvedAt payment;
     rejectedBy := rejectedBy payment; rejectedAt := rejectedAt payment;
     rejectionReason := rejectionReason payment |}.

(** [Payment.findOne({ student, course, status: 'pending' })] *)
Definition findPending (db : Store) (studentId courseId : ObjectId)
  : option Payment :=
  find (fun p => sameId (p_student p) studentId
                 && sameId (p_course p) courseId
                 && PaymentStatus_eqb (status p) pending)
       (payments db).

Definition sameOrder (a : option string) (b : string) : bool :=
  match a with
  | Some s => String.eqb s b
  | None => false
  end.

(** [Payment.findOne({ razorpayOrderId, student, status: 'pending' })] *)
Definition findPendingOrder (db : Store) (orderId : string)
    (studentId : ObjectId) : option Payment :=
  find (fun p => sameOrder (razorpayOrderId p) orderId
                 && sameId (p_student p) studentId
                 && PaymentStatus_eqb (status p) pending)
       (payments db).

(** [Payment.create]: the schema asks a non-negative amount; the index on
    (student, course, status) is an ordinary one and refuses nothing. *)
Definition Payment_create (db : Store) (p : Payment) : Store * option Payment :=
  if amount p <? 0 then (db, None)
  else (fresh (with_payments db (payments db ++ [p])), Some p).

Definition noOfflineDetails : OfflineDetails :=
  {| bankName := None; transactionId := None; transactionDate := None;
     screenshot := None; notes := None |}.

(** ** The enrollment a settled payment grants *)

Definition set_enrolledCourses (u : User) (es : list Enrollment) : User :=
  {| u_id := u_id u; name := name u; email := email u; role := role u;
     u_isActive := u_isActive u; enrolledCourses := es |}.

Definition set_paymentStatus (e : Enrollment) (st : EnrollmentStatus)
  : Enrollment :=
  {| e_course := e_course e; enrolledAt := enrolledAt e;
     e_paymentStatus := st; e_paymentMethod := e_paymentMethod e |}.

Definition newEnrollment (courseId : ObjectId) (method : PaymentMethod)
    (now : Date) : Enrollment :=
  {| e_course := courseId; enrolledAt := now;
     e_paymentStatus := enr_completed; e_paymentMethod := method |}.

(** [Course.findByIdAndUpdate(id, { $inc: { enrollmentCount: 1 } })] *)
Definition incEnrollmentCount (db : Store) (courseId : ObjectId) : Store :=
  match findCourse db courseId with
  | None => db
  | Some c =>
      with_courses db
        (replace_first (fun x => sameId (c_id x) courseId)
           {| c_id := c_id c; c_title := c_title c; instructor := instructor c;
              price := price c; c_isPublished := c_isPublished c;
              enrollmentCount := enrollmentCount c + 1 |}
           (courses db))
  end.

(** ** routes/payments.js *)

(** What the gateway answers to [createOrder]. *)
Record Order := {
  order_id : string;
  order_amount : Z;
  order_currency : string
}.

(** *** POST /api/payments/create-order *)

Record OrderRequest := {
  o_token : option ObjectId;
  o_courseId : ObjectId;
  o_gateway : option Order
}.

Record OrderData := {
  od_orderId : string;
  od_amount : Z;
  od_currency : string;
  od_paymentId : ObjectId;
  od_course : ObjectId * string * Z
}.

Definition student_only {A : Type} (db : Store) (token : option ObjectId)
  : Flow A User :=
  match protect db token with
  | Return r => Return r
  | Go user =>
      match requireStudent user with
      | Return r => Return r
      | Go _ => Go user
      end
  end.

(** [Course.findById] and the two checks that follow it. *)
Definition purchasable {A : Type} (db : Store) (user : User)
    (courseId : ObjectId) : Flow A Course :=
  match findCourse db courseId with
  | None => Return (refuse 404 "Course not found or not available")
  | Some course =>
      if negb (c_isPublished course)
      then Return (refuse 404 "Course not found or not available")
      else if hasPurchasedCourse user courseId
      then Return (refuse 400 "You have already purchased this course")
      else Go course
  end.

(** The check for a pending payment. *)
Definition no_pending {A : Type} (db : Store) (user : User)
    (courseId : ObjectId) : Flow A unit :=
  match findPending db (u_id user) courseId with
  | Some _ =>
      Return (refuse 400 "You already have a pending payment for this course")
  | None => Go tt
  end.

Definition order_write (db : Store) (req : OrderRequest) (user : User)
    (course : Course) (order : Order) : Reply OrderData * Store :=
  match Payment_create db
          {| p_id := nextId db; p_student := u_id user;
             p_course := o_courseId req; amount := price course;
             paymentMethod := online; status := pending;
             razorpayOrderId := Some (order_id order);
             razorpayPaymentId := None; razorpaySignature := None;
             offlineDetails := noOfflineDetails;
             approvedBy := None; approvedAt := None;
             rejectedBy := None; rejectedAt := None;
             rejectionReason := None |} with
  | (db', None) => (Next ValidationError, db')
  | (db', Some payment) =>
      (Sent 201 true "Order created successfully"
         (Some {| od_orderId := order_id order;
                  od_amount := order_amount order;
                  od_currency := order_currency order;
                  od_paymentId := p_id payment;
                  od_course := (c_id course, c_title course, price course) |}),
       db')
  end.

Definition create_order (req : OrderRequest) (db : Store)
  : Reply OrderData * Store :=
  match student_only db (o_token req) with
  | Return r => (r, db)
  | Go user =>
  match purchasable db user (o_courseId req) with
  | Return r => (r, db)
  | Go course =>
  match no_pending db user (o_courseId req) with
  | Return r => (r, db)
  | Go _ =>
  match o_gateway req with
  | None => (Next GatewayError, db)
  | Some order => order_write db req user course order
  end
  end
  end
  end.

(** *** POST /api/payments/offline *)

Record OfflineRequest := {
  f_token : option ObjectId;
  f_courseId : ObjectId;
  f_bankName : string;
  f_transactionId : string;
  f_transactionDate : Date;
  f_notes : option string;
  f_file : option string
}.

(** The express-validator chain: the three strings are trimmed, then
    tested. *)
Definition offline_body_valid (req : OfflineRequest) : bool :=
  negb (String.eqb (trim (f_bankName req)) "")
  && negb (String.eqb (trim (f_transactionId req)) "")
  && match f_notes req with
     | Some s => (String.length (trim s) <=? 500)%nat
     | None => true
     end.

Definition offline_write (db : Store) (req : OfflineRequest) (user : User)
    (course : Course) (path : string) : Reply Payment * Store :=
  match Payment_create db
          {| p_id := nextId db; p_student := u_id user;
             p_course := f_courseId req; amount := price course;
             paymentMethod := offline; status := pending;
             razorpayOrderId := None;
             razorpayPaymentId := None; razorpaySignature := None;
             offlineDetails :=
               {| bankName := Some (trim (f_bankName req));
                  transactionId := Some (trim (f_transactionId req));
                  transactionDate := Some (f_transactionDate req);
                  screenshot := Some path;
                  notes := option_map trim (f_notes req) |};
             approvedBy := None; approvedAt := None;
             rejectedBy := None; rejectedAt := None;
             rejectionReason := None |} with
  | (db', None) => (Next ValidationError, db')
  | (db', Some payment) =>
      (Sent 201 true
         "Offline payment request submitted successfully. It will be reviewed by admin."
         (Some payment),
       db')
  end.

Definition request_offline (req : OfflineRequest) (db : Store)
  : Reply Payment * Store :=
  match student_only db (f_token req) with
  | Return r => (r, db)
  | Go user =>
  if negb (offline_body_valid req) then (refuse 400 "Validation failed", db)
  else
  match purchasable db user (f_courseId req) with
  | Return r => (r, db)
  | Go course =>
  match no_pending db user (f_courseId req) with
  | Return r => (r, db)
  | Go _ =>
  match f_file req with
  | None => (refuse 400 "Payment screenshot is required", db)
  | Some path => offline_write db req user course path
  end
  end
  end
  end.

(** *** POST /api/payments/verify *)

Record VerifyRequest := {
  v_token : option ObjectId;
  v_razorpayOrderId : string;
  v_razorpayPaymentId : string;
  v_razorpaySignature : string
}.

Record VerifyData := {
  vd_paymentId : ObjectId;
  vd_courseId : ObjectId;
  vd_courseName : string
}.

Definition verify_body_valid (req : VerifyRequest) : bool :=
  negb (String.eqb (v_razorpayOrderId req) "")
  && negb (String.eqb (v_razorpayPaymentId req) "")
  && negb (String.eqb (v_razorpaySignature req) "").

(** The enrollment block of the route: the user is read again, the
    enrollment pushed, the course counter incremented. *)
Definition enroll_online (now : Date) (db : Store) (userId : ObjectId)
    (payment : Payment) : Reply VerifyData * Store :=
  match findUser db userId, populateCourse db (p_course payment) with
  | Some user, Some course =>
      let db1 :=
        saveUser db
          (set_enrolledCourses user
             (enrolledCourses user ++ [newEnrollment (cr_id course) online now]))
      in
      let db2 := incEnrollmentCount db1 (cr_id course) in
      (Sent 200 true "Payment verified and course enrolled successfully"
         (Some {| vd_paymentId := p_id payment;
                  vd_courseId := cr_id course;
                  vd_courseName := cr_title course |}),
       db2)
  | _, _ => (Next TypeError, db)
  end.

(** [verifyPaymentSignature] is the HMAC check of utils/razorpay.js. *)
Definition post_verify
    (verifyPaymentSignature : string -> string -> string -> bool)
    (now : Date) (req : VerifyRequest) (db : Store)
  : Reply VerifyData * Store :=
  match student_only db (v_token req) with
  | Return r => (r, db)
  | Go user =>
  if negb (verify_body_valid req) then (refuse 400 "Validation failed", db)
  else
  match findPendingOrder db (v_razorpayOrderId req) (u_id user) with
  | None => (refuse 404 "Payment record not found", db)
  | Some payment =>
      if negb (verifyPaymentSignature (v_razorpayOrderId req)
                 (v_razorpayPaymentId req) (v_razorpaySignature req))
      then
        (refuse 400 "Invalid payment signature",
         savePayment db
           (settle payment failed (razorpayPaymentId payment)
              (razorpaySignature payment)))
      else
        let paid :=
          settle payment completed (Some (v_razorpayPaymentId req))
            (Some (v_razorpaySignature req)) in
        enroll_online now (savePayment db paid) (u_id user) paid
  end
  end.

(** *** PUT /api/payments/:id/approve *)

(** The check shared by approve and reject: a superadmin, or the
    instructor of the payment's course. *)
Definition may_decide {A : Type} (db : Store) (user : User)
    (payment : Payment) : Flow A bool :=
  match role user with
  | superadmin => Go true
  | _ =>
      match populateCourse db (p_course payment) with
      | None => Return (Next TypeError)
      | Some course => Go (sameId (cr_instructor course) (u_id user))
      end
  end.

(** The enrollment block of the route: an enrollment of the course, when
    the student has one, is set to completed; otherwise one is pushed and
    the course counter incremented. *)
Fixpoint complete_first (courseId : ObjectId) (es : list Enrollment)
  : list Enrollment :=
  match es with
  | [] => []
  | e :: rest =>
      if sameId (e_course e) courseId
      then set_paymentStatus e enr_completed :: rest
      else e :: complete_first courseId rest
  end.

Definition enroll_offline (now : Date) (db : Store) (payment : Payment)
  : Reply Payment * Store :=
  match populateUser db (p_student payment) with
  | None => (Next TypeError, db)
  | Some studentRef =>
  match findUser db (ur_id studentRef), populateCourse db (p_course payment) with
  | Some user, Some course =>
      match find (fun enrollment => sameId (e_course enrollment) (cr_id course))
                 (enrolledCourses user) with
      | None =>
          let db1 :=
            saveUser db
              (set_enrolledCourses user
                 (enrolledCourses user
                  ++ [newEnrollment (cr_id course) offline now])) in
          (Sent 200 true "Payment approved successfully" (Some payment),
           incEnrollmentCount db1 (cr_id course))
      | Some _ =>
          (Sent 200 true "Payment approved successfully" (Some payment),
           saveUser db
             (set_enrolledCourses user
                (complete_first (cr_id course) (enrolledCourses user))))
      end
  | _, _ => (Next TypeError, db)
  end
  end.

Definition put_approve (now : Date) (token : option ObjectId)
    (id : ObjectId) (db : Store) : Reply Payment * Store :=
  match protect db token with
  | Return r => (r, db)
  | Go user =>
  match requireAdmin user with
  | Return r => (r, db)
  | Go _ =>
  match findPayment db id with
  | None => (refuse 404 "Payment not found", db)
  | Some payment =>
  match may_decide db user payment with
  | Return r => (r, db)
  | Go false => (refuse 403 "Not authorized to approve this payment", db)
  | Go true =>
      if negb (PaymentMethod_eqb (paymentMethod payment) offline)
      then (refuse 400 "Only offline payments can be approved manually", db)
      else if negb (PaymentStatus_eqb (status payment) pending)
      then (refuse 400 "Payment is not in pending status", db)
      else
        let approved := approve payment (u_id user) now in
        enroll_offline now (savePayment db approved) approved
  end
  end
  end
  end.

(** *** PUT /api/payments/:id/reject *)

(** The chain trims the reason and tests it; the handler reads the
    trimmed one. *)
Definition put_reject (now : Date) (token : option ObjectId)
    (id : ObjectId) (reason : string) (db : Store) : Reply Payment * Store :=
  match protect db token with
  | Return r => (r, db)
  | Go user =>
  match requireAdmin user with
  | Return r => (r, db)
  | Go _ =>
  if String.eqb (trim reason) "" then (refuse 400 "Validation failed", db)
  else
  match findPayment db id with
  | None => (refuse 404 "Payment not found", db)
  | Some payment =>
  match may_decide db user payment with
  | Return r => (r, db)
  | Go false => (refuse 403 "Not authorized to reject this payment", db)
  | Go true =>
      if negb (PaymentMethod_eqb (paymentMethod payment) offline)
      then (refuse 400 "Only offline payments can be rejected manually", db)
      else if negb (PaymentStatus_eqb (status payment) pending)
      then (refuse 400 "Payment is not in pending status", db)
      else
        let rejected := reject payment (u_id user) (trim reason) now in
        (Sent 200 true "Payment rejected successfully" (Some rejected),
         savePayment db rejected)
  end
  end
  end
  end.

(** ** Requests in flight *)

(** POST /create-order as a machine, one step per await: protect, the
    course lookup, the pending-payment lookup, the gateway call, the
    insert. *)
Inductive OrderPc :=
| OrderStart
| OrderUser (user : User)
| OrderCourse (user : User) (course : Course)
| OrderClear (user : User) (course : Course)
| OrderPlaced (user : User) (course : Course) (order : Order)
| OrderDone (r : Reply OrderData).

Definition order_step (req : OrderRequest) (pc : OrderPc) (db : Store)
  : OrderPc * Store :=
  match pc with
  | OrderStart =>
      match student_only db (o_token req) with
      | Return r => (OrderDone r, db)
      | Go user => (OrderUser user, db)
      end
  | OrderUser user =>
      match purchasable db user (o_courseId req) with
      | Return r => (OrderDone r, db)
      | Go course => (OrderCourse user course, db)
      end
  | OrderCourse user course =>
      match no_pending db user (o_courseId req) with
      | Return r => (OrderDone r, db)
      | Go _ => (OrderClear user course, db)
      end
  | OrderClear user course =>
      match o_gateway req with
      | None => (OrderDone (Next GatewayError), db)
      | Some order => (OrderPlaced user course order, db)
      end
  | OrderPlaced user course order =>
      let '(r, db') := order_write db req user course order in
      (OrderDone r, db')
  | OrderDone r => (OrderDone r, db)
  end.

(** POST /offline as a machine: protect, the course lookup, the
    pending-payment lookup, the insert. *)
Inductive OfflinePc :=
| OfflineStart
| OfflineUser (user : User)
| OfflineCourse (user : User) (course : Course)
| OfflineClear (user : User) (course : Course) (path : string)
| OfflineDone (r : Reply Payment).

Definition offline_step (req : OfflineRequest) (pc : OfflinePc) (db : Store)
  : OfflinePc * Store :=
  match pc with
  | OfflineStart =>
      match student_only db (f_token req) with
      | Return r => (OfflineDone r, db)
      | Go user =>
          if negb (offline_body_valid req)
          then (OfflineDone (refuse 400 "Validation failed"), db)
          else (OfflineUser user, db)
      end
  | OfflineUser user =>
      match purchasable db user (f_courseId req) with
      | Return r => (OfflineDone r, db)
      | Go course => (OfflineCourse user course, db)
      end
  | OfflineCourse user course =>
      match no_pending db user (f_courseId req) with
      | Return r => (OfflineDone r, db)
      | Go _ =>
          match f_file req with
          | None =>
              (OfflineDone (refuse 400 "Payment screenshot is required"), db)
          | Some path => (OfflineClear user course path, db)
          end
      end
  | OfflineClear user course path =>
      let '(r, db') := offline_write db req user course path in
      (OfflineDone r, db')
  | OfflineDone r => (OfflineDone r, db)
  end.

(** A request being served. *)
Inductive Task :=
| Ordering (req : OrderRequest) (pc : OrderPc)
| Offering (req : OfflineRequest) (pc : OfflinePc)
| Submitting (now : Date) (req : SubmitRequest) (pc : SubmitPc).

Definition task_step (t : Task) (db : Store) : Task * Store :=
  match t with
  | Ordering req pc =>
      let '(pc', db') := order_step req pc db in (Ordering req pc', db')
  | Offering req pc =>
      let '(pc', db') := offline_step req pc db in (Offering req pc', db')
  | Submitting now req pc =>
      let '(pc', db') := submit_step now req pc db in
      (Submitting now req pc', db')
  end.

Fixpoint set_nth {A : Type} (i : nat) (x : A) (l : list A) : list A :=
  match l, i with
  | [], _ => []
  | _ :: rest, O => x :: rest
  | y :: rest, S j => y :: set_nth j x rest
  end.

(** The server: [schedule] names, turn by turn, the request whose pending
    await completes next. *)
Fixpoint interleave (schedule : list nat) (pool : list Task) (db : Store)
  : list Task * Store :=
  match schedule with
  | [] => (pool, db)
  | i :: later =>
      match nth_error pool i with
      | None => interleave later pool db
      | Some t =>
          let '(t', db') := task_step t db in
          interleave later (set_nth i t' pool) db'
      end
  end.

(** How a request ended, if it has: the status code it sent, or the error
    it passed on. *)
Definition outcome (t : Task) : option (nat + Error) :=
  let of_reply {A : Type} (r : Reply A) : nat + Error :=
    match r with
    | Sent code _ _ _ => inl code
    | Next err => inr err
    end in
  match t with
  | Ordering _ (OrderDone r) => Some (of_reply r)
  | Offering _ (OfflineDone r) => Some (of_reply r)
  | Submitting _ _ (SubmitDone r) => Some (of_reply r)
  | _ => None
  end.

Definition accepted (t : Task) : bool :=
  match outcome t with
  | Some (inl code) => Nat.eqb code 201
  | _ => false
  end.

(** POST /verify as a machine, one step per await: protect, the lookup
    of the pending payment with its course, payment.save(), User.findById,
    user.save(), the increment of the course. A [save] writes what the
    request has modified, into the stored document: the three fields of
    the payment, the pushed enrollment of the user. *)
Inductive VerifyPc :=
| VerifyStart
| VerifyUser (user : User)
| VerifyFound (user : User) (payment : Payment) (course : option CourseRef)
| VerifySaved (user : User) (payment : Payment) (course : option CourseRef)
| VerifyRead (reader : option User) (payment : Payment)
    (course : option CourseRef)
| VerifyPushed (payment : Payment) (course : CourseRef)
| VerifyDone (r : Reply VerifyData).

Fixpoint modify_first {A : Type} (same : A -> bool) (f : A -> A) (l : list A)
  : list A :=
  match l with
  | [] => []
  | x :: rest =>
      if same x then f x :: rest else x :: modify_first same f rest
  end.

Definition verify_step
    (verifyPaymentSignature : string -> string -> string -> bool)
    (now : Date) (req : VerifyRequest) (pc : VerifyPc) (db : Store)
  : VerifyPc * Store :=
  match pc with
  | VerifyStart =>
      match student_only db (v_token req) with
      | Return r => (VerifyDone r, db)
      | Go user =>
          if negb (verify_body_valid req)
          then (VerifyDone (refuse 400 "Validation failed"), db)
          else (VerifyUser user, db)
      end
  | VerifyUser user =>
      match findPendingOrder db (v_razorpayOrderId req) (u_id user) with
      | None => (VerifyDone (refuse 404 "Payment record not found"), db)
      | Some payment =>
          (VerifyFound user payment (populateCourse db (p_course payment)), db)
      end
  | VerifyFound user payment course =>
      let stored := fun p : Payment => sameId (p_id p) (p_id payment) in
      if negb (verifyPaymentSignature (v_razorpayOrderId req)
                 (v_razorpayPaymentId req) (v_razorpaySignature req))
      then
        (VerifyDone (refuse 400 "Invalid payment signature"),
         with_payments db
           (modify_first stored
              (fun p => settle p failed (razorpayPaymentId p)
                          (razorpaySignature p))
              (payments db)))
      else
        (VerifySaved user
           (settle payment completed (Some (v_razorpayPaymentId req))
              (Some (v_razorpaySignature req)))
           course,
         with_payments db
           (modify_first stored
              (fun p => settle p completed (Some (v_razorpayPaymentId req))
                          (Some (v_razorpaySignature req)))
              (payments db)))
  | VerifySaved user payment course =>
      (VerifyRead (findUser db (u_id user)) payment course, db)
  | VerifyRead reader payment course =>
      match reader, course with
      | Some user, Some course =>
          (VerifyPushed payment course,
           with_users db
             (modify_first (fun u => sameId (u_id u) (u_id user))
                (fun u =>
                   set_enrolledCourses u
                     (enrolledCourses u
                      ++ [newEnrollment (cr_id course) online now]))
                (users db)))
      | _, _ => (VerifyDone (Next TypeError), db)
      end
  | VerifyPushed payment course =>
      (VerifyDone
         (Sent 200 true "Payment verified and course enrolled successfully"
            (Some {| vd_paymentId := p_id payment;
                     vd_courseId := cr_id course;
                     vd_courseName := cr_title course |})),
       incEnrollmentCount db (cr_id course))
  | VerifyDone r => (VerifyDone r, db)
  end.

(** A delivery of a verification: its clock, its body, where it stands. *)
Definition Delivery := (Date * VerifyRequest * VerifyPc)%type.

(** The server on deliveries of verifications, as [interleave] is on
    tasks. *)
Fixpoint deliver
    (verifyPaymentSignature : string -> string -> string -> bool)
    (schedule : list nat) (pool : list Delivery) (db : Store)
  : list Delivery * Store :=
  match schedule with
  | [] => (pool, db)
  | i :: later =>
      match nth_error pool i with
      | None => deliver verifyPaymentSignature later pool db
      | Some (now, req, pc) =>
          let '(pc', db') := verify_step verifyPaymentSignature now req pc db in
          deliver verifyPaymentSignature later
            (set_nth i (now, req, pc') pool) db'
      end
  end.

(** The status code a delivery was answered with, if it was. *)
Definition delivered (d : Delivery) : option nat :=
  match d with
  | (_, _, VerifyDone r) => replied r
  | _ => None
  end.

(** ** Views used by the properties *)

(** The pending payments of a student for a course. *)
Definition pending_of (db : Store) (studentId courseId : ObjectId)
  : list Payment :=
  filter (fun p => sameId (p_student p) studentId
                   && sameId (p_course p) courseId
                   && PaymentStatus_eqb (status p) pending)
         (payments db).

(** The attempt numbers of a student on a test, in insertion order. *)
Definition attemptNumbers (db : Store) (testId studentId : ObjectId)
  : list nat :=
  map attemptNumber (attempts_of db testId studentId).

(** What a settlement may change of the enrollment state: every user's
    enrollments and every course's counter. *)
Definition enrollment_state (db : Store)
  : list (ObjectId * list Enrollment) * list (ObjectId * Z) :=
  (map (fun u => (u_id u, enrolledCourses u)) (users db),
   map (fun c => (c_id c, enrollmentCount c)) (courses db)).



(** A submission of [studentId] to [testId] that is under way agrees with
    the database: it holds that student and the stored test and, once it
    has counted, a count that the collection has not fallen below and that
    the test's limit exceeds; once answered, it was accepted (201) or
    refused (400 and above). *)
Definition submission_ok (db : Store) (studentId testId : ObjectId)
    (test : Test) (t : Task) : Prop :=
  match t with
  | Submitting _ req pc =>
      s_token req = Some studentId
      /\ s_testId req = testId
      /\ match pc with
         | SubmitStart => True
         | SubmitDone r =>
             match replied r with
             | Some code => code = 201%nat \/ (400 <= code)%nat
             | None => True
             end
         | SubmitUser user => u_id user = studentId
         | SubmitTest user t' _ => u_id user = studentId /\ t' = test
         | SubmitGraded user t' _ count _ _ =>
             u_id user = studentId
             /\ t' = test
             /\ (count <= getAttemptCount db testId studentId)%nat
             /\ (count < maxAttempts test)%nat
         end
  | _ => False
  end.

(** A submission of [studentId] to [testId] that has just arrived. *)
Definition new_submission (studentId testId : ObjectId) (t : Task) : Prop :=
  exists now req,
    t = Submitting now req SubmitStart
    /\ s_token req = Some studentId
    /\ s_testId req = testId.

(** Submissions served one after the other. *)
Fixpoint serve (reqs : list (Date * SubmitRequest)) (db : Store)
  : list (Reply SubmitData) * Store :=
  match reqs with
  | [] => ([], db)
  | (now, req) :: rest =>
      let '(r, db1) := submit now req db in
      let '(rs, db2) := serve rest db1 in
      (r :: rs, db2)
  end.

(** The attempt a submission at [now] makes is one the schema takes:
    the start it computes and [now] are dates, and the percentage is a
    number, which it is unless the total is 0. *)
Definition attempt_storable (now : Date) (req : SubmitRequest) (test : Test)
  : Prop :=
  totalMarks test <> 0
  /\ is_date (now - timeTaken req * 60 * 1000) = true
  /\ is_date now = true.

(** A submission of [studentId] to [test] that passes every check but the
    quota: the student is let in, the test is found, open and bought,
    every answer names a question and an option of it, and the attempt is
    one the schema takes. *)
Definition well_formed_submission (db : Store) (studentId : ObjectId)
    (test : Test) (nr : Date * SubmitRequest) : Prop :=
  exists user course graded,
    submit_user db (snd nr) = Go user
    /\ u_id user = studentId
    /\ submit_test (fst nr) db (snd nr) user = Go (test, course)
    /\ grade (questions test) (answers (snd nr)) 0 [] = Go graded
    /\ attempt_storable (fst nr) (snd nr) test.

(** The payments that carry a gateway order id. *)
Definition payments_of_order (db : Store) (orderId : string) : list Payment :=
  filter (fun p => sameOrder (razorpayOrderId p) orderId) (payments db).

(** Options, questions, tests and databases that differ at most in the
    correctness data, that is the isCorrect flags and the explanations. *)
Definition option_alike (a b : McqOption) : Prop :=
  opt_id a = opt_id b /\ opt_text a = opt_text b.

Definition question_alike (a b : Question) : Prop :=
  q_id a = q_id b
  /\ question a = question b
  /\ difficulty a = difficulty b
  /\ marks a = marks b
  /\ Forall2 option_alike (options a) (options b).

Definition test_alike (a b : Test) : Prop :=
  with_questions a (@nil unit) = with_questions b (@nil unit)
  /\ Forall2 question_alike (questions a) (questions b).

Definition store_alike (a b : Store) : Prop :=
  users a = users b
  /\ courses a = courses b
  /\ results a = results b
  /\ Forall2 test_alike (tests a) (tests b).

(** ** A small installation, for the concrete runs *)

Module Demo.

Definition opt (id : ObjectId) (correct : bool) : McqOption :=
  {| opt_id := id; opt_text := "option"; isCorrect := correct |}.

(** A question with two options, the first one correct. *)
Definition mcq (id : ObjectId) (m : Z) : Question :=
  {| q_id := id; question := "question";
     options := [opt (id + 1)%nat true; opt (id + 2)%nat false];
     explanation := "because"; difficulty := medium; marks := m |}.

Definition quiz (id : ObjectId) (qs : list Question) (total : Z)
    (attempts : nat) (start : option Date) : Test :=
  {| t_id := id; title := "Weekly quiz"; description := "";
     t_course := 10%nat; createdBy := 4%nat; questions := qs;
     duration := 30; totalMarks := total; passingMarks := 3;
     isPublished := true; publishedAt := Some 0; startDate := start;
     endDate := None; maxAttempts := attempts; shuffleQuestions := false;
     showResults := true; showCorrectAnswers := true |}.

Definition five : list Question :=
  [mcq 100 1; mcq 110 1; mcq 120 1; mcq 130 1; mcq 140 1].

Definition person (id : ObjectId) (r : Role) (es : list Enrollment) : User :=
  {| u_id := id; name := "user"; email := "user@example.org"; role := r;
     u_isActive := true; enrolledCourses := es |}.

Definition alice : User :=
  person 1 student [newEnrollment 10 online 0].
Definition bob : User := person 2 student [].
Definition carol : User := person 5 student [].
Definition root : User := person 3 superadmin [].
Definition teacher : User := person 4 admin [].

Definition physics : Course :=
  {| c_id := 10%nat; c_title := "Physics"; instructor := 4%nat;
     price := 2999; c_isPublished := true; enrollmentCount := 1 |}.

(** Bob's offline request, waiting for a decision. *)
Definition transfer : Payment :=
  {| p_id := 30%nat; p_student := 2%nat; p_course := 10%nat; amount := 2999;
     paymentMethod := offline; status := pending;
     razorpayOrderId := None; razorpayPaymentId := None;
     razorpaySignature := None;
     offlineDetails :=
       {| bankName := Some "Bank"; transactionId := Some "TX1";
          transactionDate := Some 0; screenshot := Some "uploads/tx1.png";
          notes := None |};
     approvedBy := None; approvedAt := None; rejectedBy := None;
     rejectedAt := None; rejectionReason := None |}.

(** Alice's online payment, settled. *)
Definition card : Payment :=
  {| p_id := 31%nat; p_student := 1%nat; p_course := 10%nat; amount := 2999;
     paymentMethod := online; status := completed;
     razorpayOrderId := Some "order_1";
     razorpayPaymentId := Some "pay_1"; razorpaySignature := Some "sig_1";
     offlineDetails := noOfflineDetails;
     approvedBy := None; approvedAt := None; rejectedBy := None;
     rejectedAt := None; rejectionReason := None |}.

(** Carol's checkout at the gateway, not yet verified. *)
Definition checkout : Payment :=
  {| p_id := 32%nat; p_student := 5%nat; p_course := 10%nat; amount := 2999;
     paymentMethod := online; status := pending;
     razorpayOrderId := Some "order_2";
     razorpayPaymentId := None; razorpaySignature := None;
     offlineDetails := noOfflineDetails;
     approvedBy := None; approvedAt := None; rejectedBy := None;
     rejectedAt := None; rejectionReason := None |}.

Definition db (ts : list Test) (ps : list Payment) : Store :=
  {| users := [alice; bob; root; teacher; carol]; courses := [physics];
     payments := ps; tests := ts; results := []; nextId := 1000%nat |}.

Definition pick (q : ObjectId) : SubmittedAnswer :=
  {| questionId := q; selectedOption := (q + 1)%nat;
     answer_timeTaken := None |}.


Definition sheet (who : ObjectId) (test : ObjectId)
    (l : list SubmittedAnswer) : SubmitRequest :=
  {| s_token := Some who; s_testId := test; answers := l; timeTaken := 10 |}.

(** The HMAC check, standing for a gateway whose only valid signature
    is "sig_1". *)
Definition checkSignature (orderId paymentId signature : string) : bool :=
  String.eqb signature "sig_1".

Definition order (who : ObjectId) (id : string) : OrderRequest :=
  {| o_token := Some who; o_courseId := 10%nat;
     o_gateway := Some {| order_id := id; order_amount := 299900;
                          order_currency := "INR" |} |}.

(** The same question with the correct option moved and another
    explanation. *)
Definition mcq' (id : ObjectId) (m : Z) : Question :=
  {| q_id := id; question := "question";
     options := [opt (id + 1) false; opt (id + 2) true];
     explanation := "on second thought"; difficulty := medium; marks := m |}.

(** A body that replaces the questions and nothing else. *)
Definition requestion (qs : list Question) : TestUpdate :=
  {| upd_title := None; upd_description := None; upd_duration := None;
     upd_passingMarks := None; upd_maxAttempts := None;
     upd_shuffleQuestions := None; upd_showResults := None;
     upd_showCorrectAnswers := None; upd_startDate := None;
     upd_endDate := None; upd_isPublished := None;
     upd_questions := Some qs |}.

(** An offline request with its evidence. *)
Definition deposit (who : ObjectId) : OfflineRequest :=
  {| f_token := Some who; f_courseId := 10%nat; f_bankName := "Bank";
     f_transactionId := "TX2"; f_transactionDate := 0; f_notes := None;
     f_file := Some "uploads/tx2.png" |}.

End Demo.

(** * The rest of the routes and models *)

(** ** routes/payments.js, the reading routes *)

(** *** GET /api/payments/:id *)

Definition get_payment (token : option ObjectId) (id : ObjectId) (db : Store)
  : Reply Payment :=
  match protect db token with
  | Return r => r
  | Go user =>
      match findPayment db id with
      | None => refuse 404 "Payment not found"
      | Some payment =>
          let hasAccess : Flow Payment bool :=
            match role user with
            | superadmin => Go true
            | admin =>
                match populateCourse db (p_course payment) with
                | None => Return (Next TypeError)
                | Some course => Go (sameId (cr_instructor course) (u_id user))
                end
            | student =>
                match populateUser db (p_student payment) with
                | None => Return (Next TypeError)
                | Some owner => Go (sameId (ur_id owner) (u_id user))
                end
            end in
          match hasAccess with
          | Return r => r
          | Go false => refuse 403 "Not authorized to view this payment"
          | Go true => Sent 200 true "" (Some payment)
          end
      end
  end.

(** *** GET /api/payments/history: the query it builds *)

(** The condition of a query on the course field. *)
Inductive CourseFilter :=
| AnyCourse
| CourseAmong (ids : list ObjectId)     (* { $in: ids } *)
| CourseIs (id : ObjectId).

(** A query on the payments. A status or method parameter is absent
    ('all'), a value of the enum, or a string that is none ([Some None]),
    which no document matches. *)
Record PaymentQuery := {
  pq_student : option ObjectId;
  pq_course : CourseFilter;
  pq_status : option (option PaymentStatus);
  pq_method : option (option PaymentMethod)
}.

Record HistoryParams := {
  h_status : option (option PaymentStatus);
  h_paymentMethod : option (option PaymentMethod);
  h_courseId : option ObjectId
}.

(** [Course.find({ instructor }).select('_id')] *)
Definition coursesOf (db : Store) (instructorId : ObjectId) : list ObjectId :=
  map c_id (filter (fun c => sameId (instructor c) instructorId) (courses db)).

(** The query by role, then the three filters; the courseId filter assigns
    [query.course] last. *)
Definition history_query (db : Store) (user : User) (params : HistoryParams)
  : PaymentQuery :=
  let byRole : option ObjectId * CourseFilter :=
    match role user with
    | student => (Some (u_id user), AnyCourse)
    | admin => (None, CourseAmong (coursesOf db (u_id user)))
    | superadmin => (None, AnyCourse)
    end in
  {| pq_student := fst byRole;
     pq_course := match h_courseId params with
                  | Some id => CourseIs id
                  | None => snd byRole
                  end;
     pq_status := h_status params;
     pq_method := h_paymentMethod params |}.

Definition query_matches (q : PaymentQuery) (p : Payment) : bool :=
  match pq_student q with
  | Some id => sameId (p_student p) id
  | None => true
  end
  && match pq_course q with
     | AnyCourse => true
     | CourseAmong ids => existsb (sameId (p_course p)) ids
     | CourseIs id => sameId (p_course p) id
     end
  && match pq_status q with
     | None => true
     | Some (Some st) => PaymentStatus_eqb (status p) st
     | Some None => false
     end
  && match pq_method q with
     | None => true
     | Some (Some m) => PaymentMethod_eqb (paymentMethod p) m
     | Some None => false
     end.

(** The documents of [Payment.find(query)], in collection order. *)
Definition payments_matching (db : Store) (q : PaymentQuery) : list Payment :=
  filter (query_matches q) (payments db).

(** ** routes/tests.js, deleting a test and reading a result *)

Fixpoint remove_first {A : Type} (same : A -> bool) (l : list A) : list A :=
  match l with
  | [] => []
  | x :: rest => if same x then rest else x :: remove_first same rest
  end.

(** *** DELETE /api/tests/:id *)

Definition delete_test (token : option ObjectId) (id : ObjectId) (db : Store)
  : Reply unit * Store :=
  match protect db token with
  | Return r => (r, db)
  | Go user =>
  match requireAdmin user with
  | Return r => (r, db)
  | Go _ =>
  match findTest db id with
  | None => (refuse 404 "Test not found", db)
  | Some test =>
  let authorized : Flow unit bool :=
    match role user with
    | superadmin => Go true
    | _ => match findCourse db (t_course test) with
           | None => Return (Next TypeError)
           | Some c => Go (sameId (instructor c) (u_id user))
           end
    end in
  match authorized with
  | Return r => (r, db)
  | Go false => (refuse 403 "Not authorized to delete this test", db)
  | Go true =>
      (* TestResult.deleteMany({ test }), then Test.findByIdAndDelete *)
      let db1 :=
        with_results db
          (filter (fun r => negb (sameId (r_test r) (t_id test))) (results db)) in
      (Sent 200 true "Test deleted successfully" None,
       with_tests db1 (remove_first (fun t => sameId (t_id t) id) (tests db1)))
  end
  end
  end
  end.

(** *** models/TestResult.js: getAnalytics *)

Record Analytics := {
  totalQuestions : nat;
  correctAnswers : nat;
  incorrectAnswers : nat;
  accuracy : Z;
  averageTimePerQuestion : Z
}.

Definition getAnalytics (r : TestResult) : Analytics :=
  let correct := List.length (filter a_isCorrect (r_answers r)) in
  let total := List.length (r_answers r) in
  {| totalQuestions := total;
     correctAnswers := correct;
     incorrectAnswers := total - correct;
     accuracy :=
       if (0 <? total)%nat
       then percent (Z.of_nat correct) (Z.of_nat total)
       else 0;
     averageTimePerQuestion :=
       if (0 <? total)%nat
       then round_quotient (r_timeTaken r) (Z.of_nat total)
       else 0 |}.

(** *** GET /api/tests/results/:resultId *)

Definition findResult (db : Store) (id : ObjectId) : option TestResult :=
  find (fun r => sameId (r_id r) id) (results db).

(** The result as an object with its populated references (of the test:
    title, questions and showCorrectAnswers; of the course: the title) and
    the analytics. *)
Record ResultData := {
  rd_result : TestResult;
  rd_test : option (ObjectId * string * list Question * bool);
  rd_student : option UserRef;
  rd_course : option (ObjectId * string);
  rd_analytics : Analytics
}.

Definition get_result (token : option ObjectId) (resultId : ObjectId)
    (db : Store) : Reply ResultData :=
  match protect db token with
  | Return r => r
  | Go user =>
      match findResult db resultId with
      | None => refuse 404 "Test result not found"
      | Some result =>
          let test := findTest db (r_test result) in
          let owner := populateUser db (r_student result) in
          let hasAccess : Flow ResultData bool :=
            match role user with
            | superadmin => Go true
            | admin =>
                match test with
                | None => Return (Next TypeError)
                | Some t =>
                    match populateCourse db (t_course t) with
                    | None => Return (Next TypeError)
                    | Some c => Go (sameId (cr_instructor c) (u_id user))
                    end
                end
            | student =>
                match owner with
                | None => Return (Next TypeError)
                | Some s => Go (sameId (ur_id s) (u_id user))
                end
            end in
          match hasAccess with
          | Return r => r
          | Go false => refuse 403 "Not authorized to view this result"
          | Go true =>
              Sent 200 true ""
                (Some
                   {| rd_result := result;
                      rd_test :=
                        match test with
                        | Some t =>
                            Some (t_id t, title t, questions t,
                                  showCorrectAnswers t)
                        | None => None
                        end;
                      rd_student := owner;
                      rd_course :=
                        match populateCourse db (r_course result) with
                        | Some c => Some (cr_id c, cr_title c)
                        | None => None
                        end;
                      rd_analytics := getAnalytics result |})
          end
      end
  end.

(** ** models/ForumPost.js: the votes of a post *)

Inductive VoteType := upvote | downvote.

(** The two vote arrays of a post (or of a reply). *)
Record Votes := {
  upvotes : list ObjectId;
  downvotes : list ObjectId
}.

(** [forumPostSchema.methods.getUserVote] *)
Definition getUserVote (post : Votes) (userId : ObjectId) : option VoteType :=
  if existsb (fun id => sameId id userId) (upvotes post) then Some upvote
  else if existsb (fun id => sameId id userId) (downvotes post)
       then Some downvote
       else None.

(** [forumPostSchema.methods.toggleVote] without its [save]; the route
    passes [None] for 'remove'. *)
Definition toggleVote (post : Votes) (userId : ObjectId)
    (voteType : option VoteType) : Votes :=
  let ups := filter (fun id => negb (sameId id userId)) (upvotes post) in
  let downs := filter (fun id => negb (sameId id userId)) (downvotes post) in
  match voteType with
  | Some upvote => {| upvotes := ups ++ [userId]; downvotes := downs |}
  | Some downvote => {| upvotes := ups; downvotes := downs ++ [userId] |}
  | None => {| upvotes := ups; downvotes := downs |}
  end.

(** The virtual [netVotes]. *)
Definition netVotes (post : Votes) : Z :=
  Z.of_nat (List.length (upvotes post))
  - Z.of_nat (List.length (downvotes post)).

(** ** middleware/auth.js and models/Course.js: access by purchase *)

(** [userSchema.methods.hasPurchasedAnyCourse] *)
Definition hasPurchasedAnyCourse (user : User) : bool :=
  existsb
    (fun enrollment =>
       EnrollmentStatus_eqb (e_paymentStatus enrollment) enr_completed)
    (enrolledCourses user).

(** [requireCoursePurchase], the guard of the forum's writing routes. *)
Definition requireCoursePurchase {A : Type} (user : User) : Flow A unit :=
  match role user with
  | student =>
      if existsb
           (fun enrollment =>
              EnrollmentStatus_eqb (e_paymentStatus enrollment) enr_completed)
           (enrolledCourses user)
      then Go tt
      else Return
             (refuse 403
                "You must purchase at least one course to access the forum")
  | _ => Return (refuse 403 "Student access required")
  end.

(** [courseSchema.methods.canUserAccess] *)
Definition canUserAccess (course : Course) (user : option User) : bool :=
  match user with
  | None => false
  | Some u =>
      if match role u with superadmin => true | _ => false end
         || sameId (instructor course) (u_id u)
      then true
      else match role u with
           | student => hasPurchasedCourse u (c_id course)
           | _ => false
           end
  end.

(** ** models/AdminInviteCode.js and POST /api/auth/register-admin *)

Record AdminInviteCode := {
  i_id : ObjectId;
  i_code : string;
  i_email : option string;
  i_createdBy : ObjectId;
  isUsed : bool;
  usedBy : option ObjectId;
  usedAt : option Date;
  expiresAt : Date;
  i_isActive : bool
}.

(** [adminInviteCodeSchema.methods.isValid], [now] being [new Date()]. *)
Definition isValid (now : Date) (invite : AdminInviteCode) : bool :=
  negb (isUsed invite) && i_isActive invite && (now <? expiresAt invite).

(** [adminInviteCodeSchema.methods.markAsUsed] without its [save]. *)
Definition markAsUsed (invite : AdminInviteCode) (userId : ObjectId)
    (now : Date) : AdminInviteCode :=
  {| i_id := i_id invite; i_code := i_code invite; i_email := i_email invite;
     i_createdBy := i_createdBy invite;
     isUsed := true;
     usedBy := Some userId;
     usedAt := Some now;
     expiresAt := expiresAt invite; i_isActive := i_isActive invite |}.

(** The database with the collection of invite codes. *)
Record Registry := {
  store : Store;
  invites : list AdminInviteCode
}.

(** The body after the express-validator chain has run: its verdict and
    the sanitised fields. *)
Record AdminRegistration := {
  ra_valid : bool;
  ra_name : string;
  ra_email : string;
  ra_inviteCode : string
}.

(** What [sendTokenResponse] sends: the token, here the id it is signed
    over, and the user. *)
Record TokenResponse := {
  tr_token : ObjectId;
  tr_user : User
}.

(** [emailMatches] is the [match] validator of the user schema's email,
    the one validator of [User.create] the chain does not subsume. *)
Definition register_admin (emailMatches : string -> bool) (now : Date)
    (req : AdminRegistration) (reg : Registry)
  : Reply TokenResponse * Registry :=
  if negb (ra_valid req) then (refuse 400 "Validation failed", reg)
  else
  match find (fun u => String.eqb (email u) (ra_email req))
             (users (store reg)) with
  | Some _ => (refuse 400 "User already exists with this email", reg)
  | None =>
  match find (fun i => String.eqb (i_code i) (ra_inviteCode req))
             (invites reg) with
  | None => (refuse 400 "Invalid invite code", reg)
  | Some invite =>
  if negb (isValid now invite)
  then (refuse 400 "Invite code is expired or already used", reg)
  else if match i_email invite with
          | Some e => negb (String.eqb e "")
                      && negb (String.eqb e (ra_email req))
          | None => false
          end
  then (refuse 400 "This invite code is for a different email address", reg)
  else if negb (emailMatches (ra_email req)) then (Next ValidationError, reg)
  else
    let user :=
      {| u_id := nextId (store reg); name := ra_name req;
         email := ra_email req; role := admin; u_isActive := true;
         enrolledCourses := [] |} in
    let db1 :=
      fresh (with_users (store reg) (users (store reg) ++ [user])) in
    (Sent 201 true "Admin registered successfully"
       (Some {| tr_token := u_id user; tr_user := user |}),
     {| store := db1;
        invites :=
          replace_first (fun i => sameId (i_id i) (i_id invite))
            (markAsUsed invite (u_id user) now) (invites reg) |})
  end
  end.

(** ** routes/tests.js: POST /api/tests *)

(** The value a body gives for [isCorrect], before any cast: absent, or a
    JSON boolean, number or string. (A JSON null, which is stored as null,
    is left out.) *)
Inductive RawBool :=
| JsAbsent
| JsBool (b : bool)
| JsNumber (z : Z)
| JsString (s : string).

(** What [if (v)] and [some(v => v)] take the value for. *)
Definition truthy (v : RawBool) : bool :=
  match v with
  | JsAbsent => false
  | JsBool b => b
  | JsNumber z => negb (z =? 0)
  | JsString s => negb (String.eqb s "")
  end.

(** The cast of the schema type Boolean, with the default of [isCorrect]
    for an absent value; [None] is a CastError. *)
Definition castBoolean (v : RawBool) : option bool :=
  match v with
  | JsAbsent => Some false
  | JsBool b => Some b
  | JsNumber z =>
      if z =? 1 then Some true else if z =? 0 then Some false else None
  | JsString s =>
      if String.eqb s "true" || String.eqb s "1" || String.eqb s "yes"
      then Some true
      else if String.eqb s "false" || String.eqb s "0" || String.eqb s "no"
      then Some false
      else None
  end.

Record NewOption := {
  no_id : ObjectId;
  no_text : string;
  no_isCorrect : RawBool
}.

(** A question of a body, with the id its subdocument is given and with
    the default of [marks] filled in. *)
Record NewQuestion := {
  nq_id : ObjectId;
  nq_question : string;
  nq_options : list NewOption;
  nq_explanation : string;
  nq_difficulty : Difficulty;
  nq_marks : Z
}.

(** [req.body] *)
Record NewTest := {
  new_title : string;
  new_description : option string;
  new_courseId : ObjectId;
  new_subject : string;
  new_duration : Z;
  new_questions : list NewQuestion;
  new_passingMarks : option Z;
  new_maxAttempts : option nat;
  new_shuffleQuestions : option bool;
  new_showResults : option bool;
  new_showCorrectAnswers : option bool;
  new_startDate : option Date;
  new_endDate : option Date
}.

(** The express-validator chain of the route; title, description, subject
    and the text of a question are trimmed, then tested. *)
Definition create_body_valid (body : NewTest) : bool :=
  (5 <=? String.length (trim (new_title body)))%nat
  && (String.length (trim (new_title body)) <=? 200)%nat
  && match new_description body with
     | Some s => (String.length (trim s) <=? 1000)%nat
     | None => true
     end
  && negb (String.eqb (trim (new_subject body)) "")
  && (1 <=? new_duration body)
  && (1 <=? List.length (new_questions body))%nat
  && forallb
       (fun q =>
          negb (String.eqb (trim (nq_question q)) "")
          && (2 <=? List.length (nq_options q))%nat
          && (List.length (nq_options q) <=? 6)%nat
          && (1 <=? nq_marks q))
       (new_questions body).

(** The loop over the questions of the body: the number, from 1, of the
    first question none of whose options has a truthy [isCorrect]. *)
Fixpoint first_without_correct (i : nat) (qs : list NewQuestion)
  : option nat :=
  match qs with
  | [] => None
  | q :: rest =>
      if existsb (fun opt => truthy (no_isCorrect opt)) (nq_options q)
      then first_without_correct (S i) rest
      else Some (S i)
  end.

(** The casts of [Test.create]: the strings are trimmed and [isCorrect]
    is cast; [None] when a cast fails. *)
Definition cast_option (opt : NewOption) : option McqOption :=
  match castBoolean (no_isCorrect opt) with
  | Some b =>
      Some {| opt_id := no_id opt; opt_text := trim (no_text opt);
              isCorrect := b |}
  | None => None
  end.

Fixpoint cast_all {A B : Type} (cast : A -> option B) (l : list A)
  : option (list B) :=
  match l with
  | [] => Some []
  | x :: rest =>
      match cast x, cast_all cast rest with
      | Some y, Some ys => Some (y :: ys)
      | _, _ => None
      end
  end.

Definition cast_question (q : NewQuestion) : option Question :=
  match cast_all cast_option (nq_options q) with
  | Some opts =>
      Some {| q_id := nq_id q; question := trim (nq_question q);
              options := opts; explanation := trim (nq_explanation q);
              difficulty := nq_difficulty q; marks := nq_marks q |}
  | None => None
  end.

(** The schema validators of [Test.create] the chain does not subsume,
    on the cast document. *)
Definition create_schema_valid (body : NewTest) (qs : list Question) : bool :=
  match new_maxAttempts body with
  | Some n => (1 <=? n)%nat
  | None => true
  end
  && forallb
       (fun q =>
          forallb (fun opt => negb (String.eqb (opt_text opt) "")) (options q))
       qs.

(** [passingMarks || Math.ceil(questions.length * 0.6)] *)
Definition passingMarks_or_default (body : NewTest) : Z :=
  match new_passingMarks body with
  | Some 0 | None =>
      (3 * Z.of_nat (List.length (new_questions body)) + 4) / 5
  | Some v => v
  end.

Definition create_test (token : option ObjectId) (body : NewTest)
    (db : Store) : Reply (TestData Question) * Store :=
  match protect db token with
  | Return r => (r, db)
  | Go user =>
  match requireAdmin user with
  | Return r => (r, db)
  | Go _ =>
  if negb (create_body_valid body) then (refuse 400 "Validation failed", db)
  else
  match findCourse db (new_courseId body) with
  | None => (refuse 404 "Course not found", db)
  | Some course =>
  if negb match role user with superadmin => true | _ => false end
     && negb (sameId (instructor course) (u_id user))
  then (refuse 403 "Not authorized to create tests for this course", db)
  else
  match first_without_correct 0 (new_questions body) with
  | Some i =>
      (refuse 400
         ("Question " ++ NilEmpty.string_of_uint (Nat.to_uint i)
          ++ " must have at least one correct answer"),
       db)
  | None =>
  match cast_all cast_question (new_questions body) with
  | None => (Next ValidationError, db)
  | Some qs =>
  if negb (create_schema_valid body qs) then (Next ValidationError, db)
  else
    let test : Test :=
      pre_save_totalMarks
        {| t_id := nextId db;
           title := trim (new_title body);
           description := match new_description body with
                          | Some s => trim s
                          | None => ""
                          end;
           t_course := new_courseId body;
           createdBy := u_id user;
           questions := qs;
           duration := new_duration body;
           totalMarks := 0;
           passingMarks := passingMarks_or_default body;
           isPublished := false;
           publishedAt := None;
           startDate := new_startDate body;
           endDate := new_endDate body;
           maxAttempts := match new_maxAttempts body with
                          | Some n => n
                          | None => 1%nat
                          end;
           shuffleQuestions := match new_shuffleQuestions body with
                               | Some b => b
                               | None => false
                               end;
           showResults := match new_showResults body with
                          | Some b => b
                          | None => true
                          end;
           showCorrectAnswers := match new_showCorrectAnswers body with
                                 | Some b => b
                                 | None => true
                                 end |} in
    (Sent 201 true "Test created successfully"
       (Some {| td_test := test;
                td_course := populateCourse db (t_course test);
                td_createdBy := populateUser db (createdBy test);
                attemptCount := None;
                canAttempt := None |}),
     fresh (with_tests db (tests db ++ [test])))
  end
  end
  end
  end
  end.

(** ** routes/tests.js, the listing routes *)

(** *** GET /api/tests: the query it builds *)

(** [published] is absent for 'all' and otherwise the value of
    [published === 'true']; [subject] is absent for the empty string. *)
Record ListParams := {
  lp_courseId : option ObjectId;
  lp_subject : option string;
  lp_published : option bool
}.

Record TestQuery := {
  tq_course : CourseFilter;
  tq_subject : option string;     (* { $regex: subject, $options: 'i' } *)
  tq_isPublished : option bool
}.

(** The query by role, then the three filters, each assigned over what
    the role has set. For a student the enrollments are populated, and the
    id is read of each completed one's course. *)
Definition list_query {A : Type} (db : Store) (user : User)
    (params : ListParams) : Flow A TestQuery :=
  let byRole : Flow A (CourseFilter * option bool) :=
    match role user with
    | student =>
        let purchased :=
          filter
            (fun enrollment =>
               EnrollmentStatus_eqb (e_paymentStatus enrollment) enr_completed)
            (enrolledCourses user) in
        if forallb
             (fun enrollment =>
                match findCourse db (e_course enrollment) with
                | Some _ => true
                | None => false
                end)
             purchased
        then Go (CourseAmong (map e_course purchased), Some true)
        else Return (Next TypeError)
    | admin => Go (CourseAmong (coursesOf db (u_id user)), None)
    | superadmin => Go (AnyCourse, None)
    end in
  match byRole with
  | Return r => Return r
  | Go (course, published) =>
      Go {| tq_course := match lp_courseId params with
                         | Some id => CourseIs id
                         | None => course
                         end;
            tq_subject := lp_subject params;
            tq_isPublished := match lp_published params with
                              | Some b => Some b
                              | None => published
                              end |}
  end.

(** [subjectMatches] is the case-insensitive regex match on the subject
    of a test. *)
Definition test_matches (subjectMatches : string -> Test -> bool)
    (q : TestQuery) (t : Test) : bool :=
  match tq_course q with
  | AnyCourse => true
  | CourseAmong ids => existsb (sameId (t_course t)) ids
  | CourseIs id => sameId (t_course t) id
  end
  && match tq_subject q with
     | Some s => subjectMatches s t
     | None => true
     end
  && match tq_isPublished q with
     | Some b => Bool.eqb (isPublished t) b
     | None => true
     end.

(** The documents of [Test.find(query)], in collection order: the tests
    as they are stored, of which the route sends a page. *)
Definition tests_matching (subjectMatches : string -> Test -> bool)
    (db : Store) (q : TestQuery) : list Test :=
  filter (test_matches subjectMatches q) (tests db).

(** *** GET /api/tests/:id/results: the query it builds *)

Record ResultQuery := {
  rq_test : ObjectId;
  rq_student : option ObjectId
}.

(** [studentId] is absent for the empty string. *)
Definition results_query {A : Type} (token : option ObjectId)
    (id : ObjectId) (studentId : option ObjectId) (db : Store)
  : Flow A ResultQuery :=
  match protect db token with
  | Return r => Return r
  | Go user =>
      match findTest db id with
      | None => Return (refuse 404 "Test not found")
      | Some test =>
          match role user with
          | student =>
              Go {| rq_test := t_id test; rq_student := Some (u_id user) |}
          | admin =>
              match populateCourse db (t_course test) with
              | None => Return (Next TypeError)
              | Some course =>
                  if negb (sameId (cr_instructor course) (u_id user))
                  then Return
                         (refuse 403
                            "Not authorized to view results for this test")
                  else Go {| rq_test := t_id test; rq_student := studentId |}
              end
          | superadmin =>
              Go {| rq_test := t_id test; rq_student := studentId |}
          end
      end
  end.

(** The documents of [TestResult.find(query)], in collection order. *)
Definition results_matching (db : Store) (q : ResultQuery)
  : list TestResult :=
  filter
    (fun r =>
       sameId (r_test r) (rq_test q)
       && match rq_student q with
          | Some s => sameId (r_student r) s
          | None => true
          end)
    (results db).

(** ** Relations used by the further properties *)

(** A stored payment before and after a route: untouched, or taken from
    pending to completed or failed with its identity kept. *)
Definition evolves (before after : Payment) : Prop :=
  after = before
  \/ (status before = pending
      /\ (status after = completed \/ status after = failed)
      /\ p_id after = p_id before
      /\ p_student after = p_student before
      /\ p_course after = p_course before
      /\ amount after = amount before
      /\ paymentMethod after = paymentMethod before).

(** The list [after] is the list [before] with one payment, [old],
    replaced where it stood by [new]; the others are what they were. *)
Definition replaced_one (before after : list Payment) (old new : Payment)
  : Prop :=
  exists l1 l2, before = l1 ++ old :: l2 /\ after = l1 ++ new :: l2.

(** The enrollment entries of a user name each course once. *)
Definition enrolled_once (u : User) : Prop :=
  NoDup (map e_course (enrolledCourses u)).


(** ** The payment routes served one after another *)

Inductive PaymentRequest :=
| CreateOrder (req : OrderRequest)
| RequestOffline (req : OfflineRequest)
| Verify (now : Date) (req : VerifyRequest)
| Approve (now : Date) (token : option ObjectId) (id : ObjectId)
| Reject (now : Date) (token : option ObjectId) (id : ObjectId)
    (reason : string).

Definition handle (verifyPaymentSignature : string -> string -> string -> bool)
    (r : PaymentRequest) (db : Store) : Store :=
  match r with
  | CreateOrder req => snd (create_order req db)
  | RequestOffline req => snd (request_offline req db)
  | Verify now req => snd (post_verify verifyPaymentSignature now req db)
  | Approve now token id => snd (put_approve now token id db)
  | Reject now token id reason => snd (put_reject now token id reason db)
  end.

Definition handle_all
    (verifyPaymentSignature : string -> string -> string -> bool)
    (rs : list PaymentRequest) (db : Store) : Store :=
  fold_left (fun db r => handle verifyPaymentSignature r db) rs db.

(** The payments have distinct ids, all below the next id to be given. *)
Definition payment_ids_fresh (db : Store) : Prop :=
  NoDup (map p_id (payments db))
  /\ Forall (fun p => (p_id p < nextId db)%nat) (payments db).

(** The payments of [db'] are those of [db], each evolved, followed by
    new ones. *)
Definition ledger_grows (db db' : Store) : Prop :=
  exists olds news,
    payments db' = olds ++ news /\ Forall2 evolves (payments db) olds.

(** ** A second installation *)

Module Ledger.

(** An attempt of Alice on test 20, two answers right and one wrong. *)
Definition attempt : TestResult :=
  {| r_id := 500%nat; r_test := 20%nat; r_student := 1%nat; r_course := 10%nat;
     r_answers :=
       [{| a_questionId := 100%nat; a_selectedOption := 101%nat;
           a_isCorrect := true; a_marksObtained := 1; a_timeTaken := 0 |};
        {| a_questionId := 110%nat; a_selectedOption := 111%nat;
           a_isCorrect := true; a_marksObtained := 1; a_timeTaken := 0 |};
        {| a_questionId := 120%nat; a_selectedOption := 122%nat;
           a_isCorrect := false; a_marksObtained := 0; a_timeTaken := 0 |}];
     r_totalMarks := 5; r_marksObtained := 2; r_percentage := Fin 40;
     r_isPassed := false; r_timeTaken := 10; r_startedAt := 0;
     r_submittedAt := 600000; attemptNumber := 1%nat |}.

(** The demo database with test 20 and Alice's attempt on it. *)
Definition attempted (ps : list Payment) : Store :=
  with_results (Demo.db [Demo.quiz 20 Demo.five 5 2 None] ps) [attempt].

Definition board : Votes :=
  {| upvotes := [1; 2]%nat; downvotes := [3]%nat |}.

(** An invite code nobody has used, and a registration that names it. *)
Definition invitation : AdminInviteCode :=
  {| i_id := 700%nat; i_code := "ABC123DEF456"; i_email := None;
     i_createdBy := 3%nat; isUsed := false; usedBy := None; usedAt := None;
     expiresAt := 100000; i_isActive := true |}.

Definition office : Registry :=
  {| store := Demo.db [] []; invites := [invitation] |}.

Definition applicant (mail : string) : AdminRegistration :=
  {| ra_valid := true; ra_name := "Dana"; ra_email := mail;
     ra_inviteCode := "ABC123DEF456" |}.

(** A body for POST /api/tests: two questions on the course. *)
Definition paper : NewTest :=
  {| new_title := "Optics quiz"; new_description := None;
     new_courseId := 10%nat; new_subject := "Physics"; new_duration := 20;
     new_questions :=
       [{| nq_id := 200%nat; nq_question := "What bends light?";
           nq_options :=
             [{| no_id := 201%nat; no_text := "A lens";
                 no_isCorrect := JsBool true |};
              {| no_id := 202%nat; no_text := "A wall";
                 no_isCorrect := JsAbsent |}];
           nq_explanation := ""; nq_difficulty := medium; nq_marks := 2 |};
        {| nq_id := 210%nat; nq_question := " What splits it? ";
           nq_options :=
             [{| no_id := 211%nat; no_text := "A prism";
                 no_isCorrect := JsString "yes" |};
              {| no_id := 212%nat; no_text := "A mirror";
                 no_isCorrect := JsNumber 0 |}];
           nq_explanation := ""; nq_difficulty := medium; nq_marks := 3 |}];
     new_passingMarks := None; new_maxAttempts := None;
     new_shuffleQuestions := None; new_showResults := None;
     new_showCorrectAnswers := None; new_startDate := None;
     new_endDate := None |}.

End Ledger.

(** * Properties *)

Unset Implicit Arguments.

(** ** Doubles *)

(** The nearest integer is within a half of the fraction. *)
Lemma nearest_even_near n d :
  0 < d ->
  2 * n - d <= 2 * d * nearest_even n d <= 2 * n + d.
Proof.
  intros Hd. unfold nearest_even.
  pose proof (Z.div_mod n d ltac:(lia)) as E.
  pose proof (Z.mod_pos_bound n d Hd) as B.
  destruct (2 * (n mod d) <? d) eqn:E1; [apply Z.ltb_lt in E1; nia|].
  apply Z.ltb_ge in E1.
  destruct (d <? 2 * (n mod d)) eqn:E2; [apply Z.ltb_lt in E2; nia|].
  apply Z.ltb_ge in E2.
  destruct (Z.even (n / d)); nia.
Qed.

Lemma nearest_even_le n d N :
  0 < d -> n <= N * d -> nearest_even n d <= N.
Proof.
  intros Hd Hn. unfold nearest_even.
  pose proof (Z.div_mod n d ltac:(lia)) as E.
  pose proof (Z.mod_pos_bound n d Hd) as B.
  assert (n / d <= N) by (apply Z.div_le_upper_bound; lia).
  assert (n / d < N \/ (n / d = N /\ n mod d = 0)) as [Hlt|[Heq H0]] by nia.
  - destruct (2 * (n mod d) <? d); [lia|].
    destruct (d <? 2 * (n mod d)); [lia|]. destruct (Z.even (n / d)); lia.
  - rewrite H0. simpl. destruct (0 <? d) eqn:E0; [lia|].
    apply Z.ltb_ge in E0. lia.
Qed.

Lemma nearest_even_nonneg n d : 0 < d -> 0 <= n -> 0 <= nearest_even n d.
Proof.
  intros Hd Hn. unfold nearest_even.
  assert (0 <= n / d) by (apply Z.div_pos; lia).
  destruct (2 * (n mod d) <? d); [lia|].
  destruct (d <? 2 * (n mod d)); [lia|]. destruct (Z.even (n / d)); lia.
Qed.

Lemma nearest_even_exact N d : 0 < d -> nearest_even (N * d) d = N.
Proof.
  intros Hd. unfold nearest_even.
  rewrite Z.div_mul, Z.mod_mul by lia. simpl.
  destruct (0 <? d) eqn:E; [reflexivity | apply Z.ltb_ge in E; lia].
Qed.

(** The exponent of a fraction that does not exceed [c]. *)
Lemma binade_le n d c :
  0 < n -> 0 < d -> 0 < c -> n <= c * d ->
  binade n d <= Z.log2 c - 51.
Proof.
  intros Hn Hd Hc Hle. unfold binade.
  assert (Z.log2 n <= Z.log2 c + Z.log2 d + 1).
  { etransitivity; [apply Z.log2_le_mono, Hle|].
    apply Z.log2_mul_above; lia. }
  destruct (if 0 <=? _ then _ else _); lia.
Qed.

(** What [round53] gives for a fraction between 0 and [c]. *)
Lemma round53_within n d c :
  0 <= n -> 0 < d -> 0 < c -> Z.log2 c <= 50 -> n <= c * d ->
  exists a e,
    round53 n d = (a, e)
    /\ e <= 0
    /\ 0 <= a <= c * 2 ^ (- e)
    /\ (n = 0 \/ (e <= Z.log2 c - 51
                  /\ 2 * n * 2 ^ (- e) - d <= 2 * d * a
                     <= 2 * n * 2 ^ (- e) + d)).
Proof.
  intros Hn Hd Hc Hlog Hle. unfold round53.
  destruct (n =? 0) eqn:E0.
  { apply Z.eqb_eq in E0. exists 0, 0. split; [reflexivity|].
    split; [lia|]. split; [simpl; lia | now left]. }
  apply Z.eqb_neq in E0. rewrite Z.abs_eq by lia.
  pose proof (binade_le n d c ltac:(lia) Hd Hc Hle) as He.
  set (e := binade n d) in *.
  assert (e < 0) by lia.
  unfold scaled. destruct (0 <=? e) eqn:Ee; [apply Z.leb_le in Ee; lia|].
  rewrite Z.sgn_pos by lia. rewrite Z.mul_1_l.
  assert (0 < 2 ^ (- e)) by (apply Z.pow_pos_nonneg; lia).
  exists (nearest_even (n * 2 ^ (- e)) d), e.
  split; [reflexivity|]. split; [lia|]. split.
  - split.
    + apply nearest_even_nonneg; [exact Hd|]. apply Z.mul_nonneg_nonneg; lia.
    + apply nearest_even_le; [exact Hd|].
      replace (c * 2 ^ (- e) * d) with (c * d * 2 ^ (- e)) by ring.
      apply Z.mul_le_mono_nonneg_r; lia.
  - right. split; [exact He|].
    pose proof (nearest_even_near (n * 2 ^ (- e)) d Hd). lia.
Qed.

Lemma Math_round_within a e c :
  e <= 0 -> 0 <= a <= c * 2 ^ (- e) -> 0 <= c ->
  0 <= Math_round (a, e) <= c.
Proof.
  intros He Ha Hc. unfold Math_round.
  destruct (0 <=? e) eqn:E.
  { apply Z.leb_le in E. assert (e = 0) as -> by lia. simpl in *. lia. }
  apply Z.leb_gt in E.
  assert (0 < 2 ^ (- e)) as Hp by (apply Z.pow_pos_nonneg; lia).
  replace (2 ^ (1 - e)) with (2 * 2 ^ (- e))
    by (rewrite <- Z.pow_succ_r by lia; f_equal; lia).
  split.
  - apply Z.div_pos; lia.
  - apply Z.lt_succ_r. apply Z.div_lt_upper_bound; nia.
Qed.

Lemma binade_integer n : 0 < n -> binade n 1 = Z.log2 n - 52.
Proof.
  intros Hn. unfold binade. change (Z.log2 1) with 0. rewrite Z.sub_0_r.
  pose proof (Z.log2_nonneg n) as H0.
  destruct (0 <=? Z.log2 n) eqn:E; [|apply Z.leb_gt in E; lia].
  pose proof (Z.log2_spec n Hn) as [Hl _].
  destruct (1 * 2 ^ Z.log2 n <=? n) eqn:E'; [reflexivity|].
  apply Z.leb_gt in E'. lia.
Qed.

(** Up to 2^53 every integer is a double. *)
Lemma nearest_double_exact n : 0 <= n <= 2 ^ 53 -> nearest_double n = n.
Proof.
  intros [H0 H53]. unfold nearest_double, round53.
  destruct (n =? 0) eqn:E0.
  - apply Z.eqb_eq in E0. subst. reflexivity.
  - apply Z.eqb_neq in E0. assert (Hn : 0 < n) by lia.
    rewrite Z.abs_eq, Z.sgn_pos, binade_integer by lia.
    assert (Hlog : Z.log2 n <= 53).
    { change 53 with (Z.log2 (2 ^ 53)). now apply Z.log2_le_mono. }
    unfold scaled.
    destruct (0 <=? Z.log2 n - 52) eqn:E; cbv beta iota zeta; rewrite E.
    + apply Z.leb_le in E.
      assert (Z.log2 n = 52 \/ Z.log2 n = 53) as [Hl|Hl] by lia.
      * rewrite Hl. change (1 * 2 ^ (52 - 52)) with 1.
        replace (nearest_even n 1) with (nearest_even (n * 1) 1)
          by (now rewrite Z.mul_1_r).
        rewrite nearest_even_exact by lia. change (2 ^ (52 - 52)) with 1. lia.
      * pose proof (Z.log2_spec n Hn) as [Hlo _]. rewrite Hl in Hlo.
        assert (n = 2 ^ 53) as -> by lia. reflexivity.
    + apply Z.leb_gt in E.
      assert (Hp : 0 < 2 ^ (- (Z.log2 n - 52)))
        by (apply Z.pow_pos_nonneg; lia).
      replace (nearest_even (n * 2 ^ (- (Z.log2 n - 52))) 1)
        with (nearest_even (n * 2 ^ (- (Z.log2 n - 52)) * 1) 1)
        by (now rewrite Z.mul_1_r).
      rewrite nearest_even_exact by lia.
      rewrite Z.mul_1_l. apply Z.div_mul. lia.
Qed.

Lemma quotient_pos m t : 0 < t -> quotient m t = round53 m t.
Proof.
  intros Ht. unfold quotient.
  now rewrite Z.sgn_pos, Z.abs_eq, Z.mul_1_r by lia.
Qed.

Lemma percent_within m t :
  0 <= m <= t -> 0 < t -> 0 <= percent m t <= 100.
Proof.
  intros Hm Ht. unfold percent. rewrite quotient_pos by exact Ht.
  destruct (round53_within m t 1 ltac:(lia) Ht ltac:(lia) ltac:(simpl; lia)
              ltac:(lia)) as (a & e & -> & He & Ha & _).
  unfold times. destruct (0 <=? e) eqn:E.
  - apply Z.leb_le in E. assert (e = 0) as -> by lia.
    simpl in Ha. change (2 ^ 0) with 1. rewrite Z.mul_1_r.
    destruct (round53_within (100 * a) 1 100 ltac:(lia) ltac:(lia)
                ltac:(lia) ltac:(simpl; lia) ltac:(lia))
      as (b & e2 & -> & He2 & Hb & _).
    apply Math_round_within; lia.
  - apply Z.leb_gt in E.
    assert (0 < 2 ^ (- e)) by (apply Z.pow_pos_nonneg; lia).
    destruct (round53_within (100 * a) (2 ^ (- e)) 100 ltac:(lia) ltac:(lia)
                ltac:(lia) ltac:(simpl; lia) ltac:(lia))
      as (b & e2 & -> & He2 & Hb & _).
    apply Math_round_within; lia.
Qed.







(** ** Lists and lookups *)

Lemma find_replace_first {A : Type} (f : A -> bool) (d : A) (l : list A) :
  f d = true -> find f l <> None -> find f (replace_first f d l) = Some d.
Proof.
  intros Hd. induction l as [|x rest IH]; simpl; [congruence|].
  destruct (f x) eqn:Ex; simpl.
  - now rewrite Hd.
  - rewrite Ex. exact IH.
Qed.

Lemma replace_first_ext {A : Type} (f g : A -> bool) (d : A) (l : list A) :
  (forall x, f x = g x) -> replace_first f d l = replace_first g d l.
Proof.
  intros E. induction l as [|x rest IH]; simpl; [reflexivity|].
  now rewrite E, IH.
Qed.

Lemma sameId_true (a b : ObjectId) : sameId a b = true <-> a = b.
Proof. apply Nat.eqb_eq. Qed.

Lemma findPayment_id db id p : findPayment db id = Some p -> p_id p = id.
Proof.
  intros H. apply find_some in H. now apply sameId_true.
Qed.

Lemma findTest_id db id t : findTest db id = Some t -> t_id t = id.
Proof.
  intros H. apply find_some in H. now apply sameId_true.
Qed.

Lemma findUser_id db id u : findUser db id = Some u -> u_id u = id.
Proof.
  intros H. apply find_some in H. now apply sameId_true.
Qed.

(** ** The availability window *)

Lemma isActive_iff now (t : Test) :
  isActive now t = true <->
  isPublished t = true
  /\ (forall start, startDate t = Some start -> start <= now)
  /\ (forall stop, endDate t = Some stop -> now <= stop).
Proof.
  unfold isActive.
  destruct (isPublished t); simpl.
  2: { split; [discriminate | intros [H _]; discriminate]. }
  destruct (startDate t) as [start|]; destruct (endDate t) as [stop|].
  - destruct (now <? start) eqn:Es; [|destruct (stop <? now) eqn:Ee].
    + apply Z.ltb_lt in Es. split; [discriminate|].
      intros (_ & Hs & _). specialize (Hs start eq_refl). lia.
    + apply Z.ltb_lt in Ee. split; [discriminate|].
      intros (_ & _ & He). specialize (He stop eq_refl). lia.
    + apply Z.ltb_ge in Es. apply Z.ltb_ge in Ee.
      split; [intros _|reflexivity].
      repeat split; intros x Hx; injection Hx as <-; lia.
  - destruct (now <? start) eqn:Es.
    + apply Z.ltb_lt in Es. split; [discriminate|].
      intros (_ & Hs & _). specialize (Hs start eq_refl). lia.
    + apply Z.ltb_ge in Es. split; [intros _|reflexivity].
      repeat split; intros x Hx; [injection Hx as <-; lia | discriminate].
  - destruct (stop <? now) eqn:Ee.
    + apply Z.ltb_lt in Ee. split; [discriminate|].
      intros (_ & _ & He). specialize (He stop eq_refl). lia.
    + apply Z.ltb_ge in Ee. split; [intros _|reflexivity].
      repeat split; intros x Hx; [discriminate | injection Hx as <-; lia].
  - split; [intros _|reflexivity].
    repeat split; intros x Hx; discriminate.
Qed.

Lemma isActive_before_start now (t : Test) start :
  startDate t = Some start -> now < start -> isActive now t = false.
Proof.
  intros Hs Hlt. unfold isActive. rewrite Hs.
  destruct (isPublished t); simpl; [|reflexivity].
  apply Z.ltb_lt in Hlt. now rewrite Hlt.
Qed.

(** C7, as the claim has it, fails: Alice has bought the course of a
    published test that opens at 5000; at time 1000 the test is not active
    and her submission is answered 400, which is not the 403 of a refused
    access. *)
Lemma future_start_is_answered_400 :
  let test := Demo.quiz 20 Demo.five 5 2 (Some 5000) in
  let reply :=
    fst (submit 1000 (Demo.sheet 1 20 [Demo.pick 100]) (Demo.db [test] [])) in
  isActive 1000 test = false
  /\ reply = refuse 400 "Test is not currently active"
  /\ replied reply <> Some 403%nat.
Proof.
  cbv zeta. repeat split; try reflexivity.
  vm_compute. discriminate.
Qed.

(** C7, amended: a test whose startDate lies in the future is not active
    and a submission to it creates nothing and fails whatever the attempt
    quota: with 403 when the test is unpublished or the student has no
    completed enrollment for its course, with 400 "Test is not currently
    active" otherwise. In general isActive holds exactly when the test is
    published, now >= startDate (or startDate is unset) and
    now <= endDate (or endDate is unset). *)
Theorem future_start_refuses_submit now req db user test course start :
  submit_user db req = Go user ->
  findTest db (s_testId req) = Some test ->
  populateCourse db (t_course test) = Some course ->
  startDate test = Some start ->
  now < start ->
  isActive now test = false
  /\ submit now req db =
       (if isPublished test && hasPurchasedCourse user (cr_id course)
        then refuse 400 "Test is not currently active"
        else refuse 403 "Not authorized to take this test",
        db)
  /\ (forall (clock : Date) (t : Test),
        isActive clock t = true <->
        isPublished t = true
        /\ (forall s, startDate t = Some s -> s <= clock)
        /\ (forall e, endDate t = Some e -> clock <= e)).
Proof.
  intros Hu Ht Hc Hs Hlt.
  pose proof (isActive_before_start now test start Hs Hlt) as Hin.
  split; [exact Hin|]. split; [|intros; apply isActive_iff].
  unfold submit. rewrite Hu. unfold submit_test. rewrite Ht.
  destruct (isPublished test); simpl; [|reflexivity].
  rewrite Hc.
  destruct (hasPurchasedCourse user (cr_id course)); simpl; [|reflexivity].
  now rewrite Hin.
Qed.

Lemma future_start_refuses_submit_witness :
  let test := Demo.quiz 20 Demo.five 5 2 (Some 5000) in
  isActive 1000 test = false
  /\ submit 1000 (Demo.sheet 2 20 [Demo.pick 100]) (Demo.db [test] []) =
       (refuse 403 "Not authorized to take this test", Demo.db [test] []).
Proof.
  cbv zeta.
  destruct (future_start_refuses_submit 1000
              (Demo.sheet 2 20 [Demo.pick 100])
              (Demo.db [Demo.quiz 20 Demo.five 5 2 (Some 5000)] [])
              Demo.bob (Demo.quiz 20 Demo.five 5 2 (Some 5000))
              {| cr_id := 10; cr_title := "Physics"; cr_instructor := 4 |}
              5000)
    as (H1 & H2 & _); try reflexivity.
  split; [exact H1 | exact H2].
Defined.

(** ** What a student is shown *)

Lemma with_questions_alike {Q : Type} (a b : Test) (qs : list Q) :
  with_questions a (@nil unit) = with_questions b (@nil unit) ->
  with_questions a qs = with_questions b qs.
Proof.
  intros H.
  change (with_questions (with_questions a (@nil unit)) qs
          = with_questions (with_questions b (@nil unit)) qs).
  now rewrite H.
Qed.

Lemma options_alike_view (l1 l2 : list McqOption) :
  Forall2 option_alike l1 l2 ->
  map (fun o => {| so_id := opt_id o; so_text := opt_text o |}) l1
  = map (fun o => {| so_id := opt_id o; so_text := opt_text o |}) l2.
Proof.
  induction 1 as [|a b l1 l2 [Hi Ht] _ IH]; simpl; [reflexivity|].
  now rewrite Hi, Ht, IH.
Qed.

Lemma questions_alike_view (a b : Test) :
  Forall2 question_alike (questions a) (questions b) ->
  getQuestionsForStudent a = getQuestionsForStudent b.
Proof.
  unfold getQuestionsForStudent.
  induction 1 as [|x y l1 l2 (Hi & Hq & Hd & Hm & Ho) _ IH]; simpl;
    [reflexivity|].
  now rewrite Hi, Hq, Hd, Hm, (options_alike_view _ _ Ho), IH.
Qed.

Lemma isActive_alike now (a b : Test) :
  with_questions a (@nil unit) = with_questions b (@nil unit) ->
  isActive now a = isActive now b.
Proof.
  intros H. unfold isActive.
  pose proof (f_equal (@isPublished unit) H) as Hp.
  pose proof (f_equal (@startDate unit) H) as Hs.
  pose proof (f_equal (@endDate unit) H) as He.
  simpl in Hp, Hs, He. now rewrite Hp, Hs, He.
Qed.

Lemma findTest_alike (l1 l2 : list Test) id :
  Forall2 test_alike l1 l2 ->
  match find (fun t => sameId (t_id t) id) l1,
        find (fun t => sameId (t_id t) id) l2 with
  | Some a, Some b => test_alike a b
  | None, None => True
  | _, _ => False
  end.
Proof.
  induction 1 as [|a b l1 l2 Hab _ IH]; simpl; [exact I|].
  pose proof (f_equal (@t_id unit) (proj1 Hab)) as Hid. simpl in Hid.
  rewrite Hid. destruct (sameId (t_id b) id); [exact Hab | exact IH].
Qed.

(** C10: a request of a student for a single test is answered the same
    by two databases that differ only in which options are correct and in
    the explanations: each question of the view carries the question text,
    the marks, the difficulty and each option's id and text, nothing of the
    correctness data. *)
Theorem student_view_hides_correctness now token id db1 db2 user :
  store_alike db1 db2 ->
  protect (A := TestBody) db1 token = Go user ->
  role user = student ->
  get_test now token id db1 = get_test now token id db2.
Proof.
  intros (Hu & Hc & Hr & Ht) Hp Hrole.
  assert (Hp2 : protect (A := TestBody) db2 token = Go user).
  { revert Hp. unfold protect, findUser. now rewrite Hu. }
  unfold get_test. rewrite Hp, Hp2.
  pose proof (findTest_alike _ _ id Ht) as Hf. unfold findTest.
  destruct (find (fun t : TestOf Question => sameId (t_id t) id) (tests db1))
    as [a|];
    destruct (find (fun t : TestOf Question => sameId (t_id t) id) (tests db2))
      as [b|];
    simpl in Hf; try (exfalso; exact Hf); [|reflexivity].
  destruct Hf as [Hmeta Hqs].
  pose proof (f_equal (@t_id unit) Hmeta) as Hid.
  pose proof (f_equal (@t_course unit) Hmeta) as Hco.
  pose proof (f_equal (@createdBy unit) Hmeta) as Hcb.
  pose proof (f_equal (@isPublished unit) Hmeta) as Hpub.
  pose proof (f_equal (@maxAttempts unit) Hmeta) as Hmax.
  simpl in Hid, Hco, Hcb, Hpub, Hmax.
  unfold populateCourse, populateUser, findCourse, findUser, getAttemptCount,
    attempts_of.
  rewrite Hrole, Hu, Hc, Hr, Hid, Hco, Hcb, Hpub, Hmax.
  rewrite (isActive_alike now a b Hmeta), (questions_alike_view a b Hqs).
  rewrite (with_questions_alike a b (getQuestionsForStudent b) Hmeta).
  reflexivity.
Qed.

Lemma student_view_hides_correctness_witness :
  get_test 1000 (Some 1%nat) 20
    (Demo.db [Demo.quiz 20 [Demo.mcq 100 1; Demo.mcq 110 2] 3 2 None] [])
  = get_test 1000 (Some 1%nat) 20
      (Demo.db [Demo.quiz 20 [Demo.mcq' 100 1; Demo.mcq' 110 2] 3 2 None] []).
Proof.
  apply (student_view_hides_correctness 1000 (Some 1%nat) 20%nat
           (Demo.db [Demo.quiz 20 [Demo.mcq 100 1; Demo.mcq 110 2] 3 2 None] [])
           (Demo.db [Demo.quiz 20 [Demo.mcq' 100 1; Demo.mcq' 110 2] 3 2 None] [])
           Demo.alice).
  - repeat split; repeat constructor.
  - reflexivity.
  - reflexivity.
Defined.

(** ** Grading *)


Lemma grade_length qs todo :
  forall m g r,
    grade qs todo m g = Go r ->
    List.length (snd r) = (List.length g + List.length todo)%nat.
Proof.
  induction todo as [|answer rest IH]; intros m g r; simpl.
  - intros [= <-]. simpl. lia.
  - destruct (question_by_id qs (questionId answer)) as [q|]; [|discriminate].
    destruct (option_by_id (options q) (selectedOption answer)) as [o|];
      [|discriminate].
    intros H. apply IH in H. rewrite H, length_app. simpl. lia.
Qed.

Lemma protect_refuses {A : Type} db token (r : Reply A) :
  protect db token = Return r ->
  exists code message, r = refuse code message /\ (400 <= code)%nat.
Proof.
  unfold protect.
  destruct token as [id|]; [destruct (findUser db id) as [u|];
    [destruct (u_isActive u)|]|]; intros [= <-];
    eexists _, _; (split; [reflexivity | lia]).
Qed.

Lemma student_only_refuses {A : Type} db token (r : Reply A) :
  student_only db token = Return r ->
  exists code message, r = refuse code message /\ (400 <= code)%nat.
Proof.
  unfold student_only.
  destruct (protect db token) as [r0|u] eqn:Hp.
  - intros [= <-]. eapply protect_refuses, Hp.
  - unfold requireStudent.
    destruct (role u); intros [= <-];
      eexists _, _; (split; [reflexivity | lia]).
Qed.

Lemma submit_user_refuses db req r :
  submit_user db req = Return r ->
  exists code message, r = refuse code message /\ (400 <= code)%nat.
Proof.
  unfold submit_user.
  destruct (protect db (s_token req)) as [r0|u] eqn:Hp.
  - intros [= <-]. eapply protect_refuses, Hp.
  - unfold requireStudent.
    destruct (role u);
      try (intros [= <-]; eexists _, _; (split; [reflexivity | lia])).
    destruct (timeTaken req <? 1); intros [= <-].
    eexists _, _; (split; [reflexivity | lia]).
Qed.

Lemma grade_refuses qs todo :
  forall m g r,
    grade qs todo m g = Return r ->
    exists code message, r = refuse code message /\ (400 <= code)%nat.
Proof.
  induction todo as [|answer rest IH]; intros m g r; simpl; [discriminate|].
  destruct (question_by_id qs (questionId answer)) as [q|];
    [|intros [= <-]; eexists _, _; (split; [reflexivity | lia])].
  destruct (option_by_id (options q) (selectedOption answer)) as [o|];
    [|intros [= <-]; eexists _, _; (split; [reflexivity | lia])].
  apply IH.
Qed.







(** ** Answers given twice *)

Lemma grade_repeat qs answer q selected :
  question_by_id qs (questionId answer) = Some q ->
  option_by_id (options q) (selectedOption answer) = Some selected ->
  isCorrect selected = true ->
  forall k m g,
    exists g',
      grade qs (repeat answer k) m g = Go (m + Z.of_nat k * marks q, g').
Proof.
  intros Hq Ho Hc. induction k as [|k IH]; intros m g.
  - exists g. simpl. f_equal. f_equal. lia.
  - cbn [repeat grade]. rewrite Hq, Ho, Hc.
    destruct (IH (m + marks q) (g ++ [{| a_questionId := questionId answer;
                 a_selectedOption := selectedOption answer;
                 a_isCorrect := true; a_marksObtained := marks q;
                 a_timeTaken := match answer_timeTaken answer with
                                | Some seconds => seconds
                                | None => 0
                                end |}])) as [g' Hg'].
    exists g'. rewrite Hg'. f_equal. f_equal. lia.
Qed.

(** C9: the answers are graded one by one without looking for repeated
    question ids: a correctly answered question listed k times brings its
    marks k times and no refusal, so that the marks of a submission can
    exceed the test's totalMarks and its percentage 100. *)
Theorem repeated_answer_counts_each_time qs answer q selected k :
  question_by_id qs (questionId answer) = Some q ->
  option_by_id (options q) (selectedOption answer) = Some selected ->
  isCorrect selected = true ->
  (exists graded,
      grade qs (repeat answer k) 0 [] = Go (Z.of_nat k * marks q, graded)
      /\ List.length graded = k)
  /\ (exists now req db data,
         answers req = repeat (Demo.pick 100) 10
         /\ fst (submit now req db)
            = Sent 201 true "Test submitted successfully" (Some data)
         /\ d_marksObtained data = 10
         /\ d_totalMarks data = 5
         /\ d_percentage data = Fin 200).
Proof.
  intros Hq Ho Hc. split.
  - destruct (grade_repeat qs answer q selected Hq Ho Hc k 0 []) as [g Hg].
    exists g. split; [exact Hg|].
    apply grade_length in Hg. simpl in Hg. now rewrite repeat_length in Hg.
  - exists 1000, (Demo.sheet 1 20 (repeat (Demo.pick 100) 10)),
      (Demo.db [Demo.quiz 20 Demo.five 5 2 None] []).
    eexists. split; [reflexivity|].
    split; [vm_compute; reflexivity|]. repeat split.
Qed.

Lemma repeated_answer_counts_each_time_witness :
  exists graded,
    grade Demo.five (repeat (Demo.pick 100) 3) 0 [] = Go (3, graded)
    /\ List.length graded = 3%nat.
Proof.
  exact (proj1 (repeated_answer_counts_each_time Demo.five (Demo.pick 100)
                  (Demo.mcq 100 1) (Demo.opt 101 true) 3
                  eq_refl eq_refl eq_refl)).
Defined.

(** ** The total of a test *)

Lemma pre_save_totalMarks_sum (t : Test) :
  questions t <> [] ->
  totalMarks (pre_save_totalMarks t) = sum_marks (questions t)
  /\ questions (pre_save_totalMarks t) = questions t.
Proof.
  unfold pre_save_totalMarks. destruct (questions t) eqn:E; [congruence|].
  intros _. simpl. now rewrite E.
Qed.

(** On the save path the total follows the questions. *)
Lemma Test_create_totalMarks db (t : Test) :
  questions t <> [] ->
  exists t',
    tests (Test_create db t) = tests db ++ [t']
    /\ questions t' = questions t
    /\ totalMarks t' = sum_marks (questions t').
Proof.
  intros H. exists (pre_save_totalMarks t).
  destruct (pre_save_totalMarks_sum t H) as [Hs Hq].
  split; [reflexivity|]. split; [exact Hq|]. now rewrite Hq.
Qed.

(** C8, at the input where the code leaves the claim: the instructor
    replaces the five one-mark questions of a test nobody has attempted by
    one question of ten marks through PUT /api/tests/:id; the update is
    accepted and the stored test has the new question and the old
    totalMarks, 5, where its questions sum to 10. *)
Theorem questions_update_keeps_totalMarks :
  let before := Demo.quiz 20 Demo.five 5 2 None in
  let run :=
    update_test (Some 4%nat) 20 (Demo.requestion [Demo.mcq 200 10])
      (Demo.db [before] []) in
  totalMarks before = sum_marks (questions before)
  /\ replied (fst run) = Some 200%nat
  /\ exists after,
       findTest (snd run) 20 = Some after
       /\ questions after = [Demo.mcq 200 10]
       /\ totalMarks after = 5
       /\ sum_marks (questions after) = 10.
Proof.
  cbv zeta. split; [reflexivity|]. split; [reflexivity|].
  eexists. split; [vm_compute; reflexivity|]. repeat split.
Qed.

(** ** Deciding an offline payment *)

Lemma PaymentStatus_eqb_eq a b : PaymentStatus_eqb a b = true <-> a = b.
Proof. destruct a, b; simpl; split; congruence. Qed.

Lemma PaymentMethod_eqb_eq a b : PaymentMethod_eqb a b = true <-> a = b.
Proof. destruct a, b; simpl; split; congruence. Qed.

Lemma requireAdmin_staff {A : Type} (user : User) :
  role user <> student -> requireAdmin (A := A) user = Go tt.
Proof. unfold requireAdmin. destruct (role user); congruence. Qed.

Lemma findPayment_savePayment db id old new :
  findPayment db id = Some old ->
  p_id new = id ->
  findPayment (savePayment db new) id = Some new.
Proof.
  intros Hf Hid. unfold findPayment, savePayment in *. simpl.
  rewrite (replace_first_ext (fun x => sameId (p_id x) (p_id new))
             (fun p => sameId (p_id p) id)) by (intros; now rewrite Hid).
  apply find_replace_first; [rewrite Hid; apply Nat.eqb_refl | congruence].
Qed.

Lemma incEnrollmentCount_payments db c :
  payments (incEnrollmentCount db c) = payments db.
Proof. unfold incEnrollmentCount. now destruct (findCourse db c). Qed.

Lemma enroll_offline_payments now db p :
  payments (snd (enroll_offline now db p)) = payments db.
Proof.
  unfold enroll_offline.
  destruct (populateUser db (p_student p)) as [ref|]; [|reflexivity].
  destruct (findUser db (ur_id ref)) as [u|]; [|reflexivity].
  destruct (populateCourse db (p_course p)) as [c|]; [|reflexivity].
  destruct (find _ (enrolledCourses u)); simpl; [reflexivity|].
  now rewrite incEnrollmentCount_payments.
Qed.

Lemma enroll_offline_reply now db p :
  fst (enroll_offline now db p)
  = Sent 200 true "Payment approved successfully" (Some p)
  \/ fst (enroll_offline now db p) = Next TypeError.
Proof.
  unfold enroll_offline.
  destruct (populateUser db (p_student p)) as [ref|]; [|now right].
  destruct (findUser db (ur_id ref)) as [u|]; [|now right].
  destruct (populateCourse db (p_course p)) as [c|]; [|now right].
  destruct (find _ (enrolledCourses u)); now left.
Qed.

(** C6: for a decider who may decide the payment (a superadmin or the
    instructor of its course), approve and reject answer 400, the code's
    Conflict, and change nothing unless the payment is an offline one in
    status pending; when it is, approve stores it completed with the
    approver and the time, and reject, given a reason that is not blank,
    stores it failed with the rejecter, the time and the reason without
    the whitespace around it. A reject whose reason is blank once trimmed
    is answered 400 by the validation, whatever the payment, and changes
    nothing. *)
Theorem decide_needs_pending_offline now token id reason db user payment :
  protect (A := Payment) db token = Go user ->
  role user <> student ->
  findPayment db id = Some payment ->
  may_decide (A := Payment) db user payment = Go true ->
  (paymentMethod payment <> offline \/ status payment <> pending ->
   put_approve now token id db
   = (refuse 400
        (if PaymentMethod_eqb (paymentMethod payment) offline
         then "Payment is not in pending status"
         else "Only offline payments can be approved manually"), db)
   /\ put_reject now token id reason db
      = (refuse 400
           (if String.eqb (trim reason) "" then "Validation failed"
            else if PaymentMethod_eqb (paymentMethod payment) offline
            then "Payment is not in pending status"
            else "Only offline payments can be rejected manually"), db))
  /\ (paymentMethod payment = offline ->
      status payment = pending ->
      let approved := approve payment (u_id user) now in
      let rejected := reject payment (u_id user) (trim reason) now in
      (fst (put_approve now token id db)
       = Sent 200 true "Payment approved successfully" (Some approved)
       \/ fst (put_approve now token id db) = Next TypeError)
      /\ findPayment (snd (put_approve now token id db)) id = Some approved
      /\ status approved = completed
      /\ approvedBy approved = Some (u_id user)
      /\ approvedAt approved = Some now
      /\ put_reject now token id reason db
         = (if String.eqb (trim reason) ""
            then (refuse 400 "Validation failed", db)
            else (Sent 200 true "Payment rejected successfully"
                    (Some rejected),
                  savePayment db rejected))
      /\ findPayment (savePayment db rejected) id = Some rejected
      /\ status rejected = failed
      /\ rejectedBy rejected = Some (u_id user)
      /\ rejectedAt rejected = Some now
      /\ rejectionReason rejected = Some (trim reason)).
Proof.
  intros Hp Hrole Hf Hm.
  pose proof (findPayment_id _ _ _ Hf) as Hid.
  unfold put_approve, put_reject.
  rewrite Hp, (requireAdmin_staff user Hrole), Hf, Hm.
  split.
  - intros Hno.
    destruct (PaymentMethod_eqb (paymentMethod payment) offline) eqn:Em;
      simpl; [|split; [reflexivity | now destruct (String.eqb _ "")]].
    apply PaymentMethod_eqb_eq in Em.
    destruct (PaymentStatus_eqb (status payment) pending) eqn:Es;
      simpl; [|split; [reflexivity | now destruct (String.eqb _ "")]].
    apply PaymentStatus_eqb_eq in Es. destruct Hno; contradiction.
  - intros Em Es. rewrite Em, Es. simpl.
    repeat split.
    + apply enroll_offline_reply.
    + unfold findPayment at 1. rewrite enroll_offline_payments.
      apply (findPayment_savePayment db id payment); [exact Hf | exact Hid].
    + apply (findPayment_savePayment db id payment); [exact Hf | exact Hid].
Qed.

Lemma decide_needs_pending_offline_witness :
  findPayment
    (snd (put_approve 5000 (Some 4%nat) 30 (Demo.db [] [Demo.transfer]))) 30
  = Some (approve Demo.transfer 4 5000)
  /\ put_reject 5000 (Some 4%nat) 30 " unreadable "
       (Demo.db [] [Demo.transfer])
     = (Sent 200 true "Payment rejected successfully"
          (Some (reject Demo.transfer 4 "unreadable" 5000)),
        savePayment (Demo.db [] [Demo.transfer])
          (reject Demo.transfer 4 "unreadable" 5000))
  /\ put_reject 5000 (Some 4%nat) 30 "  " (Demo.db [] [Demo.transfer])
     = (refuse 400 "Validation failed", Demo.db [] [Demo.transfer])
  /\ put_reject 5000 (Some 4%nat) 31 "paid twice" (Demo.db [] [Demo.card])
     = (refuse 400 "Only offline payments can be rejected manually",
        Demo.db [] [Demo.card]).
Proof.
  assert (Hstaff : role Demo.teacher <> student) by discriminate.
  pose proof (decide_needs_pending_offline 5000 (Some 4%nat) 30%nat
                " unreadable " (Demo.db [] [Demo.transfer]) Demo.teacher
                Demo.transfer eq_refl Hstaff eq_refl eq_refl) as [_ Hgiven].
  pose proof (decide_needs_pending_offline 5000 (Some 4%nat) 30%nat
                "  " (Demo.db [] [Demo.transfer]) Demo.teacher
                Demo.transfer eq_refl Hstaff eq_refl eq_refl) as [_ Hblank].
  pose proof (decide_needs_pending_offline 5000 (Some 4%nat) 31%nat
                "paid twice" (Demo.db [] [Demo.card]) Demo.teacher
                Demo.card eq_refl Hstaff eq_refl eq_refl) as [Hcard _].
  destruct (Hgiven eq_refl eq_refl) as (_ & Ha & _ & _ & _ & Hr & _).
  destruct (Hblank eq_refl eq_refl) as (_ & _ & _ & _ & _ & Hb & _).
  destruct Hcard as [_ Hc]; [left; discriminate|].
  split; [exact Ha|]. split; [exact Hr|]. split; [exact Hb | exact Hc].
Defined.

(** ** Verifying twice, approving twice *)

Lemma sameOrder_true a o : sameOrder a o = true -> a = Some o.
Proof.
  destruct a as [s|]; simpl; [|discriminate].
  intros H. apply String.eqb_eq in H. now subst.
Qed.

Lemma findPendingOrder_settled db o uid :
  (forall p, In p (payments db) ->
             razorpayOrderId p = Some o -> status p <> pending) ->
  findPendingOrder db o uid = None.
Proof.
  intros H. unfold findPendingOrder.
  destruct (find _ (payments db)) as [p|] eqn:E; [|reflexivity].
  apply find_some in E as [Hin Hp].
  apply andb_prop in Hp as [Hp Hs]. apply andb_prop in Hp as [Ho _].
  apply sameOrder_true in Ho. apply PaymentStatus_eqb_eq in Hs.
  now destruct (H p Hin Ho).
Qed.

Lemma post_verify_noop check now req db :
  (forall uid, findPendingOrder db (v_razorpayOrderId req) uid = None) ->
  snd (post_verify check now req db) = db.
Proof.
  intros H. unfold post_verify.
  destruct (student_only db (v_token req)) as [r|u]; [reflexivity|].
  destruct (negb (verify_body_valid req)); [reflexivity|].
  now rewrite H.
Qed.

(** C5, as the claim has it, fails: Alice's payment of order_1 is
    completed; verifying it again with the valid signature is answered
    with the error 404, not with the state of the payment. *)
Lemma verify_again_is_an_error :
  let again :=
    {| v_token := Some 1%nat; v_razorpayOrderId := "order_1";
       v_razorpayPaymentId := "pay_1"; v_razorpaySignature := "sig_1" |} in
  findPayment (Demo.db [] [Demo.card]) 31 = Some Demo.card
  /\ status Demo.card = completed
  /\ post_verify Demo.checkSignature 2000 again (Demo.db [] [Demo.card])
     = (Sent 404 false "Payment record not found" None,
        Demo.db [] [Demo.card]).
Proof. cbv zeta. repeat split. Qed.

(** C5, amended: verifying again an order all of whose payments have left
    status pending changes nothing and is answered 404 "Payment record not
    found". *)
Theorem verify_again_is_not_found check now req db user :
  student_only (A := VerifyData) db (v_token req) = Go user ->
  verify_body_valid req = true ->
  (forall p, In p (payments db) ->
             razorpayOrderId p = Some (v_razorpayOrderId req) ->
             status p <> pending) ->
  post_verify check now req db = (refuse 404 "Payment record not found", db).
Proof.
  intros Hu Hv Hterm. unfold post_verify. rewrite Hu, Hv. simpl.
  now rewrite (findPendingOrder_settled db _ (u_id user) Hterm).
Qed.

Lemma verify_again_is_not_found_witness :
  post_verify Demo.checkSignature 2000
    {| v_token := Some 1%nat; v_razorpayOrderId := "order_1";
       v_razorpayPaymentId := "pay_1"; v_razorpaySignature := "sig_1" |}
    (Demo.db [] [Demo.card; Demo.transfer])
  = (refuse 404 "Payment record not found",
     Demo.db [] [Demo.card; Demo.transfer]).
Proof.
  apply (verify_again_is_not_found Demo.checkSignature 2000 _ _ Demo.alice).
  - reflexivity.
  - reflexivity.
  - intros p [<-|[<-|[]]]; simpl; discriminate.
Defined.

Lemma find_none_of_filter {A : Type} (P Q : A -> bool) (l : list A) :
  (forall x, P x = true -> Q x = true) ->
  filter Q l = [] -> find P l = None.
Proof.
  intros HPQ. induction l as [|x rest IH]; simpl; [reflexivity|].
  destruct (Q x) eqn:Eq; [discriminate|].
  destruct (P x) eqn:Ep; [apply HPQ in Ep; congruence | exact IH].
Qed.

(** Writing back the one document of a kind [Q], changed so that [P'] no
    longer holds of it, leaves no document with [P']. *)
Lemma replace_found_hides {A : Type} (key : A -> nat) (P P' Q : A -> bool)
    (d x0 : A) (l : list A) :
  NoDup (map key l) ->
  (List.length (filter Q l) <= 1)%nat ->
  (forall x, P x = true -> Q x = true) ->
  (forall x, P' x = true -> Q x = true) ->
  P' d = false ->
  find P l = Some x0 ->
  find P' (replace_first (fun x => Nat.eqb (key x) (key x0)) d l) = None.
Proof.
  intros Hnd Hlen HPQ HPQ' Hd.
  induction l as [|x rest IH]; simpl; [discriminate|].
  simpl in Hlen. inversion Hnd as [|k ks Hnotin Hnd' Heq]; subst.
  destruct (P x) eqn:Ep.
  - intros [= <-]. rewrite Nat.eqb_refl. simpl. rewrite Hd.
    rewrite (HPQ x Ep) in Hlen. simpl in Hlen.
    apply find_none_of_filter with (Q := Q); [exact HPQ'|].
    destruct (filter Q rest); [reflexivity | simpl in Hlen; lia].
  - intros Hfind.
    pose proof (find_some _ _ Hfind) as [Hin Hp0].
    destruct (Nat.eqb (key x) (key x0)) eqn:Ek.
    + apply Nat.eqb_eq in Ek. exfalso. apply Hnotin. rewrite Ek.
      now apply in_map.
    + simpl.
      assert (Hq : Q x = false).
      { destruct (Q x) eqn:Eq; [|reflexivity]. exfalso.
        simpl in Hlen.
        assert (In x0 (filter Q rest))
          by (apply filter_In; split; [exact Hin | now apply HPQ]).
        destruct (filter Q rest); [contradiction | simpl in Hlen; lia]. }
      destruct (P' x) eqn:Ep'; [apply HPQ' in Ep'; congruence|].
      rewrite Hq in Hlen. now apply IH.
Qed.

Lemma findPendingOrder_after_settle db o uid payment st pid sig :
  NoDup (map p_id (payments db)) ->
  (List.length (payments_of_order db o) <= 1)%nat ->
  findPendingOrder db o uid = Some payment ->
  st <> pending ->
  forall uid',
    findPendingOrder (savePayment db (settle payment st pid sig)) o uid' = None.
Proof.
  intros Hnd Hlen Hf Hst uid'.
  unfold findPendingOrder, savePayment in *. simpl.
  apply (replace_found_hides p_id
           (fun p => sameOrder (razorpayOrderId p) o
                     && sameId (p_student p) uid
                     && PaymentStatus_eqb (status p) pending)
           _ (fun p => sameOrder (razorpayOrderId p) o)); try assumption.
  - intros x H. apply andb_prop in H as [H _]. now apply andb_prop in H as [H _].
  - intros x H. apply andb_prop in H as [H _]. now apply andb_prop in H as [H _].
  - simpl. destruct st; try contradiction; now rewrite andb_false_r.
Qed.

Lemma enroll_online_payments now db uid p :
  payments (snd (enroll_online now db uid p)) = payments db.
Proof.
  unfold enroll_online.
  destruct (findUser db uid) as [u|]; [|reflexivity].
  destruct (populateCourse db (p_course p)) as [c|]; [|reflexivity].
  simpl. now rewrite incEnrollmentCount_payments.
Qed.

Lemma findPendingOrder_payments db db' o uid :
  payments db' = payments db ->
  findPendingOrder db' o uid = findPendingOrder db o uid.
Proof. intros H. unfold findPendingOrder. now rewrite H. Qed.

Lemma post_verify_twice check now now' req db :
  NoDup (map p_id (payments db)) ->
  (List.length (payments_of_order db (v_razorpayOrderId req)) <= 1)%nat ->
  snd (post_verify check now' req (snd (post_verify check now req db)))
  = snd (post_verify check now req db).
Proof.
  intros Hnd Hlen.
  destruct (student_only (A := VerifyData) db (v_token req)) as [r|u] eqn:Hu.
  { unfold post_verify at 2 3. rewrite Hu. simpl.
    unfold post_verify. now rewrite Hu. }
  destruct (negb (verify_body_valid req)) eqn:Hv.
  { unfold post_verify at 2 3. rewrite Hu, Hv. simpl.
    unfold post_verify. now rewrite Hu, Hv. }
  destruct (findPendingOrder db (v_razorpayOrderId req) (u_id u))
    as [payment|] eqn:Hf.
  2: { unfold post_verify at 2 3. rewrite Hu, Hv, Hf. simpl.
       unfold post_verify. now rewrite Hu, Hv, Hf. }
  apply post_verify_noop. intros uid'.
  unfold post_verify. rewrite Hu, Hv, Hf.
  destruct (negb (check _ _ _)); simpl.
  - apply (findPendingOrder_after_settle db _ (u_id u)); try assumption.
    discriminate.
  - rewrite (findPendingOrder_payments _ _ _ _ (enroll_online_payments _ _ _ _)).
    apply (findPendingOrder_after_settle db _ (u_id u)); try assumption.
    discriminate.
Qed.

Lemma findPayment_payments db db' id :
  payments db' = payments db -> findPayment db' id = findPayment db id.
Proof. intros H. unfold findPayment. now rewrite H. Qed.

Lemma put_approve_noop now token id db :
  (forall p, findPayment db id = Some p -> status p <> pending) ->
  snd (put_approve now token id db) = db.
Proof.
  intros H. unfold put_approve.
  destruct (protect db token) as [r|u]; [reflexivity|].
  destruct (requireAdmin u) as [r|_]; [reflexivity|].
  destruct (findPayment db id) as [p|]; [|reflexivity].
  destruct (may_decide db u p) as [r|[|]]; try reflexivity.
  destruct (negb (PaymentMethod_eqb (paymentMethod p) offline));
    [reflexivity|].
  destruct (PaymentStatus_eqb (status p) pending) eqn:Es; [|reflexivity].
  apply PaymentStatus_eqb_eq in Es. now destruct (H p eq_refl).
Qed.

Lemma put_approve_twice now now' token id db :
  snd (put_approve now' token id (snd (put_approve now token id db)))
  = snd (put_approve now token id db).
Proof.
  destruct (protect (A := Payment) db token) as [r|u] eqn:Hp.
  { unfold put_approve at 2 3. rewrite Hp. simpl.
    unfold put_approve. now rewrite Hp. }
  destruct (requireAdmin (A := Payment) u) as [r|[]] eqn:Ha.
  { unfold put_approve at 2 3. rewrite Hp, Ha. simpl.
    unfold put_approve. now rewrite Hp, Ha. }
  destruct (findPayment db id) as [p|] eqn:Hf.
  2: { unfold put_approve at 2 3. rewrite Hp, Ha, Hf. simpl.
       unfold put_approve. now rewrite Hp, Ha, Hf. }
  destruct (PaymentStatus_eqb (status p) pending) eqn:Es.
  2: { apply put_approve_noop. intros q Hq.
       rewrite put_approve_noop in Hq.
       - rewrite Hf in Hq. injection Hq as <-. intros E.
         rewrite E in Es. discriminate.
       - intros q' Hq'. rewrite Hf in Hq'. injection Hq' as <-. intros E.
         rewrite E in Es. discriminate. }
  destruct (may_decide (A := Payment) db u p) as [r|[|]] eqn:Hm.
  1, 3: unfold put_approve at 2 3; rewrite Hp, Ha, Hf, Hm; simpl;
        unfold put_approve; now rewrite Hp, Ha, Hf, Hm.
  destruct (negb (PaymentMethod_eqb (paymentMethod p) offline)) eqn:Em.
  { unfold put_approve at 2 3. rewrite Hp, Ha, Hf, Hm, Em. simpl.
    unfold put_approve. now rewrite Hp, Ha, Hf, Hm, Em. }
  apply put_approve_noop. intros q.
  unfold put_approve. rewrite Hp, Ha, Hf, Hm, Em, Es. simpl.
  rewrite (findPayment_payments _ _ id (enroll_offline_payments _ _ _)).
  rewrite (findPayment_savePayment db id p (approve p (u_id u) now) Hf
             (findPayment_id _ _ _ Hf)).
  intros [= <-]. discriminate.
Qed.

(** A settlement served again after it has been served leaves the
    enrollment state as the first application made it, every course
    counter included: a second approval of the same offline payment, and
    a second verification of the same order, find the payment no longer
    pending and write nothing. The database is one in which ids are
    unique and the gateway's order id names one payment. *)
Theorem settlement_replay_changes_nothing check now now' token id req db :
  NoDup (map p_id (payments db)) ->
  (List.length (payments_of_order db (v_razorpayOrderId req)) <= 1)%nat ->
  let approved := snd (put_approve now token id db) in
  let verified := snd (post_verify check now req db) in
  enrollment_state (snd (put_approve now' token id approved))
  = enrollment_state approved
  /\ enrollment_state (snd (post_verify check now' req verified))
     = enrollment_state verified.
Proof.
  intros Hnd Hlen. cbv zeta. split.
  - now rewrite put_approve_twice.
  - now rewrite post_verify_twice.
Qed.

Lemma settlement_replay_changes_nothing_witness :
  let db := Demo.db [] [Demo.transfer; Demo.checkout] in
  let pay :=
    {| v_token := Some 5%nat; v_razorpayOrderId := "order_2";
       v_razorpayPaymentId := "pay_2"; v_razorpaySignature := "sig_1" |} in
  let approved := snd (put_approve 5000 (Some 4%nat) 30 db) in
  let verified := snd (post_verify Demo.checkSignature 5000 pay db) in
  (snd (enrollment_state approved) = [(10%nat, 2)]
   /\ snd (enrollment_state verified) = [(10%nat, 2)])
  /\ enrollment_state (snd (put_approve 6000 (Some 4%nat) 30 approved))
     = enrollment_state approved
  /\ enrollment_state
       (snd (post_verify Demo.checkSignature 6000 pay verified))
     = enrollment_state verified.
Proof.
  cbv zeta. split; [split; reflexivity|].
  apply (settlement_replay_changes_nothing Demo.checkSignature 5000 6000
           (Some 4%nat) 30%nat
           {| v_token := Some 5%nat; v_razorpayOrderId := "order_2";
              v_razorpayPaymentId := "pay_2"; v_razorpaySignature := "sig_1" |}
           (Demo.db [] [Demo.transfer; Demo.checkout])).
  - simpl. repeat constructor; simpl; intuition discriminate.
  - simpl. lia.
Defined.

Lemma find_by_id_unique (l : list Payment) (p : Payment) :
  NoDup (map p_id l) -> In p l ->
  find (fun x => sameId (p_id x) (p_id p)) l = Some p.
Proof.
  induction l as [|x rest IH]; simpl; intros Hnd Hin; [contradiction|].
  inversion Hnd as [|? ? Hnotin Hnd']; subst.
  destruct Hin as [->|Hin].
  - unfold sameId. now rewrite Nat.eqb_refl.
  - destruct (sameId (p_id x) (p_id p)) eqn:E.
    + apply sameId_true in E. exfalso. apply Hnotin. rewrite E.
      now apply in_map.
    + now apply IH.
Qed.

Lemma modify_first_replace {A : Type} (same : A -> bool) (f : A -> A) l x :
  find same l = Some x ->
  modify_first same f l = replace_first same (f x) l.
Proof.
  induction l as [|y rest IH]; simpl; [discriminate|].
  destruct (same y).
  - now intros [= ->].
  - intros H. now rewrite IH.
Qed.

(** A delivery of a verification that runs alone is the route. *)
Lemma deliver_alone check now req db :
  NoDup (map p_id (payments db)) ->
  deliver check [0; 0; 0; 0; 0; 0]%nat [(now, req, VerifyStart)] db
  = ([(now, req, VerifyDone (fst (post_verify check now req db)))],
     snd (post_verify check now req db)).
Proof.
  intros Hnd. unfold post_verify. cbn [deliver nth_error verify_step].
  destruct (student_only db (v_token req)) as [r|user]; [reflexivity|].
  destruct (negb (verify_body_valid req)); [reflexivity|].
  cbn [set_nth deliver nth_error verify_step].
  destruct (findPendingOrder db (v_razorpayOrderId req) (u_id user))
    as [payment|] eqn:Hf; [|reflexivity].
  cbn [set_nth deliver nth_error verify_step].
  pose proof Hf as Hin. apply find_some in Hin as [Hin _].
  pose proof (find_by_id_unique _ _ Hnd Hin) as Hfind.
  destruct (negb (check _ _ _)).
  - cbn [set_nth deliver nth_error verify_step fst snd].
    unfold savePayment.
    now rewrite (modify_first_replace _ _ _ _ Hfind).
  - cbn [set_nth deliver nth_error verify_step fst snd].
    rewrite (modify_first_replace _ _ _ _ Hfind).
    unfold enroll_online, savePayment.
    change (p_id (settle payment completed _ _)) with (p_id payment).
    change (p_course (settle payment completed _ _)) with (p_course payment).
    set (db1 := with_payments db _).
    change (findUser db1 (u_id user)) with (findUser db (u_id user)).
    change (populateCourse db1 (p_course payment))
      with (populateCourse db (p_course payment)).
    destruct (findUser db (u_id user)) as [reader|] eqn:Hu; [|reflexivity].
    destruct (populateCourse db (p_course payment)) as [course|];
      [|reflexivity].
    cbn [set_nth deliver nth_error verify_step fst snd].
    unfold saveUser.
    assert (Hr : find (fun u => sameId (u_id u) (u_id reader)) (users db1)
                 = Some reader).
    { rewrite (findUser_id _ _ _ Hu). exact Hu. }
    now rewrite (modify_first_replace _ _ _ _ Hr).
Qed.

(** C4: a verification delivered a second time while the first is being
    served is applied twice.  Carol's checkout of order_2 is pending and
    the course counts one enrollment.  One POST /verify of the order is
    answered 200, enrolls Carol once and takes the counter to 2; served
    again after that, the same request finds no pending payment, is
    answered 404 and writes nothing.  When the same request is delivered
    twice and each delivery has looked the payment up before the other
    saves it, both are answered 200, the payment is stored as after one,
    Carol has two enrollments of the course and the counter is 3: the
    enrollment block of the route pushes and increments without looking
    for an enrollment of the course, which the block of PUT /:id/approve
    does. *)
Theorem racing_verifications_enroll_twice :
  let db := Demo.db [] [Demo.checkout] in
  let req :=
    {| v_token := Some 5%nat; v_razorpayOrderId := "order_2";
       v_razorpayPaymentId := "pay_2"; v_razorpaySignature := "sig_1" |} in
  let once := post_verify Demo.checkSignature 5000 req db in
  let raced :=
    deliver Demo.checkSignature [0; 0; 1; 1; 0; 0; 0; 0; 1; 1; 1; 1]%nat
      [(5000, req, VerifyStart); (5001, req, VerifyStart)] db in
  option_map enrollmentCount (findCourse db 10) = Some 1
  /\ replied (fst once) = Some 200%nat
  /\ deliver Demo.checkSignature [0; 0; 0; 0; 0; 0]%nat
       [(5000, req, VerifyStart)] db
     = ([(5000, req, VerifyDone (fst once))], snd once)
  /\ option_map enrolledCourses (findUser (snd once) 5)
     = Some [newEnrollment 10 online 5000]
  /\ option_map enrollmentCount (findCourse (snd once) 10) = Some 2
  /\ post_verify Demo.checkSignature 6000 req (snd once)
     = (refuse 404 "Payment record not found", snd once)
  /\ map delivered (fst raced) = [Some 200%nat; Some 200%nat]
  /\ payments (snd raced) = payments (snd once)
  /\ option_map enrolledCourses (findUser (snd raced) 5)
     = Some [newEnrollment 10 online 5000; newEnrollment 10 online 5001]
  /\ option_map enrollmentCount (findCourse (snd raced) 10) = Some 3
  /\ enrollment_state (snd raced) <> enrollment_state (snd once).
Proof.
  cbv zeta. split; [reflexivity|]. split; [reflexivity|].
  split.
  { apply deliver_alone. simpl. repeat constructor. simpl. tauto. }
  do 7 (split; [vm_compute; reflexivity|]).
  vm_compute. discriminate.
Qed.

(** ** One pending payment *)

Lemma find_none_filter {A : Type} (f : A -> bool) (l : list A) :
  find f l = None -> filter f l = [].
Proof.
  induction l as [|x rest IH]; simpl; [reflexivity|].
  destruct (f x); [discriminate | exact IH].
Qed.

Lemma Payment_create_one_pending db p :
  findPending db (p_student p) (p_course p) = None ->
  (forall s c, (List.length (pending_of db s c) <= 1)%nat) ->
  forall s c,
    (List.length (pending_of (fst (Payment_create db p)) s c) <= 1)%nat.
Proof.
  intros Hnone Hone s c. unfold Payment_create.
  destruct (amount p <? 0); simpl; [apply Hone|].
  specialize (Hone s c). apply find_none_filter in Hnone.
  unfold pending_of in *. simpl. rewrite filter_app, length_app. simpl.
  match goal with
  | |- context [if ?b then _ else _] => destruct b eqn:E
  end; simpl; [|lia].
  apply andb_prop in E as [E _]. apply andb_prop in E as [Es Ec].
  apply sameId_true in Es. apply sameId_true in Ec.
  rewrite <- Es, <- Ec, Hnone. simpl. lia.
Qed.

(** Served one after the other, the two routes that create payments keep
    at most one pending payment per student and course: the second of two
    requests finds the first one's payment and is answered 400. *)
Lemma one_pending_in_turn db :
  (forall s c, (List.length (pending_of db s c) <= 1)%nat) ->
  (forall req s c,
      (List.length (pending_of (snd (create_order req db)) s c) <= 1)%nat)
  /\ (forall req s c,
         (List.length (pending_of (snd (request_offline req db)) s c) <= 1)%nat).
Proof.
  intros Hone. split; intros req s c.
  - unfold create_order.
    destruct (student_only db (o_token req)) as [r|u]; [apply Hone|].
    destruct (purchasable db u (o_courseId req)) as [r|course]; [apply Hone|].
    unfold no_pending.
    destruct (findPending db (u_id u) (o_courseId req)) eqn:Hf; [apply Hone|].
    destruct (o_gateway req) as [order|]; [|apply Hone].
    unfold order_write.
    match goal with
    | |- context [Payment_create db ?p] =>
        pose proof (Payment_create_one_pending db p Hf Hone s c) as H;
        destruct (Payment_create db p) as [db' [q|]]; exact H
    end.
  - unfold request_offline.
    destruct (student_only db (f_token req)) as [r|u]; [apply Hone|].
    destruct (negb (offline_body_valid req)); [apply Hone|].
    destruct (purchasable db u (f_courseId req)) as [r|course]; [apply Hone|].
    unfold no_pending.
    destruct (findPending db (u_id u) (f_courseId req)) eqn:Hf; [apply Hone|].
    destruct (f_file req) as [path|]; [|apply Hone].
    unfold offline_write.
    match goal with
    | |- context [Payment_create db ?p] =>
        pose proof (Payment_create_one_pending db p Hf Hone s c) as H;
        destruct (Payment_create db p) as [db' [q|]]; exact H
    end.
Qed.

(** C1, at the input where the code leaves the claim: Bob sends
    POST /create-order twice for the same course, and the second request's
    lookup of a pending payment completes before the first request's
    insert; both lookups find nothing, both requests are answered 201 and
    two pending payments of Bob for the course are stored. The same
    happens between POST /create-order and POST /offline. *)
Theorem pending_check_races :
  let twice :=
    interleave [0; 1; 0; 1; 0; 1; 0; 1; 0; 1]%nat
      [Ordering (Demo.order 2 "order_a") OrderStart;
       Ordering (Demo.order 2 "order_b") OrderStart]
      (Demo.db [] []) in
  let mixed :=
    interleave [0; 1; 0; 1; 0; 1; 0; 0; 1]%nat
      [Ordering (Demo.order 2 "order_a") OrderStart;
       Offering (Demo.deposit 2) OfflineStart]
      (Demo.db [] []) in
  List.length (pending_of (Demo.db [] []) 2 10) = 0%nat
  /\ map outcome (fst twice) = [Some (inl 201%nat); Some (inl 201%nat)]
  /\ List.length (pending_of (snd twice) 2 10) = 2%nat
  /\ map outcome (fst mixed) = [Some (inl 201%nat); Some (inl 201%nat)]
  /\ List.length (pending_of (snd mixed) 2 10) = 2%nat.
Proof. cbv zeta. repeat split; vm_compute; reflexivity. Qed.

(** ** The attempt quota *)

(** C2, as the claim has it, fails: the test allows 2 attempts and Alice
    sends 3 submissions (k = 1); when the three counts complete before the
    first insert, each request counts 0 attempts and asks for attempt
    number 1: one is stored and answered 201, the unique index refuses the
    other two, which end in a duplicate-key error. One attempt is stored,
    not two, and no request is answered 400. *)
Lemma three_racing_submissions_store_one :
  let test := Demo.quiz 20 Demo.five 5 2 None in
  let request := Submitting 1000 (Demo.sheet 1 20 [Demo.pick 100]) SubmitStart in
  let run :=
    interleave [0; 0; 0; 1; 1; 1; 2; 2; 2; 0; 1; 2]%nat
      [request; request; request] (Demo.db [test] []) in
  maxAttempts test = 2%nat
  /\ map outcome (fst run)
     = [Some (inl 201%nat); Some (inr DuplicateKey); Some (inr DuplicateKey)]
  /\ attemptNumbers (snd run) 20 1 = [1%nat].
Proof. cbv zeta. repeat split; vm_compute; reflexivity. Qed.

Lemma filter_set_nth {A : Type} (f : A -> bool) (x y : A) :
  forall (l : list A) (i : nat),
    nth_error l i = Some x ->
    (List.length (filter f (set_nth i y l)) + (if f x then 1 else 0)
     = List.length (filter f l) + (if f y then 1 else 0))%nat.
Proof.
  induction l as [|a rest IH]; intros [|i]; simpl; try discriminate.
  - intros [= ->]. destruct (f x), (f y); simpl; lia.
  - intros H. specialize (IH i H). destruct (f a); simpl; lia.
Qed.

Lemma Forall_set_nth {A : Type} (P : A -> Prop) (y : A) :
  forall (l : list A) (i : nat),
    Forall P l -> P y -> Forall P (set_nth i y l).
Proof.
  induction l as [|a rest IH]; intros [|i] Hl Hy; simpl;
    inversion Hl; subst; constructor; auto.
Qed.

Lemma pre_save_percentage_keys r :
  r_test (pre_save_percentage r) = r_test r
  /\ r_student (pre_save_percentage r) = r_student r
  /\ attemptNumber (pre_save_percentage r) = attemptNumber r.
Proof.
  unfold pre_save_percentage. destruct (0 <? r_totalMarks r); repeat split.
Qed.

Lemma existsb_attemptNumber k (l : list TestResult) :
  existsb (fun x => Nat.eqb (attemptNumber x) k) l = false ->
  ~ In k (map attemptNumber l).
Proof.
  induction l as [|x rest IH]; simpl; [tauto|].
  intros H [Hx|Hin]; apply orb_false_elim in H as [H1 H2].
  - apply Nat.eqb_neq in H1. contradiction.
  - now apply IH.
Qed.

Lemma In_attemptNumber_existsb k (l : list TestResult) :
  In k (map attemptNumber l) ->
  existsb (fun x => Nat.eqb (attemptNumber x) k) l = true.
Proof.
  intros H. apply in_map_iff in H as (x & Hx & Hin).
  apply existsb_exists. exists x. split; [exact Hin|].
  now apply Nat.eqb_eq.
Qed.

Lemma submit_user_id db req user :
  submit_user db req = Go user ->
  exists id, s_token req = Some id /\ u_id user = id.
Proof.
  unfold submit_user, protect.
  destruct (s_token req) as [id|]; [|discriminate].
  destruct (findUser db id) as [u|] eqn:Hf; [|discriminate].
  destruct (u_isActive u); [|discriminate].
  destruct (requireStudent u); [discriminate|].
  destruct (timeTaken req <? 1); [discriminate|].
  intros [= <-]. exists id. split; [reflexivity|].
  now apply findUser_id in Hf.
Qed.

Lemma submit_test_refuses now db req user r :
  submit_test now db req user = Return r ->
  (exists code message, r = refuse code message /\ (400 <= code)%nat)
  \/ r = Next TypeError.
Proof.
  unfold submit_test.
  destruct (findTest db (s_testId req)) as [t|];
    [|intros [= <-]; left; eexists _, _; (split; [reflexivity | lia])].
  destruct (negb (isPublished t));
    [intros [= <-]; left; eexists _, _; (split; [reflexivity | lia])|].
  destruct (populateCourse db (t_course t)) as [c|];
    [|intros [= <-]; now right].
  destruct (negb (hasPurchasedCourse user (cr_id c)));
    [intros [= <-]; left; eexists _, _; (split; [reflexivity | lia])|].
  destruct (negb (isActive now t));
    [intros [= <-]; left; eexists _, _; (split; [reflexivity | lia])
    |discriminate].
Qed.

Lemma submit_test_found now db req user t c :
  submit_test now db req user = Go (t, c) ->
  findTest db (s_testId req) = Some t.
Proof.
  unfold submit_test.
  destruct (findTest db (s_testId req)) as [t'|]; [|discriminate].
  destruct (negb (isPublished t')); [discriminate|].
  destruct (populateCourse db (t_course t')) as [c'|]; [|discriminate].
  destruct (negb (hasPurchasedCourse user (cr_id c'))); [discriminate|].
  destruct (negb (isActive now t')); [discriminate|].
  now intros [= -> _].
Qed.

Lemma submit_grade_refuses db req user t r :
  submit_grade db req user t = Return r ->
  exists code message, r = refuse code message /\ (400 <= code)%nat.
Proof.
  unfold submit_grade.
  destruct (maxAttempts t <=? _)%nat;
    [intros [= <-]; eexists _, _; (split; [reflexivity | lia])|].
  destruct (grade (questions t) (answers req) 0 []) as [r'|g] eqn:Hg;
    [|discriminate].
  intros [= <-]. eapply grade_refuses, Hg.
Qed.

Lemma submit_grade_counted db req user t count m g :
  submit_grade db req user t = Go (count, (m, g)) ->
  count = getAttemptCount db (t_id t) (u_id user)
  /\ (count < maxAttempts t)%nat.
Proof.
  unfold submit_grade.
  destruct (maxAttempts t <=? _)%nat eqn:E; [discriminate|].
  destruct (grade (questions t) (answers req) 0 []) as [r'|g']; [discriminate|].
  intros [= <- _]. split; [reflexivity|]. now apply Nat.leb_gt in E.
Qed.

Lemma refused_not_accepted now req code message :
  (400 <= code)%nat ->
  accepted (Submitting now req (SubmitDone (refuse code message))) = false.
Proof. intros H. unfold accepted. simpl. apply Nat.eqb_neq. lia. Qed.

Lemma submission_ok_later db db' sid tid test t :
  (getAttemptCount db tid sid <= getAttemptCount db' tid sid)%nat ->
  submission_ok db sid tid test t -> submission_ok db' sid tid test t.
Proof.
  intros Hle. destruct t as [| |now req pc]; simpl; try tauto.
  intros (Ht & Hi & Hpc). repeat split; try assumption.
  destruct pc; try exact Hpc.
  destruct Hpc as (Hu & Hs & Hc & Hm). repeat split; try assumption. lia.
Qed.

(** One step of a submission keeps the attempts of the pair numbered
    1, 2, ..., stores an attempt exactly when it ends accepted, and does
    not pass the test's limit. *)
Lemma task_step_numbered sid tid test t db t' db' :
  findTest db tid = Some test ->
  attemptNumbers db tid sid = seq 1 (getAttemptCount db tid sid) ->
  submission_ok db sid tid test t ->
  task_step t db = (t', db') ->
  findTest db' tid = Some test
  /\ attemptNumbers db' tid sid = seq 1 (getAttemptCount db' tid sid)
  /\ submission_ok db' sid tid test t'
  /\ (getAttemptCount db tid sid <= getAttemptCount db' tid sid)%nat
  /\ (getAttemptCount db' tid sid + (if accepted t then 1 else 0)
      = getAttemptCount db tid sid + (if accepted t' then 1 else 0))%nat
  /\ (getAttemptCount db' tid sid
      <= Nat.max (getAttemptCount db tid sid) (maxAttempts test))%nat.
Proof.
  intros Hfind Hnum Hok.
  destruct t as [| |now req pc]; simpl in Hok; try contradiction.
  destruct Hok as (Htok & Htid & Hpc).
  pose proof (findTest_id _ _ _ Hfind) as Hkey.
  destruct pc as [|user|user t0 c|user t0 c count m g|r]; simpl.
  - (* protect and the validators *)
    destruct (submit_user db req) as [r|user] eqn:Hu; intros [= <- <-].
    + apply submit_user_refuses in Hu as (code & msg & -> & Hcode).
      rewrite (refused_not_accepted now req code msg Hcode). simpl.
      repeat split; try assumption; lia.
    + apply submit_user_id in Hu as (id & Hid & Huid).
      rewrite Htok in Hid. injection Hid as <-.
      simpl. repeat split; try assumption; lia.
  - (* the test is read *)
    destruct (submit_test now db req user) as [r|[t0 c]] eqn:Ht;
      intros [= <- <-].
    + apply submit_test_refuses in Ht as [(code & msg & -> & Hcode)| ->].
      * rewrite (refused_not_accepted now req code msg Hcode). simpl.
        repeat split; try assumption; lia.
      * simpl. repeat split; try assumption; lia.
    + apply submit_test_found in Ht. rewrite Htid, Hfind in Ht.
      injection Ht as <-. simpl. repeat split; try assumption; lia.
  - (* the attempts are counted *)
    destruct Hpc as [Huid ->].
    destruct (submit_grade db req user test) as [r|[n [m g]]] eqn:Hg;
      intros [= <- <-].
    + apply submit_grade_refuses in Hg as (code & msg & -> & Hcode).
      rewrite (refused_not_accepted now req code msg Hcode). simpl.
      repeat split; try assumption; lia.
    + apply submit_grade_counted in Hg as [Hn Hlt].
      rewrite Hkey, Huid in Hn. simpl.
      repeat split; try assumption; lia.
  - (* the attempt is inserted *)
    destruct Hpc as (Huid & -> & Hle & Hlt).
    unfold submit_write, TestResult_create.
    match goal with
    | |- context [pre_save_percentage ?d] =>
        destruct (pre_save_percentage_keys d) as (K1 & K2 & K3);
        set (doc := pre_save_percentage d) in *
    end.
    simpl in K1, K2, K3. rewrite Hkey in K1. rewrite Huid in K2.
    destruct (negb (TestResult_valid _));
      [intros [= <- <-]; simpl; repeat split; try assumption; lia|].
    destruct (attempt_taken db doc) eqn:Etaken; intros [= <- <-].
    + simpl. repeat split; try assumption; lia.
    + unfold attempt_taken in Etaken. rewrite K1, K2, K3 in Etaken.
      apply existsb_attemptNumber in Etaken.
      fold (attemptNumbers db tid sid) in Etaken. rewrite Hnum in Etaken.
      assert (Hcount : count = getAttemptCount db tid sid).
      { destruct (Nat.eq_dec count (getAttemptCount db tid sid)) as [E|E];
          [exact E|].
        exfalso. apply Etaken. apply in_seq. lia. }
      assert (Hnew : attempts_of
                       (fresh (with_results db (results db ++ [doc]))) tid sid
                     = attempts_of db tid sid ++ [doc]).
      { unfold attempts_of. simpl. rewrite filter_app. simpl.
        rewrite K1, K2. unfold sameId. now rewrite !Nat.eqb_refl. }
      unfold attemptNumbers, getAttemptCount in *.
      rewrite Hnew, map_app, length_app, Hnum. simpl.
      rewrite K3, Hcount.
      repeat split; try assumption; try lia.
      rewrite Nat.add_1_r. now rewrite seq_S.
  - (* the answer has been sent *)
    intros [= <- <-]. simpl. repeat split; try assumption; lia.
Qed.

(** However the steps of the submissions of one student to one test are
    interleaved, the attempts stay numbered, each accepted submission has
    stored one attempt and the others none, and the limit is kept. *)
Lemma interleave_numbered sid tid test n0 :
  forall schedule pool db pool' db',
    findTest db tid = Some test ->
    attemptNumbers db tid sid = seq 1 (getAttemptCount db tid sid) ->
    Forall (submission_ok db sid tid test) pool ->
    getAttemptCount db tid sid
    = (n0 + List.length (filter accepted pool))%nat ->
    (getAttemptCount db tid sid <= Nat.max n0 (maxAttempts test))%nat ->
    interleave schedule pool db = (pool', db') ->
    attemptNumbers db' tid sid = seq 1 (getAttemptCount db' tid sid)
    /\ getAttemptCount db' tid sid
       = (n0 + List.length (filter accepted pool'))%nat
    /\ (getAttemptCount db' tid sid <= Nat.max n0 (maxAttempts test))%nat
    /\ Forall (submission_ok db' sid tid test) pool'.
Proof.
  induction schedule as [|i later IH]; intros pool db pool' db'
    Hfind Hnum Hall Hacc Hmax; simpl.
  - intros [= <- <-]. auto.
  - destruct (nth_error pool i) as [t|] eqn:Hi; [|now apply IH].
    destruct (task_step t db) as [t1 db1] eqn:Hstep.
    assert (Hok : submission_ok db sid tid test t).
    { apply nth_error_In in Hi. revert Hi. now apply Forall_forall. }
    destruct (task_step_numbered sid tid test t db t1 db1 Hfind Hnum Hok Hstep)
      as (Hfind1 & Hnum1 & Hok1 & Hle & Hdelta & Hcap).
    pose proof (filter_set_nth accepted t t1 pool i Hi) as Hlen.
    apply IH; try assumption.
    + apply Forall_set_nth; [|exact Hok1].
      eapply Forall_impl; [|exact Hall].
      intros a. now apply submission_ok_later.
    + lia.
    + lia.
Qed.

Lemma new_submissions_ok db sid tid test pool :
  Forall (new_submission sid tid) pool ->
  Forall (submission_ok db sid tid test) pool
  /\ filter accepted pool = [].
Proof.
  induction 1 as [|t rest (now & req & -> & Ht & Hi) _ [IH1 IH2]]; simpl.
  - split; [constructor | reflexivity].
  - split; [constructor; simpl; auto | exact IH2].
Qed.

(** The quota check of a submission served alone. *)
Lemma submit_over_quota now req db user test course :
  submit_user db req = Go user ->
  submit_test now db req user = Go (test, course) ->
  (maxAttempts test <= getAttemptCount db (t_id test) (u_id user))%nat ->
  submit now req db = (refuse 400 "Maximum attempts exceeded", db).
Proof.
  intros Hu Ht Hq. unfold submit. rewrite Hu, Ht. unfold submit_grade.
  apply Nat.leb_le in Hq. now rewrite Hq.
Qed.

(** A well-formed submission served alone is accepted and stores the next
    attempt while the quota lasts, and is answered 400 afterwards. *)
Lemma round_percentage_number m t : t <> 0 -> round_percentage m t <> NaN.
Proof.
  intros Ht. unfold round_percentage.
  destruct (t =? 0) eqn:E; [apply Z.eqb_eq in E; contradiction|].
  discriminate.
Qed.

(** The attempt of a storable submission passes the validation. *)
Lemma storable_valid now req test (doc : TestResult) :
  attempt_storable now req test ->
  r_percentage doc = round_percentage (r_marksObtained doc) (totalMarks test) ->
  r_startedAt doc = now - timeTaken req * 60 * 1000 ->
  r_submittedAt doc = now ->
  TestResult_valid doc = true.
Proof.
  intros (Ht & Hs & Hn) Hp Hs' Hn'. unfold TestResult_valid.
  rewrite Hs', Hn', Hs, Hn, Hp.
  pose proof (round_percentage_number (r_marksObtained doc) _ Ht) as Hnan.
  now destruct (round_percentage (r_marksObtained doc) (totalMarks test)).
Qed.

Lemma submit_well_formed db sid test now req n :
  well_formed_submission db sid test (now, req) ->
  attemptNumbers db (t_id test) sid = seq 1 n ->
  if (n <? maxAttempts test)%nat
  then replied (fst (submit now req db)) = Some 201%nat
       /\ attemptNumbers (snd (submit now req db)) (t_id test) sid
          = seq 1 (S n)
       /\ users (snd (submit now req db)) = users db
       /\ tests (snd (submit now req db)) = tests db
       /\ courses (snd (submit now req db)) = courses db
  else submit now req db = (refuse 400 "Maximum attempts exceeded", db).
Proof.
  intros (user & course & [m g] & Hu & Hid & Ht & Hg & Hst) Hnum.
  simpl in *.
  assert (Hn : getAttemptCount db (t_id test) sid = n).
  { unfold getAttemptCount. unfold attemptNumbers in Hnum.
    rewrite <- (length_map attemptNumber), Hnum. apply length_seq. }
  destruct (n <? maxAttempts test)%nat eqn:E.
  - apply Nat.ltb_lt in E.
    unfold submit. rewrite Hu, Ht. unfold submit_grade. rewrite Hid, Hn, Hg.
    destruct (maxAttempts test <=? n)%nat eqn:E'; [apply Nat.leb_le in E'; lia|].
    unfold submit_write, TestResult_create.
    match goal with
    | |- context [TestResult_valid ?d] =>
        rewrite (storable_valid now req test d) by (try exact Hst; reflexivity)
    end.
    cbn [negb].
    match goal with
    | |- context [pre_save_percentage ?d] =>
        destruct (pre_save_percentage_keys d) as (K1 & K2 & K3);
        set (doc := pre_save_percentage d) in *
    end.
    simpl in K1, K2, K3. rewrite Hid in K2.
    destruct (attempt_taken db doc) eqn:Etaken.
    + exfalso. unfold attempt_taken in Etaken. rewrite K1, K2, K3 in Etaken.
      apply existsb_exists in Etaken as (x & Hin & Hx).
      apply Nat.eqb_eq in Hx.
      assert (Hin' : In (S n) (attemptNumbers db (t_id test) sid)).
      { rewrite <- Hx. unfold attemptNumbers. now apply in_map. }
      rewrite Hnum in Hin'. apply in_seq in Hin'. lia.
    + simpl. repeat split.
      unfold attemptNumbers, attempts_of in *. simpl.
      rewrite filter_app, map_app, Hnum. simpl.
      rewrite K1, K2. unfold sameId. rewrite !Nat.eqb_refl. simpl.
      rewrite K3. change (1 :: seq 2 n)%nat with (seq 1 (S n)).
      now rewrite seq_S.
  - apply Nat.ltb_ge in E.
    apply (submit_over_quota now req db user test course Hu Ht).
    now rewrite Hid, Hn.
Qed.

Lemma well_formed_submission_stable db db' sid test nr :
  users db' = users db -> tests db' = tests db -> courses db' = courses db ->
  well_formed_submission db sid test nr ->
  well_formed_submission db' sid test nr.
Proof.
  intros Eu Et Ec (user & course & g & Hu & Hid & Ht & Hg & Hst).
  destruct Hst as (Hs1 & Hs2 & Hs3).
  exists user, course, g. repeat split; try assumption.
  - revert Hu. unfold submit_user, protect, findUser. now rewrite Eu.
  - revert Ht. unfold submit_test, findTest, populateCourse, findCourse.
    now rewrite Et, Ec.
Qed.

(** Served one after the other, well-formed submissions of one student to
    one test are accepted until the quota is used up, and answered 400
    from then on: maxAttempts + k of them leave maxAttempts attempts and k
    refusals. *)
Lemma served_in_turn sid test :
  forall reqs db n,
    Forall (well_formed_submission db sid test) reqs ->
    attemptNumbers db (t_id test) sid = seq 1 n ->
    let accepted_now := Nat.min (List.length reqs) (maxAttempts test - n) in
    map (@replied SubmitData) (fst (serve reqs db))
    = repeat (Some 201%nat) accepted_now
      ++ repeat (Some 400%nat) (List.length reqs - accepted_now)
    /\ attemptNumbers (snd (serve reqs db)) (t_id test) sid
       = seq 1 (n + accepted_now).
Proof.
  induction reqs as [|[now req] rest IH]; intros db n Hall Hnum.
  - simpl. rewrite Nat.add_0_r. auto.
  - inversion Hall as [|x l Hwf Hrest]; subst.
    pose proof (submit_well_formed db sid test now req n Hwf Hnum) as Hs.
    cbn [serve List.length].
    destruct (submit now req db) as [r db1] eqn:Hsub. cbn [fst snd] in Hs.
    destruct (n <? maxAttempts test)%nat eqn:E.
    + apply Nat.ltb_lt in E. destruct Hs as (Hr & Hnum1 & Eu & Et & Ec).
      assert (Hrest1 : Forall (well_formed_submission db1 sid test) rest).
      { eapply Forall_impl; [|exact Hrest].
        intros a. now apply well_formed_submission_stable. }
      destruct (IH db1 (S n) Hrest1 Hnum1) as [IHr IHn].
      destruct (serve rest db1) as [rs db2]. cbn [fst snd] in *.
      replace (maxAttempts test - n)%nat
        with (S (maxAttempts test - S n)) by lia.
      cbn [map Nat.min Nat.sub repeat app].
      rewrite Hr, IHr, IHn. split; [reflexivity|].
      f_equal. lia.
    + apply Nat.ltb_ge in E. injection Hs as -> ->.
      destruct (IH db n Hrest Hnum) as [IHr IHn].
      destruct (serve rest db) as [rs db2]. cbn [fst snd] in *.
      replace (maxAttempts test - n)%nat with 0%nat in * by lia.
      rewrite Nat.min_0_r in *.
      rewrite Nat.sub_0_r in *. rewrite Nat.add_0_r in *.
      cbn [map repeat app replied refuse] in *.
      now rewrite IHr, IHn.
Qed.

(** C2, amended: for a test and a student whose stored attempts are
    numbered 1..n0, any number of submissions of the student to the test,
    their steps interleaved in any order, leave the attempt numbers the
    gap-free sequence 1..n without duplicates; every submission accepted
    (201) has stored exactly one attempt and every other one none, being
    refused with a code of 400 or more or ended by an error; n does not
    pass maxAttempts (or n0, if that is larger); a submission served when
    attemptsUsed >= maxAttempts is answered 400 "Maximum attempts
    exceeded" and changes nothing; and well-formed submissions served one
    after the other are accepted while the quota lasts and answered 400
    from then on, so that maxAttempts + k of them, starting from no
    attempt, leave exactly maxAttempts attempts and k refusals. A
    well-formed submission is one that only the quota can stop: its
    checks pass, its answers name questions and options of the test, and
    its attempt is one the schema takes (a total other than 0, a time
    taken that leaves the computed start a date). *)
Theorem attempts_stay_numbered sid tid test n0 schedule pool db :
  findTest db tid = Some test ->
  attemptNumbers db tid sid = seq 1 n0 ->
  Forall (new_submission sid tid) pool ->
  let pool' := fst (interleave schedule pool db) in
  let db' := snd (interleave schedule pool db) in
  let n := getAttemptCount db' tid sid in
  attemptNumbers db' tid sid = seq 1 n
  /\ n = (n0 + List.length (filter accepted pool'))%nat
  /\ (n <= Nat.max n0 (maxAttempts test))%nat
  /\ Forall (fun t => match outcome t with
                      | Some (inl code) => code = 201%nat \/ (400 <= code)%nat
                      | _ => True
                      end) pool'
  /\ (forall now req user course,
         submit_user db' req = Go user ->
         submit_test now db' req user = Go (test, course) ->
         u_id user = sid ->
         (maxAttempts test <= n)%nat ->
         submit now req db' = (refuse 400 "Maximum attempts exceeded", db'))
  /\ (forall reqs,
         Forall (well_formed_submission db sid test) reqs ->
         let served := Nat.min (List.length reqs) (maxAttempts test - n0) in
         map (@replied SubmitData) (fst (serve reqs db))
         = repeat (Some 201%nat) served
           ++ repeat (Some 400%nat) (List.length reqs - served)
         /\ attemptNumbers (snd (serve reqs db)) tid sid
            = seq 1 (n0 + served)).
Proof.
  intros Hfind Hnum Hnew. cbv zeta.
  destruct (interleave schedule pool db) as [pool' db'] eqn:Hrun. simpl.
  destruct (new_submissions_ok db sid tid test pool Hnew) as [Hok Hnone].
  assert (Hn0 : getAttemptCount db tid sid = n0).
  { unfold getAttemptCount. unfold attemptNumbers in Hnum.
    rewrite <- (length_map attemptNumber), Hnum. apply length_seq. }
  destruct (interleave_numbered sid tid test n0 schedule pool db pool' db')
    as (H1 & H2 & H3 & H4); try assumption.
  - now rewrite Hn0.
  - rewrite Hnone. simpl. lia.
  - lia.
  - assert (Hk : t_id test = tid) by (now apply findTest_id in Hfind).
    split; [exact H1|]. split; [exact H2|]. split; [exact H3|].
    split; [|split].
    + eapply Forall_impl; [|exact H4].
      intros [| |now req [| | | |[code ok msg data|err]]]; simpl; try tauto.
    + intros now req user course Hu Ht Hid Hq.
      apply (submit_over_quota now req db' user test course Hu Ht).
      now rewrite Hk, Hid.
    + intros reqs Hwf. rewrite <- Hk in *.
      now apply served_in_turn.
Qed.

Lemma attempts_stay_numbered_witness :
  let test := Demo.quiz 20 Demo.five 5 2 None in
  let sheet := Demo.sheet 1 20 [Demo.pick 100] in
  let request := Submitting 1000 sheet SubmitStart in
  let run :=
    interleave [0; 0; 0; 1; 1; 1; 2; 2; 2; 0; 1; 2]%nat
      [request; request; request] (Demo.db [test] []) in
  let turn :=
    serve [(1000, sheet); (1000, sheet); (1000, sheet)] (Demo.db [test] []) in
  (attemptNumbers (snd run) 20 1 = seq 1 (getAttemptCount (snd run) 20 1)
   /\ getAttemptCount (snd run) 20 1
      = (0 + List.length (filter accepted (fst run)))%nat
   /\ (getAttemptCount (snd run) 20 1 <= Nat.max 0 2)%nat)
  /\ map (@replied SubmitData) (fst turn)
     = [Some 201%nat; Some 201%nat; Some 400%nat]
  /\ attemptNumbers (snd turn) 20 1 = [1%nat; 2%nat].
Proof.
  cbv zeta.
  destruct (attempts_stay_numbered 1 20 (Demo.quiz 20 Demo.five 5 2 None) 0
              [0; 0; 0; 1; 1; 1; 2; 2; 2; 0; 1; 2]%nat
              [Submitting 1000 (Demo.sheet 1 20 [Demo.pick 100]) SubmitStart;
               Submitting 1000 (Demo.sheet 1 20 [Demo.pick 100]) SubmitStart;
               Submitting 1000 (Demo.sheet 1 20 [Demo.pick 100]) SubmitStart]
              (Demo.db [Demo.quiz 20 Demo.five 5 2 None] []))
    as (H1 & H2 & H3 & _ & _ & H6).
  - reflexivity.
  - reflexivity.
  - repeat constructor; eexists _, _; repeat split.
  - split; [exact (conj H1 (conj H2 H3))|].
    apply (H6 [(1000, Demo.sheet 1 20 [Demo.pick 100]);
               (1000, Demo.sheet 1 20 [Demo.pick 100]);
               (1000, Demo.sheet 1 20 [Demo.pick 100])]).
    repeat constructor;
      (exists Demo.alice,
         {| cr_id := 10; cr_title := "Physics"; cr_instructor := 4 |};
       eexists; repeat split; try reflexivity; discriminate).
Defined.

(** * Further properties *)

(** ** Marks within the total *)

Lemma sum_marks_from (qs : list Question) (a : Z) :
  fold_left (fun total q => total + marks q) qs a = a + sum_marks qs.
Proof.
  unfold sum_marks. revert a.
  induction qs as [|q rest IH]; intros a; simpl; [lia|].
  rewrite (IH (a + marks q)), (IH (marks q)). lia.
Qed.

Lemma sum_marks_cons q (qs : list Question) :
  sum_marks (q :: qs) = marks q + sum_marks qs.
Proof. unfold sum_marks at 1. simpl. rewrite sum_marks_from. lia. Qed.


Lemma sum_marks_nonneg (qs : list Question) :
  Forall (fun q => 0 <= marks q) qs -> 0 <= sum_marks qs.
Proof.
  induction 1 as [|q rest Hq _ IH].
  - unfold sum_marks. simpl. lia.
  - rewrite sum_marks_cons. lia.
Qed.








(** ** Full marks *)






(** ** Attempts are only appended *)

(** X3: A submission leaves users, courses, payments and tests alone and
    either leaves the results alone too or, with the answer 201, appends
    one attempt: of the test and the student of the request, numbered one
    more than the attempts the pair had, carrying the test's total. *)
Theorem submit_appends_one_attempt now req db :
  let db' := snd (submit now req db) in
  users db' = users db
  /\ courses db' = courses db
  /\ payments db' = payments db
  /\ tests db' = tests db
  /\ (results db' = results db
      \/ exists r test,
           results db' = results db ++ [r]
           /\ replied (fst (submit now req db)) = Some 201%nat
           /\ findTest db (s_testId req) = Some test
           /\ r_test r = t_id test
           /\ s_token req = Some (r_student r)
           /\ r_totalMarks r = totalMarks test
           /\ attemptNumber r
              = S (getAttemptCount db (r_test r) (r_student r))).
Proof.
  cbv zeta. unfold submit.
  destruct (submit_user db req) as [r|user] eqn:Hu; [simpl; tauto|].
  destruct (submit_test now db req user) as [r|[test c]] eqn:Ht;
    [simpl; tauto|].
  destruct (submit_grade db req user test) as [r|[n [m g]]] eqn:Hg;
    [simpl; tauto|].
  apply submit_user_id in Hu as (id & Htok & Hid).
  apply submit_test_found in Ht.
  apply submit_grade_counted in Hg as [Hn _].
  unfold submit_write, TestResult_create.
  match goal with
  | |- context [pre_save_percentage ?d] =>
      destruct (pre_save_percentage_keys d) as (K1 & K2 & K3);
      assert (K4 : r_totalMarks (pre_save_percentage d) = r_totalMarks d)
        by (unfold pre_save_percentage;
            destruct (0 <? r_totalMarks d); reflexivity);
      set (doc := pre_save_percentage d) in *
  end.
  simpl in K1, K2, K3, K4.
  destruct (negb (TestResult_valid _)); [simpl; tauto|].
  destruct (attempt_taken db doc); simpl; [tauto|].
  do 4 (split; [reflexivity|]). right. exists doc, test.
  rewrite K1, K2, K3, K4, Hid, Hn.
  pose proof (findTest_id _ _ _ Ht) as Hk.
  repeat split; try assumption; try reflexivity.
  now rewrite Hid.
Qed.

(** ** What a student is told and what a submission meets *)

Lemma protect_any {A B : Type} db token user :
  protect (A := A) db token = Go user -> protect (A := B) db token = Go user.
Proof.
  unfold protect. destruct token as [id|]; [|discriminate].
  destruct (findUser db id) as [u|]; [|discriminate].
  destruct (u_isActive u); [|discriminate]. now intros [= ->].
Qed.

Lemma protect_id {A : Type} db token user :
  protect (A := A) db token = Go user -> token = Some (u_id user).
Proof.
  unfold protect. destruct token as [id|]; [|discriminate].
  destruct (findUser db id) as [u|] eqn:Hf; [|discriminate].
  destruct (u_isActive u); [|discriminate]. intros [= <-].
  now rewrite (findUser_id _ _ _ Hf).
Qed.

(** What GET /api/tests/:id answers a student: the test is shown only
    when it is published and its course bought, with the questions
    stripped and the two attempt fields. *)
Lemma get_test_for_student now token id db d :
  get_test now token id db = Sent 200 true "" (Some (ForStudent d)) ->
  exists user test course,
    protect (A := TestBody) db token = Go user
    /\ role user = student
    /\ findTest db id = Some test
    /\ populateCourse db (t_course test) = Some course
    /\ isPublished test = true
    /\ hasPurchasedCourse user (cr_id course) = true
    /\ questions (td_test d) = getQuestionsForStudent test
    /\ attemptCount d = Some (getAttemptCount db (t_id test) (u_id user))
    /\ canAttempt d
       = Some ((getAttemptCount db (t_id test) (u_id user)
                <? maxAttempts test)%nat
               && isActive now test).
Proof.
  unfold get_test.
  destruct (protect db token) as [r|user] eqn:Hp.
  { apply protect_refuses in Hp as (c & m & -> & _). intros [= ]. }
  destruct (findTest db id) as [test|] eqn:Hf; [|intros [= ]].
  destruct (role user) eqn:Hrole.
  - intros [= ].
  - destruct (populateCourse db (t_course test)) as [c|]; [|intros [= ]].
    destruct (sameId (cr_instructor c) (u_id user)); intros [= ].
  - destruct (isPublished test) eqn:Hpub; simpl; [|intros [= ]].
    destruct (populateCourse db (t_course test)) as [c|] eqn:Hc;
      [|intros [= ]].
    destruct (hasPurchasedCourse user (cr_id c)) eqn:Hh; [|intros [= ]].
    intros [= <-]. exists user, test, c. simpl. repeat split; assumption.
Qed.

(** X4: The canAttempt flag of GET /api/tests/:id tells what a submission at
    the same moment, with a time taken of at least one minute, meets.
    When it is false the submission is answered 400, for the closed
    window or the used-up quota, and stores nothing.  When it is true
    the submission is answered 201, provided that its answers name
    questions and options of the test, that the attempt is one the
    schema takes (a total that is not 0, a start and a moment that are
    dates), and that the attempts the student has on the test are
    numbered 1..n. *)
Theorem canAttempt_agrees_with_submit now token id db d req :
  get_test now token id db = Sent 200 true "" (Some (ForStudent d)) ->
  s_token req = token ->
  s_testId req = id ->
  1 <= timeTaken req ->
  (canAttempt d = Some false ->
   submit now req db = (refuse 400 "Test is not currently active", db)
   \/ submit now req db = (refuse 400 "Maximum attempts exceeded", db))
  /\ (canAttempt d = Some true ->
      forall test uid,
        findTest db id = Some test ->
        token = Some uid ->
        (exists graded,
            grade (questions test) (answers req) 0 [] = Go graded) ->
        attempt_storable now req test ->
        attemptNumbers db id uid = seq 1 (getAttemptCount db id uid) ->
        replied (fst (submit now req db)) = Some 201%nat).
Proof.
  intros Hget Htok Hid Htime.
  apply get_test_for_student in Hget
    as (user & test & course & Hp & Hrole & Hf & Hc & Hpub & Hh & _ & _ & Hcan).
  pose proof (protect_id _ _ _ Hp) as Huid.
  pose proof (findTest_id _ _ _ Hf) as Hk.
  assert (Hu : submit_user db req = Go user).
  { unfold submit_user. rewrite Htok, (protect_any (B := SubmitData) _ _ _ Hp).
    unfold requireStudent. rewrite Hrole.
    destruct (timeTaken req <? 1) eqn:E; [apply Z.ltb_lt in E; lia|].
    reflexivity. }
  rewrite Hcan. split.
  - intros [= Hfalse]. unfold submit. rewrite Hu. unfold submit_test.
    rewrite Hid, Hf, Hpub, Hc, Hh. simpl.
    destruct (isActive now test); [|now left]. simpl.
    rewrite andb_true_r in Hfalse. apply Nat.ltb_ge in Hfalse.
    unfold submit_grade.
    apply Nat.leb_le in Hfalse. rewrite Hfalse. now right.
  - intros [= Htrue] t uid Ht Hsome [g Hg] Hst Hnum.
    rewrite Hf in Ht. injection Ht as <-.
    rewrite Huid in Hsome. injection Hsome as <-.
    apply andb_prop in Htrue as [Hlt Hact].
    assert (Hwf : well_formed_submission db (u_id user) test (now, req)).
    { exists user, course, g. simpl. repeat split; try assumption.
      - unfold submit_test. now rewrite Hid, Hf, Hpub, Hc, Hh, Hact.
      - apply Hst.
      - apply Hst.
      - apply Hst. }
    rewrite <- Hk in Hnum.
    pose proof (submit_well_formed db (u_id user) test now req _ Hwf Hnum) as H.
    rewrite Hlt in H. apply H.
Qed.

Lemma canAttempt_agrees_with_submit_witness :
  (submit 1000 (Demo.sheet 1 20 [Demo.pick 100])
     (Demo.db [Demo.quiz 20 Demo.five 5 2 (Some 5000)] [])
   = (refuse 400 "Test is not currently active",
      Demo.db [Demo.quiz 20 Demo.five 5 2 (Some 5000)] [])
   \/ submit 1000 (Demo.sheet 1 20 [Demo.pick 100])
        (Demo.db [Demo.quiz 20 Demo.five 5 2 (Some 5000)] [])
      = (refuse 400 "Maximum attempts exceeded",
         Demo.db [Demo.quiz 20 Demo.five 5 2 (Some 5000)] []))
  /\ replied (fst (submit 6000 (Demo.sheet 1 20 [Demo.pick 100])
                     (Demo.db [Demo.quiz 20 Demo.five 5 2 (Some 5000)] [])))
     = Some 201%nat.
Proof.
  split.
  - assert (Hd : exists d,
               get_test 1000 (Some 1%nat) 20
                 (Demo.db [Demo.quiz 20 Demo.five 5 2 (Some 5000)] [])
               = Sent 200 true "" (Some (ForStudent d))
               /\ canAttempt d = Some false).
    { eexists. split; [vm_compute; reflexivity | reflexivity]. }
    destruct Hd as (d & Hget & Hcan).
    destruct (canAttempt_agrees_with_submit 1000 (Some 1%nat) 20%nat
                (Demo.db [Demo.quiz 20 Demo.five 5 2 (Some 5000)] []) d
                (Demo.sheet 1 20 [Demo.pick 100]) Hget)
      as [H _].
    + reflexivity.
    + reflexivity.
    + simpl. lia.
    + exact (H Hcan).
  - assert (Hd : exists d,
               get_test 6000 (Some 1%nat) 20
                 (Demo.db [Demo.quiz 20 Demo.five 5 2 (Some 5000)] [])
               = Sent 200 true "" (Some (ForStudent d))
               /\ canAttempt d = Some true).
    { eexists. split; [vm_compute; reflexivity | reflexivity]. }
    destruct Hd as (d & Hget & Hcan).
    destruct (canAttempt_agrees_with_submit 6000 (Some 1%nat) 20%nat
                (Demo.db [Demo.quiz 20 Demo.five 5 2 (Some 5000)] []) d
                (Demo.sheet 1 20 [Demo.pick 100]) Hget)
      as [_ H].
    + reflexivity.
    + reflexivity.
    + simpl. lia.
    + apply (H Hcan (Demo.quiz 20 Demo.five 5 2 (Some 5000)) 1%nat).
      * reflexivity.
      * reflexivity.
      * eexists. vm_compute. reflexivity.
      * repeat split; try reflexivity. discriminate.
      * reflexivity.
Defined.

(** ** Updating and deleting a test *)

Lemma find_replace_other {A : Type} (key : A -> ObjectId) (d : A)
    (l : list A) (id id' : ObjectId) :
  key d = id -> id' <> id ->
  find (fun x => sameId (key x) id')
       (replace_first (fun x => sameId (key x) id) d l)
  = find (fun x => sameId (key x) id') l.
Proof.
  intros Hd Hne. induction l as [|x rest IH]; simpl; [reflexivity|].
  destruct (sameId (key x) id) eqn:E; simpl.
  - apply sameId_true in E.
    assert (E1 : sameId (key d) id' = false)
      by (apply Nat.eqb_neq; congruence).
    assert (E2 : sameId (key x) id' = false)
      by (apply Nat.eqb_neq; congruence).
    now rewrite E1, E2.
  - now rewrite IH.
Qed.

Lemma find_remove_other {A : Type} (key : A -> ObjectId) (l : list A)
    (id id' : ObjectId) :
  id' <> id ->
  find (fun x => sameId (key x) id')
       (remove_first (fun x => sameId (key x) id) l)
  = find (fun x => sameId (key x) id') l.
Proof.
  intros Hne. induction l as [|x rest IH]; simpl; [reflexivity|].
  destruct (sameId (key x) id) eqn:E; simpl.
  - apply sameId_true in E.
    assert (E2 : sameId (key x) id' = false)
      by (apply Nat.eqb_neq; congruence).
    now rewrite E2.
  - now rewrite IH.
Qed.

Lemma find_remove_same {A : Type} (key : A -> ObjectId) (l : list A)
    (id : ObjectId) :
  NoDup (map key l) ->
  find (fun x => sameId (key x) id)
       (remove_first (fun x => sameId (key x) id) l) = None.
Proof.
  induction l as [|x rest IH]; intros Hnd; simpl; [reflexivity|].
  inversion Hnd as [|k ks Hnotin Hnd']; subst.
  destruct (sameId (key x) id) eqn:E; simpl.
  - apply sameId_true in E.
    destruct (find (fun y => sameId (key y) id) rest) as [y|] eqn:Hy;
      [|reflexivity].
    apply find_some in Hy as [Hin Hk]. apply sameId_true in Hk.
    exfalso. apply Hnotin. rewrite E, <- Hk. now apply in_map.
  - rewrite E. now apply IH.
Qed.

(** X5: PUT /api/tests/:id writes one test and nothing else, never its id,
    course, creator, total or publication date, and never its questions
    once the test has an attempt: a body with questions is then refused
    and nothing at all is written. *)
Theorem update_test_guards_questions token id body db :
  let db' := snd (update_test token id body db) in
  (users db' = users db /\ courses db' = courses db
   /\ payments db' = payments db /\ results db' = results db)
  /\ (forall id', id' <> id -> findTest db' id' = findTest db id')
  /\ (forall t,
        findTest db id = Some t ->
        exists t',
          findTest db' id = Some t'
          /\ t_id t' = t_id t
          /\ t_course t' = t_course t
          /\ createdBy t' = createdBy t
          /\ totalMarks t' = totalMarks t
          /\ publishedAt t' = publishedAt t
          /\ ((0 < countAttempts db id)%nat -> questions t' = questions t))
  /\ ((0 < countAttempts db id)%nat -> upd_questions body <> None -> db' = db).
Proof.
  cbv zeta. unfold update_test.
  assert (Hsame :
            (users db = users db /\ courses db = courses db
             /\ payments db = payments db /\ results db = results db)
            /\ (forall id', id' <> id -> findTest db id' = findTest db id')
            /\ (forall t,
                  findTest db id = Some t ->
                  exists t',
                    findTest db id = Some t'
                    /\ t_id t' = t_id t
                    /\ t_course t' = t_course t
                    /\ createdBy t' = createdBy t
                    /\ totalMarks t' = totalMarks t
                    /\ publishedAt t' = publishedAt t
                    /\ ((0 < countAttempts db id)%nat ->
                        questions t' = questions t))
            /\ ((0 < countAttempts db id)%nat ->
                upd_questions body <> None -> db = db)).
  { repeat split; auto.
    intros t Ht. exists t. repeat split; auto. }
  destruct (protect db token) as [r|user]; [cbn [snd]; try rewrite Hf; exact Hsame|].
  destruct (requireAdmin user) as [r|_]; [cbn [snd]; try rewrite Hf; exact Hsame|].
  destruct (negb (update_body_valid body)); [cbn [snd]; try rewrite Hf; exact Hsame|].
  destruct (findTest db id) as [test|] eqn:Hf;
    [|cbn [snd]; rewrite ?Hf; exact Hsame].
  pose proof (findTest_id _ _ _ Hf) as Hk.
  match goal with
  | |- context [match ?a with Return _ => _ | Go _ => _ end] =>
      destruct a as [r|[|]]
  end; try (cbn [snd]; rewrite ?Hf; exact Hsame).
  rewrite Hk.
  destruct (upd_questions body) as [qs|] eqn:Hq.
  - destruct (0 <? countAttempts db id)%nat eqn:Hpos; simpl;
      [cbn [snd]; try rewrite Hf; exact Hsame|].
    apply Nat.ltb_ge in Hpos.
    assert (Hzero : (countAttempts db id =? 0)%nat = true)
      by (apply Nat.eqb_eq; lia).
    rewrite Hzero. simpl.
    destruct (negb (update_schema_valid body true)); [cbn [snd]; try rewrite Hf; exact Hsame|].
    simpl. split; [auto|]. split; [|split].
    + intros id' Hne. unfold findTest. simpl.
      now apply (find_replace_other (@t_id Question)).
    + intros t [= <-]. eexists. split.
      * unfold findTest. simpl. apply find_replace_first.
        -- simpl. now apply sameId_true.
        -- intros E.
           assert (Some test = None)
             by (etransitivity; [symmetry; exact Hf | exact E]).
           discriminate.
      * simpl. repeat split. intros Hlt. lia.
    + intros Hlt. lia.
  - rewrite !andb_false_r.
    destruct (negb (update_schema_valid body false)); [cbn [snd]; try rewrite Hf; exact Hsame|].
    simpl. split; [auto|]. split; [|split].
    + intros id' Hne. unfold findTest. simpl.
      now apply (find_replace_other (@t_id Question)).
    + intros t [= <-]. eexists. split.
      * unfold findTest. simpl. apply find_replace_first.
        -- simpl. now apply sameId_true.
        -- intros E.
           assert (Some test = None)
             by (etransitivity; [symmetry; exact Hf | exact E]).
           discriminate.
      * simpl. repeat split.
    + intros _ Hne. congruence.
Qed.

(** X6: A test deleted through DELETE /api/tests/:id leaves no result behind
    and takes nothing else with it: the results of every other test, every
    other test, the users, courses and payments stay, and with unique test
    ids the test is gone; without the answer 200 nothing is deleted. *)
Theorem delete_test_leaves_no_result token id db :
  let db' := snd (delete_test token id db) in
  (replied (fst (delete_test token id db)) <> Some 200%nat -> db' = db)
  /\ (replied (fst (delete_test token id db)) = Some 200%nat ->
      countAttempts db' id = 0%nat
      /\ (forall id', id' <> id ->
            filter (fun r => sameId (r_test r) id') (results db')
            = filter (fun r => sameId (r_test r) id') (results db))
      /\ (forall id', id' <> id -> findTest db' id' = findTest db id')
      /\ (NoDup (map (@t_id Question) (tests db)) -> findTest db' id = None)
      /\ users db' = users db
      /\ courses db' = courses db
      /\ payments db' = payments db).
Proof.
  cbv zeta. unfold delete_test.
  destruct (protect db token) as [r|user] eqn:Hp.
  { destruct (protect_refuses _ _ _ Hp) as (code & msg & Hr & Hc).
    subst r. simpl.
    split; [reflexivity|]. intros [= E]. lia. }
  destruct (requireAdmin user) as [r|ok] eqn:Ha.
  { unfold requireAdmin in Ha. destruct (role user); try discriminate.
    injection Ha as <-. simpl. split; [reflexivity | discriminate]. }
  destruct (findTest db id) as [test|] eqn:Hf;
    [|simpl; split; [reflexivity | discriminate]].
  pose proof (findTest_id _ _ _ Hf) as Hk.
  match goal with
  | |- context [match ?a with Return _ => _ | Go _ => _ end] =>
      destruct a as [r|[|]] eqn:Hauth
  end.
  - assert (r = Next TypeError) as ->.
    { destruct (role user); try discriminate;
        destruct (findCourse db (t_course test)); congruence. }
    simpl. split; [reflexivity | discriminate].
  - simpl. split; [congruence|]. intros _. rewrite Hk.
    split; [|split; [|split; [|repeat split]]].
    + unfold countAttempts. simpl.
      induction (results db) as [|x rest IH]; simpl; [reflexivity|].
      destruct (sameId (r_test x) id) eqn:E; simpl; [exact IH|].
      now rewrite E.
    + intros id' Hne.
      induction (results db) as [|x rest IH]; simpl; [reflexivity|].
      destruct (sameId (r_test x) id) eqn:E; simpl.
      * apply sameId_true in E.
        assert (E' : sameId (r_test x) id' = false)
          by (apply Nat.eqb_neq; congruence).
        now rewrite E'.
      * destruct (sameId (r_test x) id'); [f_equal|]; exact IH.
    + intros id' Hne. unfold findTest. simpl.
      now apply (find_remove_other (@t_id Question)).
    + intros Hnd. unfold findTest. simpl.
      now apply (find_remove_same (@t_id Question)).
  - simpl. split; [reflexivity | discriminate].
Qed.

Lemma delete_test_leaves_no_result_witness :
  countAttempts (snd (delete_test (Some 4%nat) 20 (Ledger.attempted []))) 20
  = 0%nat
  /\ findTest (snd (delete_test (Some 4%nat) 20 (Ledger.attempted []))) 20
     = None.
Proof.
  destruct (delete_test_leaves_no_result (Some 4%nat) 20%nat
              (Ledger.attempted [])) as [_ H].
  destruct (H eq_refl) as (H1 & _ & _ & H4 & _).
  split; [exact H1|]. apply H4. simpl. repeat constructor; simpl; tauto.
Defined.

Lemma update_test_guards_questions_witness :
  snd (update_test (Some 4%nat) 20 (Demo.requestion [Demo.mcq 200 10])
         (Ledger.attempted []))
  = Ledger.attempted [].
Proof.
  destruct (update_test_guards_questions (Some 4%nat) 20%nat
              (Demo.requestion [Demo.mcq 200 10]) (Ledger.attempted []))
    as (_ & _ & _ & H).
  apply H.
  - vm_compute. lia.
  - discriminate.
Defined.

(** ** What a settlement grants *)

Lemma find_by_key_first {A : Type} (key : A -> ObjectId) (l : list A) :
  NoDup (map key l) ->
  forall x, In x l -> find (fun y => sameId (key y) (key x)) l = Some x.
Proof.
  induction l as [|y rest IH]; intros Hnd x Hin; [contradiction|].
  inversion Hnd as [|k ks Hnotin Hnd']; subst. simpl.
  destruct Hin as [<-|Hin].
  - unfold sameId. now rewrite Nat.eqb_refl.
  - destruct (sameId (key y) (key x)) eqn:E; [|now apply IH].
    apply sameId_true in E. exfalso. apply Hnotin. rewrite E.
    now apply in_map.
Qed.

Lemma findUser_saveUser db id old new :
  findUser db id = Some old ->
  u_id new = id ->
  findUser (saveUser db new) id = Some new.
Proof.
  intros Hf Hid. unfold findUser, saveUser in *. simpl.
  rewrite (replace_first_ext (fun x => sameId (u_id x) (u_id new))
             (fun u => sameId (u_id u) id)) by (intros; now rewrite Hid).
  apply find_replace_first; [rewrite Hid; apply Nat.eqb_refl | congruence].
Qed.

Lemma findCourse_id db id c : findCourse db id = Some c -> c_id c = id.
Proof.
  intros H. apply find_some in H. now apply sameId_true.
Qed.

Lemma findCourse_incEnrollmentCount db id c :
  findCourse db id = Some c ->
  exists c',
    findCourse (incEnrollmentCount db id) id = Some c'
    /\ enrollmentCount c' = enrollmentCount c + 1
    /\ instructor c' = instructor c.
Proof.
  intros Hf. unfold incEnrollmentCount. rewrite Hf.
  exists {| c_id := c_id c; c_title := c_title c; instructor := instructor c;
            price := price c; c_isPublished := c_isPublished c;
            enrollmentCount := enrollmentCount c + 1 |}.
  split; [|split; reflexivity].
  unfold findCourse in *. simpl. apply find_replace_first.
  - simpl. apply sameId_true. now apply (findCourse_id db).
  - congruence.
Qed.

Lemma populateUser_found db id ref :
  populateUser db id = Some ref ->
  exists u, findUser db id = Some u /\ ur_id ref = id.
Proof.
  unfold populateUser. destruct (findUser db id) as [u|] eqn:Hf;
    [|discriminate].
  intros [= <-]. exists u. split; [reflexivity|]. simpl.
  now apply (findUser_id db).
Qed.

Lemma populateCourse_found db id ref :
  populateCourse db id = Some ref ->
  exists c,
    findCourse db id = Some c /\ cr_id ref = id
    /\ cr_instructor ref = instructor c.
Proof.
  unfold populateCourse. destruct (findCourse db id) as [c|] eqn:Hf;
    [|discriminate].
  intros [= <-]. exists c. split; [reflexivity|]. simpl.
  split; [now apply (findCourse_id db) | reflexivity].
Qed.

Lemma hasPurchasedCourse_pushed u es course method now :
  hasPurchasedCourse
    (set_enrolledCourses u (es ++ [newEnrollment course method now])) course
  = true.
Proof.
  unfold hasPurchasedCourse. simpl. rewrite existsb_app. simpl.
  unfold sameId. rewrite Nat.eqb_refl. simpl. apply orb_true_r.
Qed.

Lemma hasPurchasedCourse_completed u es course :
  find (fun e => sameId (e_course e) course) es <> None ->
  hasPurchasedCourse (set_enrolledCourses u (complete_first course es)) course
  = true.
Proof.
  unfold hasPurchasedCourse. simpl.
  induction es as [|e rest IH]; simpl; [congruence|].
  destruct (sameId (e_course e) course) eqn:E; simpl.
  - intros _. now rewrite E.
  - intros H. rewrite E. simpl. now apply IH.
Qed.

Lemma find_existsb {A : Type} (f : A -> bool) (l : list A) :
  existsb f l = match find f l with Some _ => true | None => false end.
Proof.
  induction l as [|x rest IH]; simpl; [reflexivity|].
  destruct (f x); [reflexivity | exact IH].
Qed.

Lemma findUser_incEnrollmentCount db courseId id :
  findUser (incEnrollmentCount db courseId) id = findUser db id.
Proof.
  unfold incEnrollmentCount. now destruct (findCourse db courseId).
Qed.

(** The enrollment block of the approval, when it answers 200. *)
Lemma enroll_offline_grants now db p :
  replied (fst (enroll_offline now db p)) = Some 200%nat ->
  exists student course student' course',
    findUser db (p_student p) = Some student
    /\ findCourse db (p_course p) = Some course
    /\ findUser (snd (enroll_offline now db p)) (p_student p) = Some student'
    /\ hasPurchasedCourse student' (p_course p) = true
    /\ findCourse (snd (enroll_offline now db p)) (p_course p) = Some course'
    /\ enrollmentCount course'
       = enrollmentCount course
         + (if existsb (fun e => sameId (e_course e) (p_course p))
                 (enrolledCourses student)
            then 0 else 1)
    /\ role student' = role student.
Proof.
  unfold enroll_offline.
  destruct (populateUser db (p_student p)) as [ref|] eqn:Hu; [|discriminate].
  destruct (populateUser_found _ _ _ Hu) as (u & Hfu & Hrid).
  rewrite Hrid, Hfu.
  destruct (populateCourse db (p_course p)) as [cref|] eqn:Hc; [|discriminate].
  destruct (populateCourse_found _ _ _ Hc) as (c & Hfc & Hcid & _).
  rewrite Hcid.
  pose proof (findUser_id _ _ _ Hfu) as Huid.
  destruct (find (fun e => sameId (e_course e) (p_course p))
              (enrolledCourses u)) as [e|] eqn:He; simpl; intros _.
  - exists u, c. eexists _, c. split; [reflexivity|]. split; [exact Hfc|].
    split; [apply (findUser_saveUser db _ u); [exact Hfu | exact Huid]|].
    split; [apply hasPurchasedCourse_completed; congruence|].
    split; [exact Hfc|].
    split; [rewrite find_existsb, He; lia | reflexivity].
  - destruct (findCourse_incEnrollmentCount
                (saveUser db
                   (set_enrolledCourses u
                      (enrolledCourses u
                       ++ [newEnrollment (p_course p) offline now])))
                (p_course p) c Hfc) as (c' & Hc' & Hcount & _).
    exists u, c. eexists _, c'. split; [reflexivity|]. split; [exact Hfc|].
    split.
    { rewrite findUser_incEnrollmentCount.
      apply (findUser_saveUser db _ u); assumption. }
    split; [apply hasPurchasedCourse_pushed|].
    split; [exact Hc'|].
    split; [rewrite find_existsb, He; exact Hcount | reflexivity].
Qed.

(** What an approval answered 200 has found and written. *)
Lemma put_approve_grants now token id db :
  replied (fst (put_approve now token id db)) = Some 200%nat ->
  exists payment student course student' course',
    findPayment db id = Some payment
    /\ paymentMethod payment = offline
    /\ status payment = pending
    /\ findUser db (p_student payment) = Some student
    /\ findCourse db (p_course payment) = Some course
    /\ findUser (snd (put_approve now token id db)) (p_student payment)
       = Some student'
    /\ hasPurchasedCourse student' (p_course payment) = true
    /\ findCourse (snd (put_approve now token id db)) (p_course payment)
       = Some course'
    /\ enrollmentCount course'
       = enrollmentCount course
         + (if existsb (fun e => sameId (e_course e) (p_course payment))
                 (enrolledCourses student)
            then 0 else 1)
    /\ role student' = role student.
Proof.
  unfold put_approve.
  destruct (protect db token) as [r|user] eqn:Hp.
  { destruct (protect_refuses _ _ _ Hp) as (c & m & -> & Hc).
    simpl. intros [= E]. lia. }
  destruct (requireAdmin user) as [r|ok] eqn:Ha.
  { unfold requireAdmin in Ha. destruct (role user); try discriminate.
    injection Ha as <-. discriminate. }
  destruct (findPayment db id) as [payment|] eqn:Hf; [|discriminate].
  destruct (may_decide db user payment) as [r|[|]] eqn:Hm.
  - assert (r = Next TypeError) as ->.
    { unfold may_decide in Hm. destruct (role user); try discriminate;
        destruct (populateCourse db (p_course payment)); congruence. }
    discriminate.
  - destruct (PaymentMethod_eqb (paymentMethod payment) offline) eqn:Em;
      simpl; [|discriminate].
    destruct (PaymentStatus_eqb (status payment) pending) eqn:Es;
      simpl; [|discriminate].
    apply PaymentMethod_eqb_eq in Em. apply PaymentStatus_eqb_eq in Es.
    intros H200.
    destruct (enroll_offline_grants now
                (savePayment db (approve payment (u_id user) now))
                (approve payment (u_id user) now) H200)
      as (s & c & s' & c' & H1 & H2 & H3 & H4 & H5 & H6 & H7).
    exists payment, s, c, s', c'. repeat split; assumption.
  - discriminate.
Qed.

(** X7: An approval answered 200 has taken a pending offline payment and left
    its student with a completed enrollment for its course; the course's
    enrollmentCount has grown by one when the student had no enrollment
    entry for the course, and not at all when there was one. *)
Theorem approval_grants_access now token id db :
  replied (fst (put_approve now token id db)) = Some 200%nat ->
  exists payment student course student' course',
    findPayment db id = Some payment
    /\ paymentMethod payment = offline
    /\ status payment = pending
    /\ findUser db (p_student payment) = Some student
    /\ findCourse db (p_course payment) = Some course
    /\ findUser (snd (put_approve now token id db)) (p_student payment)
       = Some student'
    /\ hasPurchasedCourse student' (p_course payment) = true
    /\ findCourse (snd (put_approve now token id db)) (p_course payment)
       = Some course'
    /\ enrollmentCount course'
       = enrollmentCount course
         + (if existsb (fun e => sameId (e_course e) (p_course payment))
                 (enrolledCourses student)
            then 0 else 1).
Proof.
  intros H200.
  destruct (put_approve_grants now token id db H200)
    as (p & s & c & s' & c' & H1 & H2 & H3 & H4 & H5 & H6 & H7 & H8 & H9 & _).
  exists p, s, c, s', c'. repeat split; assumption.
Qed.

Lemma approval_grants_access_witness :
  exists student',
    findUser (snd (put_approve 5000 (Some 4%nat) 30
                     (Demo.db [] [Demo.transfer]))) 2
    = Some student'
    /\ hasPurchasedCourse student' 10 = true.
Proof.
  destruct (approval_grants_access 5000 (Some 4%nat) 30%nat
              (Demo.db [] [Demo.transfer]) eq_refl)
    as (p & s & c & s' & c' & Hp & _ & _ & _ & _ & Hs' & Hh & _).
  injection Hp as <-. exists s'. split; [exact Hs' | exact Hh].
Defined.

(** ** What a verification grants *)

Lemma find_in_some {A : Type} (f : A -> bool) (l : list A) (x : A) :
  In x l -> f x = true -> exists y, find f l = Some y.
Proof.
  intros Hin Hx. destruct (find f l) as [y|] eqn:E; [now exists y|].
  now rewrite (find_none _ _ E _ Hin) in Hx.
Qed.

Lemma student_only_user {A : Type} db token user :
  student_only (A := A) db token = Go user ->
  findUser db (u_id user) = Some user /\ role user = student.
Proof.
  unfold student_only.
  destruct (protect db token) as [r|u] eqn:Hp; [discriminate|].
  unfold requireStudent. destruct (role u) eqn:Hr; try discriminate.
  intros [= <-]. split; [|exact Hr].
  pose proof (protect_id _ _ _ Hp) as ->.
  unfold protect in Hp. destruct (findUser db (u_id u)) as [u'|] eqn:Hf;
    [|discriminate].
  destruct (u_isActive u'); [|discriminate]. now injection Hp as ->.
Qed.

(** X8: A verification answered 200 was sent by the student of a pending
    payment with the order id, with a signature the gateway check accepts;
    it leaves the payment completed with the gateway's ids, gives the
    student one more enrollment entry, a completed one for the payment's
    course, and adds one to the course's enrollmentCount, whether or not
    the student already had an entry for the course. *)
Theorem verification_grants_access check now req db :
  replied (fst (post_verify check now req db)) = Some 200%nat ->
  exists user payment student' course course',
    student_only (A := VerifyData) db (v_token req) = Go user
    /\ findPendingOrder db (v_razorpayOrderId req) (u_id user) = Some payment
    /\ check (v_razorpayOrderId req) (v_razorpayPaymentId req)
         (v_razorpaySignature req) = true
    /\ findPayment (snd (post_verify check now req db)) (p_id payment)
       = Some (settle payment completed (Some (v_razorpayPaymentId req))
                 (Some (v_razorpaySignature req)))
    /\ findUser (snd (post_verify check now req db)) (u_id user)
       = Some student'
    /\ enrolledCourses student'
       = enrolledCourses user ++ [newEnrollment (p_course payment) online now]
    /\ hasPurchasedCourse student' (p_course payment) = true
    /\ findCourse db (p_course payment) = Some course
    /\ findCourse (snd (post_verify check now req db)) (p_course payment)
       = Some course'
    /\ enrollmentCount course' = enrollmentCount course + 1.
Proof.
  unfold post_verify.
  destruct (student_only db (v_token req)) as [r|user] eqn:Hu.
  { destruct (student_only_refuses _ _ _ Hu) as (c & m & -> & Hc).
    simpl. intros [= E]. lia. }
  destruct (negb (verify_body_valid req)); [discriminate|].
  destruct (findPendingOrder db (v_razorpayOrderId req) (u_id user))
    as [payment|] eqn:Hf; [|discriminate].
  destruct (check _ _ _) eqn:Hcheck; simpl; [|discriminate].
  destruct (student_only_user _ _ _ Hu) as [Hfu _].
  set (paid := settle payment completed (Some (v_razorpayPaymentId req))
                 (Some (v_razorpaySignature req))).
  unfold enroll_online.
  change (findUser (savePayment db paid) (u_id user))
    with (findUser db (u_id user)).
  rewrite Hfu.
  destruct (populateCourse (savePayment db paid) (p_course paid))
    as [cref|] eqn:Hc; [|discriminate].
  destruct (populateCourse_found _ _ _ Hc) as (c & Hfc & Hcid & _).
  rewrite Hcid. simpl. intros _.
  set (pushed := set_enrolledCourses user
                   (enrolledCourses user
                    ++ [newEnrollment (p_course payment) online now])).
  destruct (findCourse_incEnrollmentCount
              (saveUser (savePayment db paid) pushed) (p_course payment) c Hfc)
    as (c' & Hc' & Hcount & _).
  exists user, payment, pushed, c, c'.
  split; [first [reflexivity | exact Hu]|].
  split; [first [reflexivity | exact Hf]|].
  split; [first [reflexivity | exact Hcheck]|].
  split.
  { rewrite (findPayment_payments (savePayment db paid))
      by (rewrite incEnrollmentCount_payments; reflexivity).
    apply find_some in Hf as [Hin _].
    destruct (find_in_some (fun p => sameId (p_id p) (p_id payment))
                (payments db) payment Hin (Nat.eqb_refl _)) as (old & Hold).
    apply (findPayment_savePayment db _ old); [exact Hold | reflexivity]. }
  split.
  { rewrite findUser_incEnrollmentCount.
    apply (findUser_saveUser (savePayment db paid) _ user);
      [exact Hfu | reflexivity]. }
  split; [reflexivity|].
  split; [apply hasPurchasedCourse_pushed|].
  split; [exact Hfc|]. split; [exact Hc' | exact Hcount].
Qed.

Lemma verification_grants_access_witness :
  exists student',
    findUser
      (snd (post_verify Demo.checkSignature 5000
              {| v_token := Some 5%nat; v_razorpayOrderId := "order_2";
                 v_razorpayPaymentId := "pay_2";
                 v_razorpaySignature := "sig_1" |}
              (Demo.db [] [Demo.checkout]))) 5
    = Some student'
    /\ hasPurchasedCourse student' 10 = true.
Proof.
  destruct (verification_grants_access Demo.checkSignature 5000
              {| v_token := Some 5%nat; v_razorpayOrderId := "order_2";
                 v_razorpayPaymentId := "pay_2";
                 v_razorpaySignature := "sig_1" |}
              (Demo.db [] [Demo.checkout]) eq_refl)
    as (u & p & s' & c & c' & Hu & Hp & _ & _ & Hs' & _ & Hh & _).
  injection Hu as <-. injection Hp as <-.
  exists s'. split; [exact Hs' | exact Hh].
Defined.

(** ** Who is enrolled, and when *)

Lemma Payment_create_keeps db p :
  users (fst (Payment_create db p)) = users db
  /\ courses (fst (Payment_create db p)) = courses db.
Proof. unfold Payment_create. now destruct (amount p <? 0). Qed.

(** X9: Creating an order, requesting an offline payment and rejecting a
    payment never change a user or a course: none of the three enrolls
    anybody or moves an enrollmentCount, whatever they answer. *)
Theorem requests_and_rejections_enroll_nobody :
  (forall req db,
      users (snd (create_order req db)) = users db
      /\ courses (snd (create_order req db)) = courses db)
  /\ (forall req db,
         users (snd (request_offline req db)) = users db
         /\ courses (snd (request_offline req db)) = courses db)
  /\ (forall now token id reason db,
         users (snd (put_reject now token id reason db)) = users db
         /\ courses (snd (put_reject now token id reason db)) = courses db).
Proof.
  split; [|split].
  - intros req db. unfold create_order.
    destruct (student_only db (o_token req)) as [r|u]; [now split|].
    destruct (purchasable db u (o_courseId req)) as [r|c]; [now split|].
    destruct (no_pending db u (o_courseId req)) as [r|ok]; [now split|].
    destruct (o_gateway req) as [order|]; [|now split].
    unfold order_write.
    match goal with
    | |- context [Payment_create db ?p] =>
        pose proof (Payment_create_keeps db p) as H;
        destruct (Payment_create db p) as [db' [q|]]; exact H
    end.
  - intros req db. unfold request_offline.
    destruct (student_only db (f_token req)) as [r|u]; [now split|].
    destruct (negb (offline_body_valid req)); [now split|].
    destruct (purchasable db u (f_courseId req)) as [r|c]; [now split|].
    destruct (no_pending db u (f_courseId req)) as [r|ok]; [now split|].
    destruct (f_file req) as [path|]; [|now split].
    unfold offline_write.
    match goal with
    | |- context [Payment_create db ?p] =>
        pose proof (Payment_create_keeps db p) as H;
        destruct (Payment_create db p) as [db' [q|]]; exact H
    end.
  - intros now token id reason db. unfold put_reject.
    destruct (protect db token) as [r|u]; [now split|].
    destruct (requireAdmin u) as [r|ok]; [now split|].
    destruct (String.eqb (trim reason) ""); [now split|].
    destruct (findPayment db id) as [p|]; [|now split].
    destruct (may_decide db u p) as [r|[|]]; try now split.
    destruct (negb (PaymentMethod_eqb (paymentMethod p) offline)); [now split|].
    destruct (negb (PaymentStatus_eqb (status p) pending)); now split.
Qed.

Lemma enroll_offline_refused now db p :
  replied (fst (enroll_offline now db p)) <> Some 200%nat ->
  snd (enroll_offline now db p) = db.
Proof.
  unfold enroll_offline.
  destruct (populateUser db (p_student p)) as [ref|]; [|reflexivity].
  destruct (findUser db (ur_id ref)) as [u|]; [|reflexivity].
  destruct (populateCourse db (p_course p)) as [c|]; [|reflexivity].
  destruct (find _ (enrolledCourses u)); simpl; congruence.
Qed.

Lemma enroll_online_refused now db uid p :
  replied (fst (enroll_online now db uid p)) <> Some 200%nat ->
  snd (enroll_online now db uid p) = db.
Proof.
  unfold enroll_online.
  destruct (findUser db uid) as [u|]; [|reflexivity].
  destruct (populateCourse db (p_course p)) as [c|]; [|reflexivity].
  simpl. congruence.
Qed.

(** X10: A verification or an approval that is not answered 200 has changed no
    user and no course: an enrollment is written only by a settlement
    that succeeds. *)
Theorem only_a_200_enrolls check now req token id db :
  (replied (fst (post_verify check now req db)) = Some 200%nat
   \/ (users (snd (post_verify check now req db)) = users db
       /\ courses (snd (post_verify check now req db)) = courses db))
  /\ (replied (fst (put_approve now token id db)) = Some 200%nat
      \/ (users (snd (put_approve now token id db)) = users db
          /\ courses (snd (put_approve now token id db)) = courses db)).
Proof.
  split.
  - unfold post_verify.
    destruct (student_only db (v_token req)) as [r|u]; [right; now split|].
    destruct (negb (verify_body_valid req)); [right; now split|].
    destruct (findPendingOrder db (v_razorpayOrderId req) (u_id u))
      as [p|]; [|right; now split].
    destruct (negb (check _ _ _)); [right; now split|].
    match goal with
    | |- context [enroll_online now ?d ?i ?q] =>
        destruct (Nat.eq_dec
                    (match replied (fst (enroll_online now d i q)) with
                     | Some c => c | None => 0%nat end) 200) as [E|E];
        [left | right; rewrite (enroll_online_refused now d i q)]
    end.
    + destruct (replied _) as [c|]; [now subst | discriminate].
    + now split.
    + intros H. now rewrite H in E.
  - unfold put_approve.
    destruct (protect db token) as [r|u]; [right; now split|].
    destruct (requireAdmin u) as [r|ok]; [right; now split|].
    destruct (findPayment db id) as [p|]; [|right; now split].
    destruct (may_decide db u p) as [r|[|]]; try (right; now split).
    destruct (negb (PaymentMethod_eqb (paymentMethod p) offline));
      [right; now split|].
    destruct (negb (PaymentStatus_eqb (status p) pending));
      [right; now split|].
    match goal with
    | |- context [enroll_offline now ?d ?q] =>
        destruct (Nat.eq_dec
                    (match replied (fst (enroll_offline now d q)) with
                     | Some c => c | None => 0%nat end) 200) as [E|E];
        [left | right; rewrite (enroll_offline_refused now d q)]
    end.
    + destruct (replied _) as [c|]; [now subst | discriminate].
    + now split.
    + intros H. now rewrite H in E.
Qed.

(** ** The life of a payment *)

Lemma evolves_refl p : evolves p p.
Proof. now left. Qed.

Lemma Forall2_evolves_refl l : Forall2 evolves l l.
Proof. induction l; constructor; [apply evolves_refl | assumption]. Qed.

Lemma replace_first_evolves same new l :
  (forall old, find same l = Some old -> evolves old new) ->
  Forall2 evolves l (replace_first same new l).
Proof.
  induction l as [|x rest IH]; simpl; intros H; [constructor|].
  destruct (same x) eqn:E.
  - constructor; [now apply H | apply Forall2_evolves_refl].
  - constructor; [apply evolves_refl | now apply IH].
Qed.

Lemma savePayment_evolves db id payment new :
  findPayment db id = Some payment ->
  evolves payment new ->
  p_id new = id ->
  Forall2 evolves (payments db) (payments (savePayment db new)).
Proof.
  intros Hf Hev Hid. unfold savePayment. simpl.
  apply replace_first_evolves. intros old Hold.
  unfold findPayment in Hf. rewrite Hid, Hf in Hold. now injection Hold as <-.
Qed.

Lemma put_approve_evolves now token id db :
  Forall2 evolves (payments db) (payments (snd (put_approve now token id db))).
Proof.
  unfold put_approve.
  destruct (protect db token) as [r|u]; [apply Forall2_evolves_refl|].
  destruct (requireAdmin u) as [r|ok]; [apply Forall2_evolves_refl|].
  destruct (findPayment db id) as [p|] eqn:Hf;
    [|apply Forall2_evolves_refl].
  destruct (may_decide db u p) as [r|[|]];
    try apply Forall2_evolves_refl.
  destruct (negb (PaymentMethod_eqb (paymentMethod p) offline));
    [apply Forall2_evolves_refl|].
  destruct (negb (PaymentStatus_eqb (status p) pending)) eqn:Es;
    [apply Forall2_evolves_refl|].
  rewrite enroll_offline_payments.
  apply (savePayment_evolves db id p); [exact Hf | | ].
  - right. apply negb_false_iff, PaymentStatus_eqb_eq in Es.
    simpl. repeat split; auto.
  - simpl. now apply (findPayment_id db).
Qed.

Lemma put_reject_evolves now token id reason db :
  Forall2 evolves (payments db)
    (payments (snd (put_reject now token id reason db))).
Proof.
  unfold put_reject.
  destruct (protect db token) as [r|u]; [apply Forall2_evolves_refl|].
  destruct (requireAdmin u) as [r|ok]; [apply Forall2_evolves_refl|].
  destruct (String.eqb (trim reason) ""); [apply Forall2_evolves_refl|].
  destruct (findPayment db id) as [p|] eqn:Hf;
    [|apply Forall2_evolves_refl].
  destruct (may_decide db u p) as [r|[|]];
    try apply Forall2_evolves_refl.
  destruct (negb (PaymentMethod_eqb (paymentMethod p) offline));
    [apply Forall2_evolves_refl|].
  destruct (negb (PaymentStatus_eqb (status p) pending)) eqn:Es;
    [apply Forall2_evolves_refl|].
  apply (savePayment_evolves db id p); [exact Hf | | ].
  - right. apply negb_false_iff, PaymentStatus_eqb_eq in Es.
    simpl. repeat split; auto.
  - simpl. now apply (findPayment_id db).
Qed.

Lemma replace_first_one (same : Payment -> bool) new l old :
  find same l = Some old ->
  replaced_one l (replace_first same new l) old new.
Proof.
  induction l as [|x rest IH]; simpl; [discriminate|].
  destruct (same x) eqn:E.
  - intros [= ->]. now exists [], rest.
  - intros H. destruct (IH H) as (l1 & l2 & H1 & H2).
    exists (x :: l1), l2. simpl. now rewrite <- H1, <- H2.
Qed.

Lemma savePayment_one db id payment new :
  findPayment db id = Some payment ->
  p_id new = id ->
  replaced_one (payments db) (payments (savePayment db new)) payment new.
Proof.
  intros Hf Hid. unfold savePayment. simpl.
  apply replace_first_one. unfold findPayment in Hf. now rewrite Hid.
Qed.

(** X11: Approve and reject keep the payments in place and in order.  Either
    the stored payments are what they were, or the caller is let in, the
    payment of the id asked for was a pending offline one, and it alone
    is replaced, where it stood, by its decided version: completed, with
    the caller and the moment as approvedBy and approvedAt, after an
    approval; failed, with the caller, the moment and the trimmed reason
    as rejectedBy, rejectedAt and rejectionReason, after a rejection.
    Its id, student, course, amount and method are kept. *)
Theorem decisions_evolve_payments now token id reason db :
  (Forall2 evolves (payments db)
     (payments (snd (put_approve now token id db)))
   /\ (payments (snd (put_approve now token id db)) = payments db
       \/ exists admin payment,
            protect (A := Payment) db token = Go admin
            /\ findPayment db id = Some payment
            /\ paymentMethod payment = offline
            /\ status payment = pending
            /\ status (approve payment (u_id admin) now) = completed
            /\ evolves payment (approve payment (u_id admin) now)
            /\ replaced_one (payments db)
                 (payments (snd (put_approve now token id db)))
                 payment (approve payment (u_id admin) now)))
  /\ (Forall2 evolves (payments db)
        (payments (snd (put_reject now token id reason db)))
      /\ (payments (snd (put_reject now token id reason db)) = payments db
          \/ exists admin payment,
               protect (A := Payment) db token = Go admin
               /\ findPayment db id = Some payment
               /\ paymentMethod payment = offline
               /\ status payment = pending
               /\ status (reject payment (u_id admin) (trim reason) now)
                  = failed
               /\ evolves payment
                    (reject payment (u_id admin) (trim reason) now)
               /\ replaced_one (payments db)
                    (payments (snd (put_reject now token id reason db)))
                    payment
                    (reject payment (u_id admin) (trim reason) now))).
Proof.
  split; (split; [first [apply put_approve_evolves | apply put_reject_evolves]|]).
  - unfold put_approve.
    destruct (protect db token) as [r|u]; [now left|].
    destruct (requireAdmin u) as [r|ok]; [now left|].
    destruct (findPayment db id) as [p|] eqn:Hf; [|now left].
    destruct (may_decide db u p) as [r|[|]]; try now left.
    destruct (negb (PaymentMethod_eqb (paymentMethod p) offline)) eqn:Em;
      [now left|].
    destruct (negb (PaymentStatus_eqb (status p) pending)) eqn:Es;
      [now left|].
    apply negb_false_iff, PaymentMethod_eqb_eq in Em.
    apply negb_false_iff, PaymentStatus_eqb_eq in Es.
    right. exists u, p. rewrite enroll_offline_payments.
    repeat split; try assumption; try reflexivity.
    + right. simpl. repeat split; auto.
    + apply (savePayment_one db id); [exact Hf|].
      simpl. now apply (findPayment_id db).
  - unfold put_reject.
    destruct (protect db token) as [r|u]; [now left|].
    destruct (requireAdmin u) as [r|ok]; [now left|].
    destruct (String.eqb (trim reason) ""); [now left|].
    destruct (findPayment db id) as [p|] eqn:Hf; [|now left].
    destruct (may_decide db u p) as [r|[|]]; try now left.
    destruct (negb (PaymentMethod_eqb (paymentMethod p) offline)) eqn:Em;
      [now left|].
    destruct (negb (PaymentStatus_eqb (status p) pending)) eqn:Es;
      [now left|].
    apply negb_false_iff, PaymentMethod_eqb_eq in Em.
    apply negb_false_iff, PaymentStatus_eqb_eq in Es.
    right. exists u, p.
    repeat split; try assumption; try reflexivity.
    + right. simpl. repeat split; auto.
    + apply (savePayment_one db id); [exact Hf|].
      simpl. now apply (findPayment_id db).
Qed.

Lemma post_verify_evolves check now req db :
  NoDup (map p_id (payments db)) ->
  Forall2 evolves (payments db)
    (payments (snd (post_verify check now req db))).
Proof.
  intros Hnd. unfold post_verify.
  destruct (student_only db (v_token req)) as [r|u];
    [apply Forall2_evolves_refl|].
  destruct (negb (verify_body_valid req)); [apply Forall2_evolves_refl|].
  destruct (findPendingOrder db (v_razorpayOrderId req) (u_id u))
    as [p|] eqn:Hf; [|apply Forall2_evolves_refl].
  apply find_some in Hf as [Hin Hp].
  apply andb_prop in Hp as [_ Hst]. apply PaymentStatus_eqb_eq in Hst.
  pose proof (find_by_id_unique _ _ Hnd Hin) as Hfind.
  destruct (negb (check _ _ _)).
  - apply (savePayment_evolves db (p_id p) p); [exact Hfind | | reflexivity].
    right. simpl. repeat split; auto.
  - rewrite enroll_online_payments.
    apply (savePayment_evolves db (p_id p) p); [exact Hfind | | reflexivity].
    right. simpl. repeat split; auto.
Qed.

(** X12: With the payments' ids distinct, a verification does the same.
    Either the stored payments are what they were, or the caller is a
    student let in, the request's order id finds a pending payment of
    that student, and that payment alone is replaced where it stood:
    when the signature check passes, by the payment completed, with the
    request's payment id and signature; when it fails, by the payment
    failed, its gateway fields as they were.  Its id, student, course,
    amount and method are kept. *)
Theorem verification_evolves_payments check now req db :
  NoDup (map p_id (payments db)) ->
  Forall2 evolves (payments db)
    (payments (snd (post_verify check now req db)))
  /\ (payments (snd (post_verify check now req db)) = payments db
      \/ exists user payment,
           student_only (A := VerifyData) db (v_token req) = Go user
           /\ findPendingOrder db (v_razorpayOrderId req) (u_id user)
              = Some payment
           /\ status payment = pending
           /\ replaced_one (payments db)
                (payments (snd (post_verify check now req db)))
                payment
                (if check (v_razorpayOrderId req) (v_razorpayPaymentId req)
                      (v_razorpaySignature req)
                 then settle payment completed
                        (Some (v_razorpayPaymentId req))
                        (Some (v_razorpaySignature req))
                 else settle payment failed (razorpayPaymentId payment)
                        (razorpaySignature payment))).
Proof.
  intros Hnd. split; [now apply post_verify_evolves|].
  unfold post_verify.
  destruct (student_only db (v_token req)) as [r|u]; [now left|].
  destruct (negb (verify_body_valid req)); [now left|].
  destruct (findPendingOrder db (v_razorpayOrderId req) (u_id u))
    as [p|] eqn:Hf; [|now left].
  right. exists u, p. split; [reflexivity|]. split; [exact Hf|].
  apply find_some in Hf as [Hin Hp].
  apply andb_prop in Hp as [_ Hst]. apply PaymentStatus_eqb_eq in Hst.
  split; [exact Hst|].
  pose proof (find_by_id_unique _ _ Hnd Hin) as Hfind.
  destruct (check _ _ _); cbn [negb].
  - rewrite enroll_online_payments.
    now apply (savePayment_one db (p_id p)).
  - now apply (savePayment_one db (p_id p)).
Qed.

Lemma verification_evolves_payments_witness :
  replaced_one [Demo.card; Demo.checkout]
    (payments
       (snd (post_verify Demo.checkSignature 5000
               {| v_token := Some 5%nat; v_razorpayOrderId := "order_2";
                  v_razorpayPaymentId := "pay_2";
                  v_razorpaySignature := "forged" |}
               (Demo.db [] [Demo.card; Demo.checkout]))))
    Demo.checkout (settle Demo.checkout failed None None)
  /\ replaced_one [Demo.card; Demo.checkout]
       (payments
          (snd (post_verify Demo.checkSignature 5000
                  {| v_token := Some 5%nat; v_razorpayOrderId := "order_2";
                     v_razorpayPaymentId := "pay_2";
                     v_razorpaySignature := "sig_1" |}
                  (Demo.db [] [Demo.card; Demo.checkout]))))
       Demo.checkout
       (settle Demo.checkout completed (Some "pay_2") (Some "sig_1")).
Proof.
  split.
  - destruct (verification_evolves_payments Demo.checkSignature 5000
                {| v_token := Some 5%nat; v_razorpayOrderId := "order_2";
                   v_razorpayPaymentId := "pay_2";
                   v_razorpaySignature := "forged" |}
                (Demo.db [] [Demo.card; Demo.checkout]))
      as [_ [H|(user & payment & Hu & Hf & _ & H)]].
    + simpl. repeat constructor; simpl; intuition lia.
    + vm_compute in H. discriminate H.
    + vm_compute in Hu. injection Hu as <-.
      vm_compute in Hf. injection Hf as <-. exact H.
  - destruct (verification_evolves_payments Demo.checkSignature 5000
                {| v_token := Some 5%nat; v_razorpayOrderId := "order_2";
                   v_razorpayPaymentId := "pay_2";
                   v_razorpaySignature := "sig_1" |}
                (Demo.db [] [Demo.card; Demo.checkout]))
      as [_ [H|(user & payment & Hu & Hf & _ & H)]].
    + simpl. repeat constructor; simpl; intuition lia.
    + vm_compute in H. discriminate H.
    + vm_compute in Hu. injection Hu as <-.
      vm_compute in Hf. injection Hf as <-. exact H.
Defined.

(** ** Who may decide and who may look *)

Lemma populateCourse_of db id c :
  findCourse db id = Some c ->
  populateCourse db id
  = Some {| cr_id := c_id c; cr_title := c_title c;
            cr_instructor := instructor c |}.
Proof. intros H. unfold populateCourse. now rewrite H. Qed.

Lemma sameId_false (a b : ObjectId) : a <> b -> sameId a b = false.
Proof. intros H. now apply Nat.eqb_neq. Qed.

(** X13: A caller who is neither a superadmin nor the instructor of the
    payment's course decides nothing, whatever the payment's method and
    status: approve and reject leave the store as it was; approve
    answers 403; reject answers 403 too, except to an admin whose reason
    is blank once trimmed, who is answered 400 by the validation, which
    runs before the payment is looked up. *)
Theorem strangers_decide_nothing now token id reason db user payment course :
  protect (A := Payment) db token = Go user ->
  findPayment db id = Some payment ->
  findCourse db (p_course payment) = Some course ->
  role user <> superadmin ->
  instructor course <> u_id user ->
  replied (fst (put_approve now token id db)) = Some 403%nat
  /\ snd (put_approve now token id db) = db
  /\ replied (fst (put_reject now token id reason db))
     = Some (match role user with
             | admin => if String.eqb (trim reason) "" then 400%nat
                        else 403%nat
             | _ => 403%nat
             end)
  /\ snd (put_reject now token id reason db) = db.
Proof.
  intros Hp Hf Hc Hrole Hins.
  unfold put_approve, put_reject. rewrite Hp.
  unfold requireAdmin, may_decide.
  destruct (role user) eqn:Hr; try congruence; simpl.
  - rewrite Hf, (populateCourse_of _ _ _ Hc). simpl.
    rewrite (sameId_false _ _ Hins).
    destruct (String.eqb (trim reason) ""); now repeat split.
  - now repeat split.
Qed.

Lemma strangers_decide_nothing_witness :
  (put_approve 5000 (Some 6%nat) 30
     (with_users (Demo.db [] [Demo.transfer])
        (users (Demo.db [] []) ++ [Demo.person 6 admin []]))
   = (refuse 403 "Not authorized to approve this payment",
      with_users (Demo.db [] [Demo.transfer])
        (users (Demo.db [] []) ++ [Demo.person 6 admin []])))
  /\ replied
       (fst (put_reject 5000 (Some 6%nat) 30 "no"
               (with_users (Demo.db [] [Demo.transfer])
                  (users (Demo.db [] []) ++ [Demo.person 6 admin []]))))
     = Some 403%nat
  /\ replied
       (fst (put_reject 5000 (Some 6%nat) 30 "  "
               (with_users (Demo.db [] [Demo.transfer])
                  (users (Demo.db [] []) ++ [Demo.person 6 admin []]))))
     = Some 400%nat
  /\ replied
       (fst (put_reject 5000 (Some 1%nat) 30 "  "
               (Demo.db [] [Demo.transfer])))
     = Some 403%nat.
Proof.
  split; [reflexivity|]. split; [|split].
  - apply (strangers_decide_nothing 5000 (Some 6%nat) 30%nat "no"
             (with_users (Demo.db [] [Demo.transfer])
                (users (Demo.db [] []) ++ [Demo.person 6 admin []]))
             (Demo.person 6 admin []) Demo.transfer Demo.physics
             eq_refl eq_refl eq_refl);
      discriminate.
  - apply (strangers_decide_nothing 5000 (Some 6%nat) 30%nat "  "
             (with_users (Demo.db [] [Demo.transfer])
                (users (Demo.db [] []) ++ [Demo.person 6 admin []]))
             (Demo.person 6 admin []) Demo.transfer Demo.physics
             eq_refl eq_refl eq_refl);
      discriminate.
  - apply (strangers_decide_nothing 5000 (Some 1%nat) 30%nat "  "
             (Demo.db [] [Demo.transfer]) Demo.alice Demo.transfer
             Demo.physics eq_refl eq_refl eq_refl);
      discriminate.
Defined.

(** X14: GET /api/payments/:id answers 200 only to a superadmin, to the admin
    who is the instructor of the payment's course, or to the student the
    payment belongs to, and then with the payment of that id. *)
Theorem get_payment_shows_to_parties token id db :
  replied (get_payment token id db) = Some 200%nat ->
  exists user payment,
    protect (A := Payment) db token = Go user
    /\ findPayment db id = Some payment
    /\ get_payment token id db = Sent 200 true "" (Some payment)
    /\ (role user = superadmin
        \/ (role user = admin
            /\ exists course,
                 findCourse db (p_course payment) = Some course
                 /\ instructor course = u_id user)
        \/ (role user = student /\ p_student payment = u_id user)).
Proof.
  unfold get_payment.
  destruct (protect db token) as [r|user] eqn:Hp.
  { destruct (protect_refuses _ _ _ Hp) as (c & m & -> & Hc).
    simpl. intros [= E]. lia. }
  destruct (findPayment db id) as [payment|] eqn:Hf; [|discriminate].
  intros H. exists user, payment.
  split; [reflexivity|]. split; [reflexivity|].
  destruct (role user) eqn:Hr.
  - split; [reflexivity|]. now left.
  - destruct (populateCourse db (p_course payment)) as [ref|] eqn:Hc;
      [|simpl in H; discriminate H].
    destruct (populateCourse_found _ _ _ Hc) as (c & Hfc & _ & Hins).
    destruct (sameId (cr_instructor ref) (u_id user)) eqn:E;
      [|simpl in H; discriminate H].
    split; [reflexivity|]. right. left. split; [reflexivity|].
    exists c. split; [exact Hfc|]. apply sameId_true in E. congruence.
  - destruct (populateUser db (p_student payment)) as [ref|] eqn:Hu;
      [|simpl in H; discriminate H].
    destruct (populateUser_found _ _ _ Hu) as (u & _ & Hid).
    destruct (sameId (ur_id ref) (u_id user)) eqn:E;
      [|simpl in H; discriminate H].
    split; [reflexivity|]. right. right. split; [reflexivity|].
    apply sameId_true in E. congruence.
Qed.

Lemma get_payment_shows_to_parties_witness :
  exists user payment,
    protect (A := Payment) (Demo.db [] [Demo.transfer]) (Some 2%nat) = Go user
    /\ findPayment (Demo.db [] [Demo.transfer]) 30 = Some payment
    /\ get_payment (Some 2%nat) 30 (Demo.db [] [Demo.transfer])
       = Sent 200 true "" (Some payment).
Proof.
  destruct (get_payment_shows_to_parties (Some 2%nat) 30%nat
              (Demo.db [] [Demo.transfer]) eq_refl)
    as (u & p & H1 & H2 & H3 & _).
  exists u, p. split; [exact H1|]. split; [exact H2 | exact H3].
Defined.

(** ** One request at a time *)







(** ** Reading a result *)

Lemma filter_length_le {A : Type} (f : A -> bool) (l : list A) :
  (List.length (filter f l) <= List.length l)%nat.
Proof.
  induction l as [|x rest IH]; simpl; [lia|].
  destruct (f x); simpl; lia.
Qed.

(** X16: The analytics of a result count each answer once, as correct or as
    incorrect, and give an accuracy between 0 and 100. *)
Theorem analytics_counts_add_up r :
  (correctAnswers (getAnalytics r) + incorrectAnswers (getAnalytics r)
   = totalQuestions (getAnalytics r))%nat
  /\ totalQuestions (getAnalytics r) = List.length (r_answers r)
  /\ 0 <= accuracy (getAnalytics r) <= 100.
Proof.
  unfold getAnalytics.
  cbn [correctAnswers incorrectAnswers totalQuestions accuracy].
  pose proof (filter_length_le a_isCorrect (r_answers r)) as Hle.
  split; [lia|]. split; [reflexivity|].
  destruct (0 <? List.length (r_answers r))%nat eqn:E; [|lia].
  apply Nat.ltb_lt in E. apply percent_within; lia.
Qed.

(** X17: GET /api/tests/results/:resultId answers 200 only to a superadmin, to
    the admin who is the instructor of the test's course, or to the
    student the result belongs to. The data are the stored result with its
    analytics and, of the test, the questions as they are stored, the
    correct options and the explanations included, whatever the test's
    showCorrectAnswers says. *)
Theorem get_result_shows_to_parties token id db :
  replied (get_result token id db) = Some 200%nat ->
  exists user result data,
    protect (A := ResultData) db token = Go user
    /\ findResult db id = Some result
    /\ get_result token id db = Sent 200 true "" (Some data)
    /\ rd_result data = result
    /\ rd_analytics data = getAnalytics result
    /\ (forall t,
           findTest db (r_test result) = Some t ->
           rd_test data
           = Some (@t_id Question t, title t, questions t,
                   showCorrectAnswers t))
    /\ (role user = superadmin
        \/ (role user = admin
            /\ exists t course,
                 findTest db (r_test result) = Some t
                 /\ findCourse db (t_course t) = Some course
                 /\ instructor course = u_id user)
        \/ (role user = student /\ r_student result = u_id user)).
Proof.
  unfold get_result.
  destruct (protect db token) as [r|user] eqn:Hp.
  { destruct (protect_refuses _ _ _ Hp) as (c & m & -> & Hc).
    simpl. intros [= E]. lia. }
  destruct (findResult db id) as [result|] eqn:Hf; [|discriminate].
  intros H. exists user, result.
  assert (forall (t : TestOf Question) (o : option (TestOf Question)),
             o = Some t ->
             match o with
             | Some t0 =>
                 Some (@t_id Question t0, title t0, questions t0,
                       showCorrectAnswers t0)
             | None => None
             end
             = Some (@t_id Question t, title t, questions t,
                     showCorrectAnswers t)) as Hshown.
  { intros t o ->. reflexivity. }
  destruct (role user) eqn:Hr.
  - eexists. split; [reflexivity|]. split; [reflexivity|].
    split; [reflexivity|]. simpl.
    split; [reflexivity|]. split; [reflexivity|].
    split; [intros t Ht; now apply Hshown | now left].
  - destruct (findTest db (r_test result)) as [t|] eqn:Ht;
      [|simpl in H; discriminate H].
    destruct (populateCourse db (t_course t)) as [ref|] eqn:Hc;
      [|simpl in H; discriminate H].
    destruct (populateCourse_found _ _ _ Hc) as (c & Hfc & _ & Hins).
    destruct (sameId (cr_instructor ref) (u_id user)) eqn:E;
      [|simpl in H; discriminate H].
    eexists. split; [reflexivity|]. split; [reflexivity|].
    split; [reflexivity|]. simpl.
    split; [reflexivity|]. split; [reflexivity|].
    split; [intros t0 [= <-]; reflexivity|].
    right. left. split; [reflexivity|]. exists t, c.
    split; [reflexivity|]. split; [exact Hfc|].
    apply sameId_true in E. congruence.
  - destruct (populateUser db (r_student result)) as [ref|] eqn:Hu;
      [|simpl in H; discriminate H].
    destruct (populateUser_found _ _ _ Hu) as (u & _ & Hid).
    destruct (sameId (ur_id ref) (u_id user)) eqn:E;
      [|simpl in H; discriminate H].
    eexists. split; [reflexivity|]. split; [reflexivity|].
    split; [reflexivity|]. simpl.
    split; [reflexivity|]. split; [reflexivity|].
    split; [intros t Ht; now apply Hshown|].
    right. right. split; [reflexivity|].
    apply sameId_true in E. congruence.
Qed.

Lemma get_result_shows_to_parties_witness :
  exists data,
    get_result (Some 1%nat) 500 (Ledger.attempted [])
    = Sent 200 true "" (Some data)
    /\ rd_test data
       = Some (20%nat, "Weekly quiz", Demo.five, true).
Proof.
  destruct (get_result_shows_to_parties (Some 1%nat) 500%nat
              (Ledger.attempted []) eq_refl)
    as (u & r & d & _ & Hr & Hd & _ & _ & Ht & _).
  exists d. split; [exact Hd|].
  injection Hr as <-. exact (Ht _ eq_refl).
Defined.

(** ** The votes of a post *)

Lemma existsb_filter_other (u : ObjectId) (l : list ObjectId) :
  existsb (fun id => sameId id u) (filter (fun id => negb (sameId id u)) l)
  = false.
Proof.
  induction l as [|x rest IH]; simpl; [reflexivity|].
  destruct (sameId x u) eqn:E; simpl; [exact IH | now rewrite E].
Qed.

Lemma existsb_filter_same (u other : ObjectId) (l : list ObjectId) :
  other <> u ->
  existsb (fun id => sameId id other)
    (filter (fun id => negb (sameId id u)) l)
  = existsb (fun id => sameId id other) l.
Proof.
  intros Hne. induction l as [|x rest IH]; simpl; [reflexivity|].
  destruct (sameId x u) eqn:E; simpl.
  - apply sameId_true in E. subst x.
    rewrite (sameId_false _ _ (not_eq_sym Hne)). exact IH.
  - now rewrite IH.
Qed.

Lemma existsb_pushed (u other : ObjectId) (l : list ObjectId) :
  existsb (fun id => sameId id other) (l ++ [u])
  = existsb (fun id => sameId id other) l || sameId u other.
Proof. rewrite existsb_app. simpl. now rewrite orb_false_r. Qed.

Lemma count_filter_other (u : ObjectId) (l : list ObjectId) :
  count_occ Nat.eq_dec (filter (fun id => negb (sameId id u)) l) u = 0%nat.
Proof.
  induction l as [|x rest IH]; simpl; [reflexivity|].
  destruct (sameId x u) eqn:E; simpl; [exact IH|].
  destruct (Nat.eq_dec x u) as [->|_]; [|exact IH].
  unfold sameId in E. now rewrite Nat.eqb_refl in E.
Qed.

Lemma filter_other_again (u : ObjectId) (l : list ObjectId) :
  filter (fun id => negb (sameId id u))
    (filter (fun id => negb (sameId id u)) l)
  = filter (fun id => negb (sameId id u)) l.
Proof.
  induction l as [|x rest IH]; simpl; [reflexivity|].
  destruct (sameId x u) eqn:E; simpl; [exact IH|].
  now rewrite E, IH.
Qed.

Lemma filter_other_pushed (u : ObjectId) (l : list ObjectId) :
  filter (fun id => negb (sameId id u))
    (filter (fun id => negb (sameId id u)) l ++ [u])
  = filter (fun id => negb (sameId id u)) l.
Proof.
  rewrite filter_app, filter_other_again. simpl.
  unfold sameId at 2. rewrite Nat.eqb_refl. simpl. apply app_nil_r.
Qed.

(** X18: After toggleVote the user's vote is the one asked for, or none for
    'remove', whatever it was before; every other user's vote is what it
    was; and the user is listed at most once in the two arrays
    together. *)
Theorem toggleVote_sets_the_vote post userId voteType :
  getUserVote (toggleVote post userId voteType) userId = voteType
  /\ (forall other,
         other <> userId ->
         getUserVote (toggleVote post userId voteType) other
         = getUserVote post other)
  /\ (count_occ Nat.eq_dec
        (upvotes (toggleVote post userId voteType)
         ++ downvotes (toggleVote post userId voteType)) userId
      <= 1)%nat.
Proof.
  split; [|split].
  - unfold getUserVote, toggleVote.
    destruct voteType as [[|]|]; simpl;
      rewrite ?existsb_pushed, ?existsb_filter_other; simpl;
      unfold sameId; rewrite ?Nat.eqb_refl; reflexivity.
  - intros other Hne. unfold getUserVote, toggleVote.
    destruct voteType as [[|]|]; simpl;
      rewrite ?existsb_pushed, !(existsb_filter_same _ _ _ Hne),
        ?(sameId_false _ _ (not_eq_sym Hne)), ?orb_false_r; reflexivity.
  - unfold toggleVote.
    destruct voteType as [[|]|]; simpl;
      rewrite !count_occ_app, !count_filter_other; simpl;
      destruct (Nat.eq_dec userId userId); lia.
Qed.

Lemma toggleVote_sets_the_vote_witness :
  getUserVote (toggleVote Ledger.board 1 (Some downvote)) 2 = Some upvote.
Proof.
  destruct (toggleVote_sets_the_vote Ledger.board 1%nat (Some downvote))
    as (_ & Hother & _).
  rewrite (Hother 2%nat); [reflexivity | discriminate].
Defined.

(** X19: Sending the same vote again changes nothing, and a vote counts one in
    netVotes: an upvote leaves netVotes one above, a downvote one below,
    what 'remove' leaves. *)
Theorem toggleVote_counts_once post userId voteType :
  toggleVote (toggleVote post userId voteType) userId voteType
  = toggleVote post userId voteType
  /\ netVotes (toggleVote post userId voteType)
     = netVotes (toggleVote post userId None)
       + match voteType with
         | Some upvote => 1
         | Some downvote => -1
         | None => 0
         end.
Proof.
  split.
  - unfold toggleVote. destruct voteType as [[|]|]; simpl;
      rewrite ?filter_other_pushed, ?filter_other_again; reflexivity.
  - unfold netVotes, toggleVote. destruct voteType as [[|]|]; simpl;
      rewrite ?length_app; simpl; lia.
Qed.

(** ** The scope of a payment history *)

(** X20: The history of a student holds payments of that student only; the
    history of an admin who names no course holds only payments for
    courses the admin instructs. *)
Theorem history_is_scoped db user params p :
  In p (payments_matching db (history_query db user params)) ->
  (role user = student -> p_student p = u_id user)
  /\ (role user = admin ->
      h_courseId params = None ->
      exists course,
        In course (courses db)
        /\ c_id course = p_course p
        /\ instructor course = u_id user).
Proof.
  unfold payments_matching. intros Hin. apply filter_In in Hin as [_ Hm].
  unfold query_matches, history_query in Hm. simpl in Hm.
  apply andb_prop in Hm as [Hm _]. apply andb_prop in Hm as [Hm _].
  apply andb_prop in Hm as [Hs Hc].
  split.
  - intros Hr. rewrite Hr in Hs. simpl in Hs. now apply sameId_true.
  - intros Hr Hnone. rewrite Hr, Hnone in Hc. simpl in Hc.
    apply existsb_exists in Hc as (cid & Hin & Hsame).
    apply sameId_true in Hsame. unfold coursesOf in Hin.
    apply in_map_iff in Hin as (c & Hid & Hc).
    apply filter_In in Hc as [Hc Hins]. apply sameId_true in Hins.
    exists c. split; [exact Hc|]. split; [congruence | exact Hins].
Qed.

Lemma history_is_scoped_witness :
  p_student Demo.transfer = u_id Demo.bob.
Proof.
  refine (proj1 (history_is_scoped
                   (Demo.db [] [Demo.card; Demo.transfer]) Demo.bob
                   {| h_status := None; h_paymentMethod := None;
                      h_courseId := None |}
                   Demo.transfer _) eq_refl).
  vm_compute. left. reflexivity.
Defined.

(** X21: An admin who names a course gets the query a superadmin gets: the
    course filter is assigned over the restriction to the admin's own
    courses, so the history holds the payments of the named course
    whoever instructs it. *)
Theorem history_by_course_is_unscoped db user su params id :
  role user = admin ->
  role su = superadmin ->
  h_courseId params = Some id ->
  history_query db user params = history_query db su params
  /\ payments_matching db (history_query db user params)
     = filter
         (fun p =>
            sameId (p_course p) id
            && match h_status params with
               | None => true
               | Some (Some st) => PaymentStatus_eqb (status p) st
               | Some None => false
               end
            && match h_paymentMethod params with
               | None => true
               | Some (Some m) => PaymentMethod_eqb (paymentMethod p) m
               | Some None => false
               end)
         (payments db).
Proof.
  intros Hr Hsu Hid. unfold payments_matching, history_query.
  rewrite Hr, Hsu, Hid. simpl. split; [reflexivity|].
  apply filter_ext. intros p. unfold query_matches. reflexivity.
Qed.

Lemma history_by_course_is_unscoped_witness :
  payments_matching (Demo.db [] [Demo.card; Demo.transfer])
    (history_query (Demo.db [] [Demo.card; Demo.transfer])
       (Demo.person 6 admin [])
       {| h_status := None; h_paymentMethod := None;
          h_courseId := Some 10%nat |})
  = [Demo.card; Demo.transfer].
Proof.
  refine (eq_trans
            (proj2 (history_by_course_is_unscoped
                      (Demo.db [] [Demo.card; Demo.transfer])
                      (Demo.person 6 admin []) Demo.root
                      {| h_status := None; h_paymentMethod := None;
                         h_courseId := Some 10%nat |}
                      10%nat eq_refl eq_refl eq_refl)) _).
  reflexivity.
Defined.

(** ** What a purchase opens *)

Lemma hasPurchasedCourse_any user courseId :
  hasPurchasedCourse user courseId = true ->
  hasPurchasedAnyCourse user = true.
Proof.
  unfold hasPurchasedCourse, hasPurchasedAnyCourse.
  induction (enrolledCourses user) as [|e rest IH]; simpl; [discriminate|].
  intros H. apply orb_prop in H as [H|H].
  - apply andb_prop in H as [_ H]. now rewrite H.
  - rewrite (IH H). apply orb_true_r.
Qed.

(** X22: A student whose offline payment has been approved passes, with the
    documents the approval stored, the checks that ask for a purchase:
    canUserAccess of the course, hasPurchasedAnyCourse and
    requireCoursePurchase, the guard of the forum. *)
Theorem approved_student_enters_course_and_forum
    now token id db payment learner :
  replied (fst (put_approve now token id db)) = Some 200%nat ->
  findPayment db id = Some payment ->
  findUser db (p_student payment) = Some learner ->
  role learner = student ->
  exists learner' course',
    findUser (snd (put_approve now token id db)) (p_student payment)
    = Some learner'
    /\ findCourse (snd (put_approve now token id db)) (p_course payment)
       = Some course'
    /\ canUserAccess course' (Some learner') = true
    /\ hasPurchasedAnyCourse learner' = true
    /\ requireCoursePurchase (A := unit) learner' = Go tt.
Proof.
  intros H200 Hp Hl Hrole.
  destruct (put_approve_grants now token id db H200)
    as (p & s & c & s' & c' & H1 & _ & _ & H4 & _ & H6 & H7 & H8 & _ & H10).
  rewrite Hp in H1. injection H1 as <-.
  rewrite Hl in H4. injection H4 as <-.
  rewrite Hrole in H10.
  pose proof (hasPurchasedCourse_any _ _ H7) as Hany.
  exists s', c'. split; [exact H6|]. split; [exact H8|].
  split; [|split; [exact Hany|]].
  - unfold canUserAccess. rewrite H10. simpl.
    destruct (sameId (instructor c') (u_id s')); [reflexivity|].
    now rewrite (findCourse_id _ _ _ H8).
  - unfold requireCoursePurchase. rewrite H10.
    unfold hasPurchasedAnyCourse in Hany. now rewrite Hany.
Qed.

Lemma approved_student_enters_course_and_forum_witness :
  exists learner',
    findUser (snd (put_approve 5000 (Some 3%nat) 30
                     (Demo.db [] [Demo.transfer]))) 2
    = Some learner'
    /\ requireCoursePurchase (A := unit) learner' = Go tt.
Proof.
  destruct (approved_student_enters_course_and_forum 5000 (Some 3%nat) 30%nat
              (Demo.db [] [Demo.transfer]) Demo.transfer Demo.bob
              eq_refl eq_refl eq_refl eq_refl)
    as (l & c & Hl & _ & _ & _ & Hforum).
  exists l. split; [exact Hl | exact Hforum].
Defined.

(** ** Enrollment entries under approval *)

Lemma Forall_replace_first {A : Type} (P : A -> Prop) same d (l : list A) :
  P d -> Forall P l -> Forall P (replace_first same d l).
Proof.
  intros Hd Hl. induction Hl as [|x rest Hx Hrest IH]; simpl; [constructor|].
  destruct (same x); constructor; assumption.
Qed.

Lemma complete_first_courses courseId es :
  map e_course (complete_first courseId es) = map e_course es.
Proof.
  induction es as [|e rest IH]; simpl; [reflexivity|].
  destruct (sameId (e_course e) courseId); simpl; [reflexivity|].
  now rewrite IH.
Qed.

Lemma NoDup_pushed (l : list ObjectId) (x : ObjectId) :
  NoDup l -> ~ In x l -> NoDup (l ++ [x]).
Proof.
  intros Hnd Hnotin. induction Hnd as [|y rest Hy Hrest IH]; simpl.
  - constructor; [intros [] | constructor].
  - constructor.
    + intros Hin. apply in_app_or in Hin as [Hin|[->|[]]];
        [now apply Hy | apply Hnotin; now left].
    + apply IH. intros Hin. apply Hnotin. now right.
Qed.

Lemma enroll_offline_keeps_once now db p :
  Forall enrolled_once (users db) ->
  Forall enrolled_once (users (snd (enroll_offline now db p))).
Proof.
  intros Hall. unfold enroll_offline.
  destruct (populateUser db (p_student p)) as [ref|]; [|exact Hall].
  destruct (findUser db (ur_id ref)) as [u|] eqn:Hu; [|exact Hall].
  destruct (populateCourse db (p_course p)) as [c|]; [|exact Hall].
  assert (enrolled_once u) as Hu1.
  { apply find_some in Hu as [Hin _].
    now apply (proj1 (Forall_forall _ _) Hall). }
  destruct (find _ (enrolledCourses u)) as [e|] eqn:He; cbn [snd].
  - apply Forall_replace_first; [|exact Hall].
    unfold enrolled_once. simpl. now rewrite complete_first_courses.
  - assert (users (incEnrollmentCount
                     (saveUser db
                        (set_enrolledCourses u
                           (enrolledCourses u
                            ++ [newEnrollment (cr_id c) offline now])))
                     (cr_id c))
            = users (saveUser db
                       (set_enrolledCourses u
                          (enrolledCourses u
                           ++ [newEnrollment (cr_id c) offline now])))) as ->.
    { unfold incEnrollmentCount. now destruct (findCourse _ (cr_id c)). }
    apply Forall_replace_first; [|exact Hall].
    unfold enrolled_once. simpl. rewrite map_app. simpl.
    apply NoDup_pushed; [exact Hu1|].
    intros Hin. apply in_map_iff in Hin as (e & Hid & Hin).
    pose proof (find_none _ _ He e Hin) as Hno. simpl in Hno.
    rewrite Hid in Hno. unfold sameId in Hno.
    now rewrite Nat.eqb_refl in Hno.
Qed.

(** X23: When no user has two enrollment entries for one course, none has
    after an approval: the approval completes the entry the student has
    for the course or, when there is none, appends one. *)
Theorem approval_keeps_enrolled_once now token id db :
  Forall enrolled_once (users db) ->
  Forall enrolled_once (users (snd (put_approve now token id db))).
Proof.
  intros Hall. unfold put_approve.
  destruct (protect db token) as [r|u]; [exact Hall|].
  destruct (requireAdmin u) as [r|ok]; [exact Hall|].
  destruct (findPayment db id) as [p|]; [|exact Hall].
  destruct (may_decide db u p) as [r|[|]]; try exact Hall.
  destruct (negb (PaymentMethod_eqb (paymentMethod p) offline));
    [exact Hall|].
  destruct (negb (PaymentStatus_eqb (status p) pending)); [exact Hall|].
  apply enroll_offline_keeps_once. exact Hall.
Qed.

Lemma approval_keeps_enrolled_once_witness :
  Forall enrolled_once
    (users (snd (put_approve 5000 (Some 4%nat) 30
                   (Demo.db [] [Demo.transfer])))).
Proof.
  apply (approval_keeps_enrolled_once 5000 (Some 4%nat) 30%nat
           (Demo.db [] [Demo.transfer])).
  repeat constructor; simpl; intuition.
Defined.

(** ** An invite code registers one admin *)

Lemma find_after_replace {A : Type} (f g : A -> bool) (y x : A)
    (l : list A) :
  find f l = Some x -> g x = true -> f y = true ->
  find f (replace_first g y l) = Some y.
Proof.
  intros Hf Hg Hy.
  induction l as [|h rest IH]; simpl in *; [discriminate|].
  destruct (g h) eqn:G; simpl.
  - now rewrite Hy.
  - destruct (f h) eqn:F.
    + injection Hf as ->. congruence.
    + now apply IH.
Qed.

Lemma find_pushed {A : Type} (f : A -> bool) (l : list A) (x : A) :
  find f l = None -> f x = true -> find f (l ++ [x]) = Some x.
Proof.
  intros Hnone Hx. induction l as [|h rest IH]; simpl in *.
  - now rewrite Hx.
  - destruct (f h); [discriminate | now apply IH].
Qed.

(** What a registration answered 201 has found and written. *)
Lemma register_admin_written emailMatches now req reg :
  replied (fst (register_admin emailMatches now req reg)) = Some 201%nat ->
  exists invite,
    find (fun i => String.eqb (i_code i) (ra_inviteCode req)) (invites reg)
    = Some invite
    /\ isValid now invite = true
    /\ register_admin emailMatches now req reg
       = (let user :=
            {| u_id := nextId (store reg); name := ra_name req;
               email := ra_email req; role := admin; u_isActive := true;
               enrolledCourses := [] |} in
          (Sent 201 true "Admin registered successfully"
             (Some {| tr_token := u_id user; tr_user := user |}),
           {| store :=
                fresh (with_users (store reg) (users (store reg) ++ [user]));
              invites :=
                replace_first (fun i => sameId (i_id i) (i_id invite))
                  (markAsUsed invite (u_id user) now) (invites reg) |})).
Proof.
  unfold register_admin.
  destruct (negb (ra_valid req)); [discriminate|].
  destruct (find _ (users (store reg))); [discriminate|].
  destruct (find _ (invites reg)) as [invite|]; [|discriminate].
  destruct (isValid now invite) eqn:Hv; simpl; [|discriminate].
  destruct (match i_email invite with Some _ => _ | None => _ end);
    [discriminate|].
  destruct (negb (emailMatches (ra_email req))); [discriminate|].
  intros _. exists invite. now repeat split.
Qed.

(** X24: A registration answered 201 has used a valid invite and appended one
    user, an admin with the email of the request. A registration served
    next with the same code, at any time, with any name and email, is
    answered 400 and changes nothing. *)
Theorem invite_registers_once emailMatches now req reg :
  replied (fst (register_admin emailMatches now req reg)) = Some 201%nat ->
  exists invite user,
    find (fun i => String.eqb (i_code i) (ra_inviteCode req)) (invites reg)
    = Some invite
    /\ isValid now invite = true
    /\ users (store (snd (register_admin emailMatches now req reg)))
       = users (store reg) ++ [user]
    /\ role user = admin
    /\ email user = ra_email req
    /\ (forall now' again,
           ra_inviteCode again = ra_inviteCode req ->
           exists message,
             register_admin emailMatches now' again
               (snd (register_admin emailMatches now req reg))
             = (refuse 400 message,
                snd (register_admin emailMatches now req reg))).
Proof.
  intros H201.
  destruct (register_admin_written _ _ _ _ H201) as (invite & Hf & Hv & ->).
  cbn zeta. cbn [snd store users fresh with_users].
  exists invite. eexists. split; [exact Hf|]. split; [exact Hv|].
  split; [reflexivity|]. split; [reflexivity|]. split; [reflexivity|].
  intros now' again Hcode.
  unfold register_admin at 1. cbn [store invites users fresh with_users u_id].
  destruct (negb (ra_valid again)); [eexists; reflexivity|].
  destruct (find _ (users (store reg) ++ _)); [eexists; reflexivity|].
  rewrite Hcode.
  rewrite (find_after_replace
             (fun i => String.eqb (i_code i) (ra_inviteCode req))
             (fun i => sameId (i_id i) (i_id invite))
             (markAsUsed invite (nextId (store reg)) now) invite
             (invites reg) Hf).
  - unfold isValid at 1. simpl. eexists; reflexivity.
  - apply Nat.eqb_refl.
  - apply find_some in Hf as [_ Hc]. exact Hc.
Qed.

(** X25: The token a registration answers 201 with, when the id given to the
    new user is held by no other, is accepted by protect as the new
    user's, who passes requireAdmin. *)
Theorem registration_token_is_an_admin emailMatches now req reg :
  replied (fst (register_admin emailMatches now req reg)) = Some 201%nat ->
  findUser (store reg) (nextId (store reg)) = None ->
  exists data,
    fst (register_admin emailMatches now req reg)
    = Sent 201 true "Admin registered successfully" (Some data)
    /\ protect (A := unit)
         (store (snd (register_admin emailMatches now req reg)))
         (Some (tr_token data))
       = Go (tr_user data)
    /\ requireAdmin (A := unit) (tr_user data) = Go tt.
Proof.
  intros H201 Hfresh.
  destruct (register_admin_written _ _ _ _ H201) as (invite & _ & _ & ->).
  cbn zeta. cbn [fst snd store].
  eexists. split; [reflexivity|]. cbn [tr_token tr_user u_id].
  split; [|reflexivity].
  unfold protect, findUser. cbn [users fresh with_users].
  rewrite find_pushed; [reflexivity | exact Hfresh | apply Nat.eqb_refl].
Qed.

Lemma invite_registers_once_witness :
  exists message,
    register_admin (fun _ => true) 9000 (Ledger.applicant "eve@example.org")
      (snd (register_admin (fun _ => true) 5000
              (Ledger.applicant "dana@example.org") Ledger.office))
    = (refuse 400 message,
       snd (register_admin (fun _ => true) 5000
              (Ledger.applicant "dana@example.org") Ledger.office)).
Proof.
  destruct (invite_registers_once (fun _ => true) 5000
              (Ledger.applicant "dana@example.org") Ledger.office eq_refl)
    as (i & u & _ & _ & _ & _ & _ & Hagain).
  exact (Hagain 9000 (Ledger.applicant "eve@example.org") eq_refl).
Defined.

Lemma registration_token_is_an_admin_witness :
  exists data,
    fst (register_admin (fun _ => true) 5000
           (Ledger.applicant "dana@example.org") Ledger.office)
    = Sent 201 true "Admin registered successfully" (Some data)
    /\ requireAdmin (A := unit) (tr_user data) = Go tt.
Proof.
  destruct (registration_token_is_an_admin (fun _ => true) 5000
              (Ledger.applicant "dana@example.org") Ledger.office
              eq_refl eq_refl)
    as (d & Hd & _ & Ha).
  exists d. split; [exact Hd | exact Ha].
Defined.

(** ** A created test *)

Lemma first_without_correct_none i qs :
  first_without_correct i qs = None ->
  forallb (fun q => existsb (fun opt => truthy (no_isCorrect opt))
                      (nq_options q)) qs = true.
Proof.
  revert i. induction qs as [|q rest IH]; intros i; simpl; [reflexivity|].
  destruct (existsb _ (nq_options q)); [|discriminate].
  intros H. simpl. now apply (IH (S i)).
Qed.

Lemma sum_marks_at_least (qs : list Question) :
  forallb (fun q => 1 <=? marks q) qs = true ->
  Z.of_nat (List.length qs) <= sum_marks qs.
Proof.
  induction qs as [|q rest IH]; intros H.
  - unfold sum_marks. simpl. lia.
  - simpl in H. apply andb_prop in H as [Hq Hrest].
    apply Z.leb_le in Hq. rewrite sum_marks_cons.
    specialize (IH Hrest). simpl List.length. lia.
Qed.

(** Below 2^53 the sum of the doubles is the sum. *)
Lemma sum_marks_doubles_from (qs : list Question) (a : Z) :
  Forall (fun q => 0 <= marks q) qs ->
  0 <= a ->
  a + sum_marks qs <= 2 ^ 53 ->
  fold_left (fun total q => plus total (marks q)) qs a = a + sum_marks qs.
Proof.
  revert a. induction qs as [|q rest IH]; intros a Hpos Ha Hle.
  - change (sum_marks []) with 0. simpl. lia.
  - inversion Hpos as [|? ? Hq Hrest]; subst.
    rewrite sum_marks_cons in *. simpl.
    pose proof (sum_marks_nonneg rest Hrest) as Hn.
    unfold plus at 2. rewrite nearest_double_exact by lia.
    rewrite IH; [lia | assumption | lia | lia].
Qed.

Lemma sum_marks_doubles_exact (qs : list Question) :
  Forall (fun q => 0 <= marks q) qs ->
  sum_marks qs <= 2 ^ 53 ->
  sum_marks_doubles qs = sum_marks qs.
Proof.
  intros Hpos Hle. unfold sum_marks_doubles.
  now rewrite sum_marks_doubles_from by (try assumption; lia).
Qed.

(** The cast keeps the number of the questions and their marks. *)
Lemma cast_all_marks nqs : forall qs,
  cast_all cast_question nqs = Some qs ->
  map marks qs = map nq_marks nqs.
Proof.
  induction nqs as [|nq rest IH]; simpl; intros qs.
  - now intros [= <-].
  - unfold cast_question at 1.
    destruct (cast_all cast_option (nq_options nq)) as [opts|]; [|discriminate].
    destruct (cast_all cast_question rest) as [qs'|]; [|discriminate].
    intros [= <-]. simpl. now rewrite (IH qs').
Qed.

Lemma forallb_marks (nqs : list NewQuestion) (qs : list Question) :
  map marks qs = map nq_marks nqs ->
  forallb (fun q => 1 <=? nq_marks q) nqs = true ->
  forallb (fun q => 1 <=? marks q) qs = true.
Proof.
  revert qs. induction nqs as [|nq rest IH]; intros [|q qs]; simpl;
    try discriminate; [reflexivity|].
  intros [= Hq Hrest] H. apply andb_prop in H as [H1 H2].
  now rewrite Hq, H1, (IH qs).
Qed.

Lemma forallb_weaken {A : Type} (f g : A -> bool) (l : list A) :
  (forall x, f x = true -> g x = true) ->
  forallb f l = true -> forallb g l = true.
Proof.
  intros Hfg. induction l as [|x rest IH]; simpl; [reflexivity|].
  intros H. apply andb_prop in H as [Hx Hrest].
  now rewrite (Hfg x Hx), (IH Hrest).
Qed.

(** What a creation answered 201 has checked and written. *)
Lemma create_test_written token body db :
  replied (fst (create_test token body db)) = Some 201%nat ->
  exists user course test,
    protect (A := TestData Question) db token = Go user
    /\ findCourse db (new_courseId body) = Some course
    /\ (role user = superadmin
        \/ (role user = admin /\ instructor course = u_id user))
    /\ create_body_valid body = true
    /\ first_without_correct 0 (new_questions body) = None
    /\ snd (create_test token body db)
       = fresh (with_tests db (tests db ++ [test]))
    /\ @t_id Question test = nextId db
    /\ isPublished test = false
    /\ createdBy test = u_id user
    /\ t_course test = new_courseId body
    /\ title test = trim (new_title body)
    /\ cast_all cast_question (new_questions body) = Some (questions test)
    /\ totalMarks test = sum_marks (questions test).
Proof.
  unfold create_test.
  destruct (protect db token) as [r|user] eqn:Hp.
  { destruct (protect_refuses _ _ _ Hp) as (c & m & -> & Hc).
    simpl. intros [= E]. lia. }
  destruct (requireAdmin user) as [r|ok] eqn:Ha.
  { unfold requireAdmin in Ha. destruct (role user); try discriminate.
    injection Ha as <-. discriminate. }
  destruct (create_body_valid body) eqn:Hv; simpl; [|discriminate].
  destruct (findCourse db (new_courseId body)) as [course|] eqn:Hc;
    [|discriminate].
  destruct (negb match role user with superadmin => true | _ => false end
            && negb (sameId (instructor course) (u_id user))) eqn:Hauth;
    [discriminate|].
  destruct (first_without_correct 0 (new_questions body)) eqn:Hq;
    [discriminate|].
  destruct (cast_all cast_question (new_questions body)) as [qs|] eqn:Hcast;
    [|discriminate].
  destruct (negb (create_schema_valid body qs)); [discriminate|].
  intros _. exists user, course. eexists.
  split; [reflexivity|]. split; [reflexivity|].
  split.
  { unfold requireAdmin in Ha.
    destruct (role user) eqn:Hr; [now left | right | discriminate].
    simpl in Hauth. apply negb_false_iff, sameId_true in Hauth. now split. }
  split; [reflexivity|]. split; [reflexivity|].
  cbn [snd]. split; [reflexivity|].
  unfold pre_save_totalMarks. cbn [questions].
  destruct qs as [|q rest]; simpl; now repeat split.
Qed.

(** X26: A test created by POST /api/tests is stored unpublished under the
    next id, for a course its creator instructs unless the creator is a
    superadmin.  Each question of the body has an option whose isCorrect
    is truthy as it was sent; the stored questions are the body's with
    each isCorrect cast to a boolean (a truthy string such as 'no' is
    stored false) and the texts trimmed.  The marks of the questions
    adding up to at most 2^53, totalMarks is their sum, which is also
    what the additions of doubles give, and at least their number.  A
    submission to the test that is served next, whoever sends it and
    whenever, is refused and stores nothing. *)
Theorem created_test_is_closed token body db :
  replied (fst (create_test token body db)) = Some 201%nat ->
  findTest db (nextId db) = None ->
  (forall qs,
      cast_all cast_question (new_questions body) = Some qs ->
      sum_marks qs <= 2 ^ 53) ->
  exists user course test,
    protect (A := TestData Question) db token = Go user
    /\ findCourse db (new_courseId body) = Some course
    /\ (role user = superadmin
        \/ (role user = admin /\ instructor course = u_id user))
    /\ findTest (snd (create_test token body db)) (nextId db) = Some test
    /\ isPublished test = false
    /\ createdBy test = u_id user
    /\ forallb (fun q => existsb (fun opt => truthy (no_isCorrect opt))
                           (nq_options q))
         (new_questions body) = true
    /\ cast_all cast_question (new_questions body) = Some (questions test)
    /\ totalMarks test = sum_marks (questions test)
    /\ totalMarks test = sum_marks_doubles (questions test)
    /\ Z.of_nat (List.length (questions test)) <= totalMarks test
    /\ (forall now req,
           s_testId req = nextId db ->
           exists code message,
             submit now req (snd (create_test token body db))
             = (refuse code message, snd (create_test token body db))
             /\ (400 <= code)%nat).
Proof.
  intros H201 Hfresh Hbound.
  destruct (create_test_written token body db H201)
    as (user & course & test & Hp & Hc & Hauth & Hv & Hq & Hsnd & Hid & Hpub
        & Hby & Hco & Hti & Hqs & Htotal).
  assert (findTest (snd (create_test token body db)) (nextId db) = Some test)
    as Hfound.
  { rewrite Hsnd. unfold findTest. cbn [tests fresh with_tests].
    apply find_pushed; [exact Hfresh|].
    rewrite Hid. apply Nat.eqb_refl. }
  assert (Hmarks : forallb (fun q => 1 <=? marks q) (questions test) = true).
  { apply (forallb_marks (new_questions body)); [now apply cast_all_marks|].
    unfold create_body_valid in Hv. apply andb_prop in Hv as [_ Hv].
    revert Hv. apply forallb_weaken. intros q Hq'.
    now apply andb_prop in Hq' as [_ Hq']. }
  exists user, course, test.
  split; [exact Hp|]. split; [exact Hc|]. split; [exact Hauth|].
  split; [exact Hfound|]. split; [exact Hpub|]. split; [exact Hby|].
  split; [now apply (first_without_correct_none 0)|].
  split; [exact Hqs|].
  split; [exact Htotal|].
  split.
  { rewrite Htotal. symmetry. apply sum_marks_doubles_exact.
    - apply Forall_forall. intros q Hin.
      rewrite forallb_forall in Hmarks. specialize (Hmarks q Hin).
      apply Z.leb_le in Hmarks. lia.
    - now apply Hbound. }
  split.
  { rewrite Htotal. now apply sum_marks_at_least. }
  intros now req Hreq. unfold submit.
  destruct (submit_user (snd (create_test token body db)) req)
    as [r|student'] eqn:Hu.
  { destruct (submit_user_refuses _ _ _ Hu) as (code & msg & -> & Hcode).
    now exists code, msg. }
  unfold submit_test. rewrite Hreq.
  destruct (findTest (snd (create_test token body db)) (nextId db))
    as [t|] eqn:Ht; [|discriminate Hfound].
  assert (t = test) as -> by congruence.
  rewrite Hpub. simpl. exists 403%nat. eexists. split; [reflexivity | lia].
Qed.

Lemma created_test_is_closed_witness :
  exists test,
    findTest (snd (create_test (Some 4%nat) Ledger.paper (Demo.db [] [])))
      1000
    = Some test
    /\ map (fun q => map isCorrect (options q)) (questions test)
       = [[true; false]; [true; false]]
    /\ map question (questions test)
       = ["What bends light?"; "What splits it?"]
    /\ totalMarks test = 5
    /\ exists code message,
         submit 5000 (Demo.sheet 1 1000 [Demo.pick 200; Demo.pick 210])
           (snd (create_test (Some 4%nat) Ledger.paper (Demo.db [] [])))
         = (refuse code message,
            snd (create_test (Some 4%nat) Ledger.paper (Demo.db [] [])))
         /\ (400 <= code)%nat.
Proof.
  destruct (created_test_is_closed (Some 4%nat) Ledger.paper (Demo.db [] [])
              eq_refl eq_refl)
    as (u & c & t & _ & _ & _ & Hfound & _ & _ & _ & Hcast & Htotal & _ & _
        & Hsubmit).
  - intros qs Hqs. vm_compute in Hqs. injection Hqs as <-.
    vm_compute. discriminate.
  - exists t. split; [exact Hfound|].
    rewrite Htotal. remember (questions t) as qs eqn:Eqs.
    vm_compute in Hcast. injection Hcast as <-.
    split; [reflexivity|]. split; [reflexivity|]. split; [reflexivity|].
    exact (Hsubmit 5000 (Demo.sheet 1 1000 [Demo.pick 200; Demo.pick 210])
             eq_refl).
Defined.

(** A question is stored without a correct option when the only truthy
    isCorrect of the body is a string that the cast takes for false. *)
Example truthy_is_not_cast_true :
  truthy (JsString "no") = true
  /\ castBoolean (JsString "no") = Some false
  /\ truthy (JsString "false") = true
  /\ castBoolean (JsString "false") = Some false
  /\ truthy (JsString "0") = true
  /\ castBoolean (JsString "0") = Some false.
Proof. repeat split. Qed.

(** ** The scope of the listings *)

(** X27: Without a courseId, the tests listed for a student who passes no
    published parameter are published tests of courses the student has
    bought, and the tests listed for an admin are tests of courses the
    admin instructs. *)
Theorem test_list_is_scoped subjectMatches db user params q t :
  list_query (A := unit) db user params = Go q ->
  lp_courseId params = None ->
  In t (tests_matching subjectMatches db q) ->
  (role user = student ->
   lp_published params = None ->
   isPublished t = true /\ hasPurchasedCourse user (t_course t) = true)
  /\ (role user = admin ->
      exists course,
        In course (courses db)
        /\ c_id course = t_course t
        /\ instructor course = u_id user).
Proof.
  intros Hq Hnone Hin. unfold tests_matching in Hin.
  apply filter_In in Hin as [_ Hm]. unfold test_matches in Hm.
  apply andb_prop in Hm as [Hm Hpub]. apply andb_prop in Hm as [Hcourse _].
  unfold list_query in Hq. rewrite Hnone in Hq. split.
  - intros Hr Hall. rewrite Hr, Hall in Hq.
    destruct (forallb _ _); [|discriminate]. injection Hq as <-.
    simpl in Hpub, Hcourse. split.
    + now destruct (isPublished t).
    + apply existsb_exists in Hcourse as (cid & Hin & Hsame).
      apply sameId_true in Hsame.
      apply in_map_iff in Hin as (e & He & Hin).
      apply filter_In in Hin as [Hin Hdone].
      unfold hasPurchasedCourse. apply existsb_exists. exists e.
      split; [exact Hin|]. rewrite Hdone, He, <- Hsame.
      unfold sameId. now rewrite Nat.eqb_refl.
  - intros Hr. rewrite Hr in Hq. injection Hq as <-. simpl in Hcourse.
    apply existsb_exists in Hcourse as (cid & Hin & Hsame).
    apply sameId_true in Hsame. unfold coursesOf in Hin.
    apply in_map_iff in Hin as (c & Hid & Hc).
    apply filter_In in Hc as [Hc Hins]. apply sameId_true in Hins.
    exists c. split; [exact Hc|]. split; [congruence | exact Hins].
Qed.

Lemma test_list_is_scoped_witness :
  isPublished (Demo.quiz 20 Demo.five 5 2 None) = true
  /\ hasPurchasedCourse Demo.alice 10 = true.
Proof.
  refine (proj1 (test_list_is_scoped (fun _ _ => true)
                   (Demo.db [Demo.quiz 20 Demo.five 5 2 None] [])
                   Demo.alice
                   {| lp_courseId := None; lp_subject := None;
                      lp_published := None |}
                   _ (Demo.quiz 20 Demo.five 5 2 None) eq_refl eq_refl _)
            eq_refl eq_refl).
  vm_compute. left. reflexivity.
Defined.

(** X28: With a courseId and a published parameter the query is the same for
    every role: the two filters are assigned over what the role has set,
    so the listing holds the tests of the named course with the named
    publication state, as they are stored, whether or not the caller has
    bought or instructs the course. *)
Theorem test_list_filters_replace_scope subjectMatches db user params q id b :
  list_query (A := unit) db user params = Go q ->
  lp_courseId params = Some id ->
  lp_published params = Some b ->
  q = {| tq_course := CourseIs id; tq_subject := lp_subject params;
         tq_isPublished := Some b |}
  /\ tests_matching subjectMatches db q
     = filter
         (fun t =>
            sameId (t_course t) id
            && match lp_subject params with
               | Some s => subjectMatches s t
               | None => true
               end
            && Bool.eqb (isPublished t) b)
         (tests db).
Proof.
  intros Hq Hid Hb. unfold list_query in Hq. rewrite Hid, Hb in Hq.
  assert (q = {| tq_course := CourseIs id; tq_subject := lp_subject params;
                 tq_isPublished := Some b |}) as ->.
  { destruct (role user).
    - now injection Hq as <-.
    - now injection Hq as <-.
    - destruct (forallb _ _); [|discriminate]. now injection Hq as <-. }
  split; [reflexivity|].
  unfold tests_matching. apply filter_ext. intros t. reflexivity.
Qed.

Lemma test_list_filters_replace_scope_witness :
  tests_matching (fun _ _ => true)
    (snd (create_test (Some 4%nat) Ledger.paper (Demo.db [] [])))
    {| tq_course := CourseIs 10; tq_subject := None;
       tq_isPublished := Some false |}
  = filter
      (fun t => sameId (t_course t) 10 && true && Bool.eqb (isPublished t) false)
      (tests (snd (create_test (Some 4%nat) Ledger.paper (Demo.db [] [])))).
Proof.
  exact (proj2 (test_list_filters_replace_scope (fun _ _ => true)
                  (snd (create_test (Some 4%nat) Ledger.paper (Demo.db [] [])))
                  Demo.bob
                  {| lp_courseId := Some 10%nat; lp_subject := None;
                     lp_published := Some false |}
                  _ 10%nat false eq_refl eq_refl eq_refl)).
Defined.

(** X29: The results GET /api/tests/:id/results lists are results of that
    test; for a student they are the student's own, whatever studentId
    the request names; an admin gets a listing only for a test of a
    course the admin instructs. *)
Theorem results_list_is_scoped token id studentId db q r :
  results_query (A := unit) token id studentId db = Go q ->
  In r (results_matching db q) ->
  exists user test,
    protect (A := unit) db token = Go user
    /\ findTest db id = Some test
    /\ r_test r = id
    /\ (role user = student -> r_student r = u_id user)
    /\ (role user = admin ->
        exists course,
          findCourse db (t_course test) = Some course
          /\ instructor course = u_id user).
Proof.
  unfold results_query, results_matching. intros Hq Hin.
  apply filter_In in Hin as [_ Hm]. apply andb_prop in Hm as [Ht Hs].
  apply sameId_true in Ht.
  destruct (protect db token) as [x|user] eqn:Hp; [discriminate|].
  destruct (findTest db id) as [test|] eqn:Hf; [|discriminate].
  pose proof (findTest_id _ _ _ Hf) as Hid.
  exists user, test. split; [reflexivity|]. split; [reflexivity|].
  destruct (role user) eqn:Hr.
  - injection Hq as <-. simpl in Ht.
    split; [congruence|]. split; discriminate.
  - destruct (populateCourse db (t_course test)) as [ref|] eqn:Hc;
      [|discriminate].
    destruct (populateCourse_found _ _ _ Hc) as (c & Hfc & _ & Hins).
    destruct (sameId (cr_instructor ref) (u_id user)) eqn:E;
      [|discriminate].
    injection Hq as <-. simpl in Ht.
    split; [congruence|]. split; [discriminate|].
    intros _. exists c. split; [exact Hfc|].
    apply sameId_true in E. congruence.
  - injection Hq as <-. simpl in Ht, Hs.
    split; [congruence|]. split; [|discriminate].
    intros _. now apply sameId_true.
Qed.

Lemma results_list_is_scoped_witness :
  r_student Ledger.attempt = u_id Demo.alice.
Proof.
  destruct (results_list_is_scoped (Some 1%nat) 20%nat (Some 2%nat)
              (Ledger.attempted []) _ Ledger.attempt eq_refl)
    as (u & t & Hu & _ & _ & Hown & _).
  - vm_compute. left. reflexivity.
  - injection Hu as <-. exact (Hown eq_refl).
Defined.

(** ** Settled payments are final *)

Lemma evolves_id a b : evolves a b -> p_id b = p_id a.
Proof. intros [->|(_ & _ & H & _)]; [reflexivity | exact H]. Qed.

Lemma evolves_settled a b : evolves a b -> status a <> pending -> b = a.
Proof. intros [->|(H & _)] Hne; [reflexivity | contradiction]. Qed.

Lemma evolves_trans a b c : evolves a b -> evolves b c -> evolves a c.
Proof.
  intros Hab Hbc. destruct Hab as [->|Hab]; [exact Hbc|].
  destruct Hab as (Hp & Hst & Hrest).
  assert (c = b) as ->.
  { apply (evolves_settled _ _ Hbc). destruct Hst as [-> | ->]; discriminate. }
  right. split; [exact Hp|]. split; [exact Hst | exact Hrest].
Qed.

Lemma Forall2_evolves_ids l l' :
  Forall2 evolves l l' -> map p_id l' = map p_id l.
Proof.
  induction 1 as [|a b l l' Hab _ IH]; simpl; [reflexivity|].
  now rewrite (evolves_id _ _ Hab), IH.
Qed.

Lemma Forall2_evolves_trans l1 l2 l3 :
  Forall2 evolves l1 l2 -> Forall2 evolves l2 l3 -> Forall2 evolves l1 l3.
Proof.
  intros H12. revert l3.
  induction H12 as [|a b l l' Hab _ IH]; intros l3 H23.
  - inversion H23. constructor.
  - inversion H23 as [|? c ? l3' Hbc Hrest]; subst.
    constructor; [now apply (evolves_trans a b c) | now apply IH].
Qed.

Lemma ledger_grows_refl db : ledger_grows db db.
Proof.
  exists (payments db), []. split; [now rewrite app_nil_r|].
  apply Forall2_evolves_refl.
Qed.

Lemma ledger_grows_evolved db db' :
  Forall2 evolves (payments db) (payments db') -> ledger_grows db db'.
Proof.
  intros H. exists (payments db'), []. split; [now rewrite app_nil_r | exact H].
Qed.

Lemma ledger_grows_trans db1 db2 db3 :
  ledger_grows db1 db2 -> ledger_grows db2 db3 -> ledger_grows db1 db3.
Proof.
  intros (olds & news & H2 & H12) (olds' & news' & H3 & H23).
  rewrite H2 in H23.
  apply Forall2_app_inv_l in H23 as (o1 & o2 & Ho1 & Ho2 & ->).
  exists o1, (o2 ++ news'). split; [now rewrite H3, app_assoc|].
  now apply (Forall2_evolves_trans _ olds).
Qed.

Lemma ledger_grows_settled db db' i p :
  ledger_grows db db' ->
  nth_error (payments db) i = Some p ->
  status p <> pending ->
  nth_error (payments db') i = Some p.
Proof.
  intros (olds & news & -> & H) Hi Hst.
  revert i Hi. induction H as [|a b l l' Hab _ IH]; intros i Hi.
  - destruct i; discriminate.
  - destruct i as [|i]; simpl in *.
    + injection Hi as ->. now rewrite (evolves_settled _ _ Hab Hst).
    + now apply IH.
Qed.

Lemma payment_ids_fresh_evolved db db' :
  payment_ids_fresh db ->
  Forall2 evolves (payments db) (payments db') ->
  nextId db' = nextId db ->
  payment_ids_fresh db'.
Proof.
  intros [Hnd Hlt] Hev Hnext. pose proof (Forall2_evolves_ids _ _ Hev) as Hids.
  split; [now rewrite Hids|].
  rewrite Hnext. apply Forall_forall. intros p Hin.
  apply (in_map p_id) in Hin. rewrite Hids in Hin.
  apply in_map_iff in Hin as (p0 & Hid & Hin0). rewrite <- Hid.
  now apply (proj1 (Forall_forall _ _) Hlt).
Qed.

Lemma Payment_create_grows db p :
  p_id p = nextId db ->
  payment_ids_fresh db ->
  payment_ids_fresh (fst (Payment_create db p))
  /\ ledger_grows db (fst (Payment_create db p)).
Proof.
  intros Hid [Hnd Hlt]. unfold Payment_create.
  destruct (amount p <? 0); cbn [fst].
  - split; [now split | apply ledger_grows_refl].
  - split.
    + split; cbn [payments fresh with_payments nextId].
      * rewrite map_app. simpl. apply NoDup_pushed; [exact Hnd|].
        intros Hin. apply in_map_iff in Hin as (q & Hq & Hin).
        pose proof (proj1 (Forall_forall _ _) Hlt q Hin) as Hlt'.
        simpl in Hlt'. lia.
      * apply Forall_app. split.
        -- apply Forall_forall. intros q Hin.
           pose proof (proj1 (Forall_forall _ _) Hlt q Hin) as Hlt'.
           simpl in Hlt'. lia.
        -- constructor; [lia | constructor].
    + exists (payments db), [p]. split; [reflexivity|].
      apply Forall2_evolves_refl.
Qed.

Lemma enroll_offline_nextId now db p :
  nextId (snd (enroll_offline now db p)) = nextId db.
Proof.
  unfold enroll_offline.
  destruct (populateUser db (p_student p)) as [ref|]; [|reflexivity].
  destruct (findUser db (ur_id ref)) as [u|]; [|reflexivity].
  destruct (populateCourse db (p_course p)) as [c|]; [|reflexivity].
  destruct (find _ (enrolledCourses u)); simpl; [reflexivity|].
  unfold incEnrollmentCount. now destruct (findCourse _ (cr_id c)).
Qed.

Lemma enroll_online_nextId now db uid p :
  nextId (snd (enroll_online now db uid p)) = nextId db.
Proof.
  unfold enroll_online.
  destruct (findUser db uid) as [u|]; [|reflexivity].
  destruct (populateCourse db (p_course p)) as [c|]; [|reflexivity].
  simpl. unfold incEnrollmentCount. now destruct (findCourse _ (cr_id c)).
Qed.

Lemma put_approve_nextId now token id db :
  nextId (snd (put_approve now token id db)) = nextId db.
Proof.
  unfold put_approve.
  destruct (protect db token) as [r|u]; [reflexivity|].
  destruct (requireAdmin u) as [r|ok]; [reflexivity|].
  destruct (findPayment db id) as [p|]; [|reflexivity].
  destruct (may_decide db u p) as [r|[|]]; try reflexivity.
  destruct (negb (PaymentMethod_eqb (paymentMethod p) offline));
    [reflexivity|].
  destruct (negb (PaymentStatus_eqb (status p) pending)); [reflexivity|].
  now rewrite enroll_offline_nextId.
Qed.

Lemma put_reject_nextId now token id reason db :
  nextId (snd (put_reject now token id reason db)) = nextId db.
Proof.
  unfold put_reject.
  destruct (protect db token) as [r|u]; [reflexivity|].
  destruct (requireAdmin u) as [r|ok]; [reflexivity|].
  destruct (String.eqb (trim reason) ""); [reflexivity|].
  destruct (findPayment db id) as [p|]; [|reflexivity].
  destruct (may_decide db u p) as [r|[|]]; try reflexivity.
  destruct (negb (PaymentMethod_eqb (paymentMethod p) offline));
    [reflexivity|].
  now destruct (negb (PaymentStatus_eqb (status p) pending)).
Qed.

Lemma post_verify_nextId check now req db :
  nextId (snd (post_verify check now req db)) = nextId db.
Proof.
  unfold post_verify.
  destruct (student_only db (v_token req)) as [r|u]; [reflexivity|].
  destruct (negb (verify_body_valid req)); [reflexivity|].
  destruct (findPendingOrder db (v_razorpayOrderId req) (u_id u))
    as [p|]; [|reflexivity].
  destruct (negb (check _ _ _)); [reflexivity|].
  now rewrite enroll_online_nextId.
Qed.

Lemma handle_grows check r db :
  payment_ids_fresh db ->
  payment_ids_fresh (handle check r db) /\ ledger_grows db (handle check r db).
Proof.
  intros Hfresh. destruct r as [req|req|now req|now token id|now token id reason];
    cbn [handle].
  - unfold create_order.
    destruct (student_only db (o_token req)) as [r|u];
      [split; [exact Hfresh | apply ledger_grows_refl]|].
    destruct (purchasable db u (o_courseId req)) as [r|c];
      [split; [exact Hfresh | apply ledger_grows_refl]|].
    destruct (no_pending db u (o_courseId req)) as [r|ok];
      [split; [exact Hfresh | apply ledger_grows_refl]|].
    destruct (o_gateway req) as [order|];
      [|split; [exact Hfresh | apply ledger_grows_refl]].
    unfold order_write.
    match goal with
    | |- context [Payment_create db ?p] =>
        pose proof (Payment_create_grows db p eq_refl Hfresh) as H;
        destruct (Payment_create db p) as [db' [q|]]; exact H
    end.
  - unfold request_offline.
    destruct (student_only db (f_token req)) as [r|u];
      [split; [exact Hfresh | apply ledger_grows_refl]|].
    destruct (negb (offline_body_valid req));
      [split; [exact Hfresh | apply ledger_grows_refl]|].
    destruct (purchasable db u (f_courseId req)) as [r|c];
      [split; [exact Hfresh | apply ledger_grows_refl]|].
    destruct (no_pending db u (f_courseId req)) as [r|ok];
      [split; [exact Hfresh | apply ledger_grows_refl]|].
    destruct (f_file req) as [path|];
      [|split; [exact Hfresh | apply ledger_grows_refl]].
    unfold offline_write.
    match goal with
    | |- context [Payment_create db ?p] =>
        pose proof (Payment_create_grows db p eq_refl Hfresh) as H;
        destruct (Payment_create db p) as [db' [q|]]; exact H
    end.
  - pose proof (post_verify_evolves check now req db (proj1 Hfresh)) as Hev.
    split; [|now apply ledger_grows_evolved].
    apply (payment_ids_fresh_evolved db); [exact Hfresh | exact Hev|].
    apply post_verify_nextId.
  - pose proof (put_approve_evolves now token id db) as Hev.
    split; [|now apply ledger_grows_evolved].
    apply (payment_ids_fresh_evolved db); [exact Hfresh | exact Hev|].
    apply put_approve_nextId.
  - pose proof (put_reject_evolves now token id reason db) as Hev.
    split; [|now apply ledger_grows_evolved].
    apply (payment_ids_fresh_evolved db); [exact Hfresh | exact Hev|].
    apply put_reject_nextId.
Qed.

Lemma handle_all_grows check rs db :
  payment_ids_fresh db ->
  payment_ids_fresh (handle_all check rs db)
  /\ ledger_grows db (handle_all check rs db).
Proof.
  revert db. induction rs as [|r rest IH]; intros db Hfresh.
  - split; [exact Hfresh | apply ledger_grows_refl].
  - destruct (handle_grows check r db Hfresh) as [Hf1 Hg1].
    destruct (IH _ Hf1) as [Hf2 Hg2].
    split; [exact Hf2|]. now apply (ledger_grows_trans db (handle check r db)).
Qed.

(** X30: Whatever requests the five payment routes serve one after another,
    on a ledger whose ids are distinct and below the next id, the ledger
    only grows: the ids stay distinct, a payment never leaves its place,
    and one that is no longer pending (completed, failed, refunded or
    cancelled) is never written again. *)
Theorem settled_payments_are_final check rs db i p :
  payment_ids_fresh db ->
  nth_error (payments db) i = Some p ->
  status p <> pending ->
  payment_ids_fresh (handle_all check rs db)
  /\ ledger_grows db (handle_all check rs db)
  /\ nth_error (payments (handle_all check rs db)) i = Some p.
Proof.
  intros Hfresh Hi Hst.
  destruct (handle_all_grows check rs db Hfresh) as [Hf Hg].
  split; [exact Hf|]. split; [exact Hg|].
  now apply (ledger_grows_settled db).
Qed.

Lemma settled_payments_are_final_witness :
  nth_error
    (payments
       (handle_all Demo.checkSignature
          [Approve 5000 (Some 4%nat) 31; Reject 6000 (Some 3%nat) 31 "late";
           Verify 7000
             {| v_token := Some 1%nat; v_razorpayOrderId := "order_1";
                v_razorpayPaymentId := "pay_9";
                v_razorpaySignature := "sig_1" |};
           CreateOrder (Demo.order 2 "order_5")]
          (Demo.db [] [Demo.card; Demo.transfer]))) 0
  = Some Demo.card.
Proof.
  refine (proj2 (proj2 (settled_payments_are_final Demo.checkSignature _
                          (Demo.db [] [Demo.card; Demo.transfer]) 0 Demo.card
                          _ eq_refl _))).
  - split; simpl.
    + repeat constructor; simpl; intuition lia.
    + repeat constructor; simpl; lia.
  - discriminate.
Defined.
